(** * WebsiteScore: the scoring engine and its request handler

    A shallow embedding of the three analyzers of the WebsiteScore server
    ([WebsiteQualityAnalyzer], [TrustSecurityAnalyzer], [PageSpeedAnalyzer])
    and of the [POST /api/analyze] route that combines them, with the
    certificate inspection of the Security analyzer and the two pieces of the
    client that touch a score or a URL.

    Conventions of the embedding.
    - A JavaScript string is a [string] of 8-bit code units.  The white
      space of [trim] and of the [\s] class is what it is among these: TAB to
      CR, the space and the no-break space (code 160).  [toLowerCase] acts on
      the letters A to Z; every text that the source looks for in a
      lower-cased string is ASCII.
    - Counts ([.length]) are [nat] or [Z]; check scores are [Z].
    - Inside the analyzers a JavaScript number that results from a division
      or from a product with a decimal constant is an exact rational ([Q]) and
      [Math.round] is [js_round].  Every division there has a non-zero
      denominator (a guarded count or a constant point total), and the
      rounding of doubles changes none of the results: the point totals 110,
      133, 103, 101 and 97 admit no tie; a ratio of counts times 3, 4, 5 or 8
      rounds alike in both arithmetics (at a tie, an odd multiple of 1/6,
      1/8, 1/10 or 1/16, the double product is the exact half-integer, and
      elsewhere a ratio over n is at least 1/(16 n) away from a tie); and
      the three load-time products meet their thresholds only at
      3000 ms and 5000 ms, where the double product is the exact one.  The
      load time is an integer number of milliseconds.
    - The weighted sum of the route does have ties that doubles break
      differently (0.35 * 90 is 31.499999999999996), so it is computed on
      binary64 numbers ([float]) and rounded by [round_double].
    - The response header object is a finite map from (lower-case) header
      names to values; a property read is a map lookup, [None] being
      [undefined].
    - [cheerio.load] and [new URL] are library code: the parsed document is a
      forest of [Node]s, the selector strings of the source are terms of
      [Selector], and the two library entry points are parameters of the
      constructors and of the route handler.  So is
      [Number.prototype.toFixed], which formats three display values.
      Attribute values are compared as cheerio 1.x compares them: without
      regard to letter case for the attributes that HTML declares
      case-insensitive ([type], [rel], [http-equiv], ...), as they are
      written for the others.
    - One selector is built at run time, [label[for="id"]] from the [id] of an
      input.  It is modelled as the test that [for] equals that [id], which
      is what cheerio reads when the [id] holds neither a double quote nor a
      backslash; for another [id] the string is a different selector, which
      cheerio may reject (the analyzer then raises, and the route answers
      500).  The model does not follow this: [labels_plain] says of a
      document that no such [id] is looked up, and the statements that need
      it assume it.
    - The optional [details] field of a check is display text that nothing
      reads back; the model keeps [name], [value], [score], [maxScore] and
      [status]. *)

From Stdlib Require Import Ascii String ZArith QArith Qround Lia.
From Stdlib Require Import PrimFloat FloatOps SpecFloat.
From stdpp Require Import base list strings gmap pretty.

Local Open Scope string_scope.
Local Open Scope Z_scope.

(** ** JavaScript strings *)

Module JsString.

Definition is_upper (c : ascii) : bool :=
  let n := nat_of_ascii c in (Nat.leb 65 n && Nat.leb n 90)%bool.

Definition is_lower (c : ascii) : bool :=
  let n := nat_of_ascii c in (Nat.leb 97 n && Nat.leb n 122)%bool.

Definition is_digit (c : ascii) : bool :=
  let n := nat_of_ascii c in (Nat.leb 48 n && Nat.leb n 57)%bool.

(** The [\s] class, which is also the white space of [trim], among the
    8-bit characters: TAB, LF, VT, FF, CR, the space and the no-break
    space. *)
Definition is_space (c : ascii) : bool :=
  let n := nat_of_ascii c in
  ((Nat.leb 9 n && Nat.leb n 13) || Nat.eqb n 32 || Nat.eqb n 160)%bool.

Definition lower_char (c : ascii) : ascii :=
  if is_upper c then ascii_of_nat (nat_of_ascii c + 32) else c.

Definition upper_char (c : ascii) : ascii :=
  if is_lower c then ascii_of_nat (nat_of_ascii c - 32) else c.

Fixpoint map_chars (f : ascii -> ascii) (s : string) : string :=
  match s with
  | EmptyString => EmptyString
  | String c s' => String (f c) (map_chars f s')
  end.

Definition toLowerCase : string -> string := map_chars lower_char.
Definition toUpperCase : string -> string := map_chars upper_char.

(** [s.startsWith(p)] *)
Fixpoint startsWith (s p : string) : bool :=
  match p, s with
  | EmptyString, _ => true
  | String _ _, EmptyString => false
  | String a p', String b s' => (Ascii.eqb a b && startsWith s' p')%bool
  end.

(** [s.includes(sub)] *)
Fixpoint includes (s sub : string) : bool :=
  (startsWith s sub ||
   match s with
   | EmptyString => false
   | String _ s' => includes s' sub
   end)%bool.

Fixpoint trimStart (s : string) : string :=
  match s with
  | String c s' => if is_space c then trimStart s' else s
  | EmptyString => EmptyString
  end.

Fixpoint trimEnd (s : string) : string :=
  match s with
  | EmptyString => EmptyString
  | String c s' =>
      match trimEnd s' with
      | EmptyString => if is_space c then EmptyString else String c EmptyString
      | t => String c t
      end
  end.

Definition trim (s : string) : string := trimEnd (trimStart s).

(** [s.replace(/\s+/g, ' ')]: every maximal run of white space becomes one
    space. *)
Fixpoint collapse_ws (s : string) : string :=
  match s with
  | EmptyString => EmptyString
  | String c s' =>
      if is_space c then
        match s' with
        | String d _ => if is_space d then collapse_ws s'
                        else String " " (collapse_ws s')
        | EmptyString => String " " EmptyString
        end
      else String c (collapse_ws s')
  end.

(** [s.split(' ')] *)
Fixpoint split_space_go (cur : string) (s : string) : list string :=
  match s with
  | EmptyString => [String.rev cur]
  | String c s' =>
      if Ascii.eqb c " " then String.rev cur :: split_space_go EmptyString s'
      else split_space_go (String c cur) s'
  end.

Definition split_space (s : string) : list string :=
  split_space_go EmptyString s.

(** [s.substring(0, n)] *)
Definition substring0 (n : nat) (s : string) : string :=
  String.substring 0 n s.

Definition quote : string := String (ascii_of_nat 34) EmptyString.

(** A string is truthy when it is not empty. *)
Definition truthy (s : string) : bool :=
  match s with EmptyString => false | _ => true end.

End JsString.

(** An optional string stands for a value that is a string or [undefined]
    (an absent attribute, header or property). *)
Definition truthy (v : option string) : bool :=
  match v with
  | Some s => JsString.truthy s
  | None => false
  end.

(** [a || b] on such values. *)
Definition js_or (a b : option string) : option string :=
  if truthy a then a else b.

(** [v || 'literal'] *)
Definition or_default (v : option string) (d : string) : string :=
  match v with
  | Some s => if JsString.truthy s then s else d
  | None => d
  end.

(** [Math.round]: the nearest integer, ties towards +infinity. *)
Definition js_round (x : Q) : Z := Qfloor (x + (1 # 2)).

(** [a / b] on integer operands. *)
Definition js_div (a b : Z) : Q := inject_Z a / inject_Z b.

Definition zlen {A} (l : list A) : Z := Z.of_nat (List.length l).

Definition show_nat (n : nat) : string := pretty n.
Definition show_Z (n : Z) : string := pretty n.


(** ** JavaScript values that are not known to be strings

    The [url] member of a request body and the body of an auxiliary response
    ([response.data], which the HTTP client may have parsed) can be any JSON
    value.  [JObj repr] is an object or an array, [repr] being the result of
    its string conversion. *)
Inductive JsVal : Type :=
| JUndefined
| JNull
| JBool (b : bool)
| JNum (n : Z)
| JStr (s : string)
| JObj (repr : string).

Module JsVal.

Definition truthy (v : JsVal) : bool :=
  match v with
  | JUndefined | JNull => false
  | JBool b => b
  | JNum n => negb (Z.eqb n 0)
  | JStr s => JsString.truthy s
  | JObj _ => true
  end.

(** [v || null] *)
Definition or_null (v : JsVal) : JsVal := if truthy v then v else JNull.

(** [v !== null] and [v !== false] *)
Definition is_null (v : JsVal) : bool :=
  match v with JNull => true | _ => false end.

Definition is_false (v : JsVal) : bool :=
  match v with JBool false => true | _ => false end.

(** The string conversion that template literals and [new URL] apply. *)
Definition to_string (v : JsVal) : string :=
  match v with
  | JUndefined => "undefined"
  | JNull => "null"
  | JBool true => "true"
  | JBool false => "false"
  | JNum n => show_Z n
  | JStr s => s
  | JObj repr => repr
  end.

End JsVal.

(** ** The parsed document

    What [cheerio.load] returns: a forest of elements and text nodes.  Tag and
    attribute names are in lower case, as the parser leaves them. *)
#[warnings="-register-all"] Inductive Node : Type :=
| Element (tagName : string) (attribs : list (string * string))
          (children : list Node)
| TextNode (data : string).

Definition Dom : Type := list Node.

(** An element together with the chain of its ancestors, nearest first. *)
Record Elem : Type := mkElem {
  e_tag : string;
  e_attribs : list (string * string);
  e_children : list Node;
  e_ancestors : list (string * list (string * string))
}.

Module Cheerio.

Fixpoint get_attr (n : string) (l : list (string * string)) : option string :=
  match l with
  | [] => None
  | (k, v) :: r => if String.eqb k n then Some v else get_attr n r
  end.

(** The elements of a subtree in document order. *)
Fixpoint walk (anc : list (string * list (string * string))) (n : Node)
  : list Elem :=
  match n with
  | TextNode _ => []
  | Element t a cs =>
      mkElem t a cs anc :: List.flat_map (walk ((t, a) :: anc)) cs
  end.

Definition elements (d : Dom) : list Elem := List.flat_map (walk []) d.

(** [textContent] of a node: the text of all its descendants. *)
Fixpoint node_text (n : Node) : string :=
  match n with
  | TextNode d => d
  | Element _ _ cs => String.concat "" (List.map node_text cs)
  end.

(** *** Selectors *)

Inductive AttrTest : Type :=
| Has (n : string)                (* [n] *)
| Equals (n v : string)           (* [n="v"] *)
| Contains (n v : string)         (* [n*="v"] *)
| Prefixed (n v : string).        (* [n^="v"] *)

(** A compound selector: an optional tag, attribute tests, and the
    attribute tests under [:not(...)]. *)
Record Compound : Type := mkCompound {
  sel_tag : option string;
  sel_attrs : list AttrTest;
  sel_not : list AttrTest
}.

(** [a] alone, or [a b] (a descendant combinator). *)
Inductive Complex : Type :=
| Simple (c : Compound)
| Descendant (a c : Compound).

(** A comma-separated selector list. *)
Definition Selector : Type := list Complex.

(** The attributes whose values selectors compare without regard to
    letter case in an HTML document. *)
Definition caseInsensitiveAttributes : list string :=
  ["accept"; "accept-charset"; "align"; "alink"; "axis"; "bgcolor";
   "charset"; "checked"; "clear"; "codetype"; "color"; "compact"; "declare";
   "defer"; "dir"; "direction"; "disabled"; "enctype"; "face"; "frame";
   "hreflang"; "http-equiv"; "lang"; "language"; "link"; "media"; "method";
   "multiple"; "nohref"; "noresize"; "noshade"; "nowrap"; "readonly"; "rel";
   "rev"; "rules"; "scope"; "scrolling"; "selected"; "shape"; "target";
   "text"; "type"; "valign"; "valuetype"; "vlink"].

Definition ignoreCase (n : string) : bool :=
  existsb (String.eqb n) caseInsensitiveAttributes.

(** The value of an attribute and the value of a selector, as the
    comparison takes them. *)
Definition comparable (n : string) (x : string) : string :=
  if ignoreCase n then JsString.toLowerCase x else x.

Definition test_attr (t : AttrTest) (a : list (string * string)) : bool :=
  match t with
  | Has n => match get_attr n a with Some _ => true | None => false end
  | Equals n v =>
      match get_attr n a with
      | Some x => String.eqb (comparable n x) (comparable n v)
      | None => false
      end
  | Contains n v =>
      match get_attr n a with
      | Some x =>
          (JsString.truthy v
           && JsString.includes (comparable n x) (comparable n v))%bool
      | None => false
      end
  | Prefixed n v =>
      match get_attr n a with
      | Some x =>
          (JsString.truthy v
           && JsString.startsWith (comparable n x) (comparable n v))%bool
      | None => false
      end
  end.

Definition matches_compound (c : Compound) (t : string)
           (a : list (string * string)) : bool :=
  ((match sel_tag c with Some t' => String.eqb t t' | None => true end)
   && forallb (fun x => test_attr x a) (sel_attrs c)
   && forallb (fun x => negb (test_attr x a)) (sel_not c))%bool.

Definition matches_complex (x : Complex) (e : Elem) : bool :=
  match x with
  | Simple c => matches_compound c (e_tag e) (e_attribs e)
  | Descendant a c =>
      (matches_compound c (e_tag e) (e_attribs e)
       && existsb (fun p => matches_compound a (fst p) (snd p))
                  (e_ancestors e))%bool
  end.

Definition matches (s : Selector) (e : Elem) : bool :=
  existsb (fun x => matches_complex x e) s.

(** [$(selector)]: the matching elements, in document order. *)
Definition select (d : Dom) (s : Selector) : list Elem :=
  List.filter (matches s) (elements d).

(** [.attr(name)] of a selection: the attribute of its first element. *)
Definition attr (l : list Elem) (n : string) : option string :=
  match l with
  | [] => None
  | e :: _ => get_attr n (e_attribs e)
  end.

Definition elem_text (e : Elem) : string :=
  String.concat "" (List.map node_text (e_children e)).

(** [.text()] of a selection: the texts of its elements, concatenated. *)
Definition text (l : list Elem) : string :=
  String.concat "" (List.map elem_text l).

(** [$(el).children()]: the child elements. *)
Definition children_of (e : Elem) : list Elem :=
  List.flat_map
    (fun n => match n with
              | Element t a cs =>
                  [mkElem t a cs ((e_tag e, e_attribs e) :: e_ancestors e)]
              | TextNode _ => []
              end)
    (e_children e).

(** [$(el).find(selector)]: the matching descendants. *)
Definition find (e : Elem) (s : Selector) : list Elem :=
  List.filter (matches s)
    (List.flat_map (walk ((e_tag e, e_attribs e) :: e_ancestors e))
                   (e_children e)).

(** [$(el).parent().prop('tagName')] *)
Definition parent_tagName (e : Elem) : option string :=
  match e_ancestors e with
  | [] => None
  | (t, _) :: _ => Some (JsString.toUpperCase t)
  end.

(** Shorthands for the selectors of the source. *)
Definition tag (t : string) : Compound := mkCompound (Some t) [] [].
Definition tag_with (t : string) (l : list AttrTest) : Compound :=
  mkCompound (Some t) l [].
Definition any_with (l : list AttrTest) : Compound := mkCompound None l [].

End Cheerio.

Import Cheerio.

(** ** Checks, categories and reports *)

Inductive Status : Type := good | warning | error.

Record Check : Type := mkCheck {
  name : string;
  value : string;
  score : Z;
  maxScore : Z;
  status : Status
}.

(** [checks] is a JavaScript object filled key by key: an association list
    in insertion order, which is the order of [Object.values]. *)
Definition Checks : Type := list (string * Check).

Definition values {A} (o : list (string * A)) : list A := List.map snd o.

(** [l.reduce((sum, c) => sum + f(c), 0)] *)
Definition reduce_sum (f : Check -> Z) (l : list Check) : Z :=
  List.fold_left (fun sum c => sum + f c) l 0.

Record Category : Type := mkCategory {
  cat_name : string;
  checks : Checks;
  cat_score : Z;
  cat_maxScore : Z
}.

(** The object every [analyzeX] method returns. *)
Definition category (n : string) (cs : Checks) : Category :=
  {| cat_name := n;
     checks := cs;
     cat_score := reduce_sum score (values cs);
     cat_maxScore := reduce_sum maxScore (values cs) |}.

(** [checks.key] *)
Fixpoint get_check (key : string) (cs : Checks) : option Check :=
  match cs with
  | [] => None
  | (k, c) :: r => if String.eqb k key then Some c else get_check key r
  end.

Record Results : Type := mkResults {
  res_score : Z;
  res_maxScore : Z;
  categories : list (string * Category)
}.

(** [new URL(url)]: the members the server reads. *)
Record URL : Type := mkURL {
  protocol : string;
  host : string;
  hostname : string
}.

Definition slen (s : string) : Z := Z.of_nat (String.length s).

(** ** WebsiteQualityAnalyzer *)

Record AdditionalData : Type := mkAdditionalData {
  ad_robotsTxt : JsVal;
  ad_sitemap : JsVal;
  ad_llmsTxt : JsVal
}.

Module WebsiteQualityAnalyzer.

(** The fields the constructor sets. *)
Record t : Type := mk {
  url : string;
  dollar : Dom;
  headers : gmap string string;
  html : string;
  parsedUrl : URL;
  robotsTxt : JsVal;
  sitemap : JsVal;
  llmsTxt : JsVal
}.

Section Constructor.
Variable cheerio_load : string -> Dom.
Variable new_URL : string -> option URL.

(** [None] when [new URL(url)] throws. *)
Definition new (url : string) (html : string)
           (headers : gmap string string) (additionalData : AdditionalData)
  : option t :=
  match new_URL url with
  | None => None
  | Some u =>
      Some {| url := url;
              dollar := cheerio_load html;
              headers := headers;
              html := html;
              parsedUrl := u;
              robotsTxt := JsVal.or_null (ad_robotsTxt additionalData);
              sitemap := JsVal.or_null (ad_sitemap additionalData);
              llmsTxt := JsVal.or_null (ad_llmsTxt additionalData) |}
  end.
End Constructor.

Definition analyzeSiteQuality (this : t) : Category :=
  let S := select (dollar this) in
  (* Title check (max 20 points) *)
  let title := JsString.trim (text (S [Simple (tag "title")])) in
  let titleLength := slen title in
  let titleResult : Z * Status :=
    if ((titleLength >=? 30) && (titleLength <=? 60))%bool then (20, good)
    else if ((titleLength >? 0) && (titleLength <? 30))%bool then (16, warning)
    else if titleLength >? 60 then (12, warning)
    else (0, error) in
  let titleScore := fst titleResult in
  let titleStatus := snd titleResult in
  let c_title :=
    {| name := "Title";
       value := if JsString.truthy title then title else "Missing";
       score := titleScore; maxScore := 20; status := titleStatus |} in
  (* Meta Description check (max 15 points) *)
  let metaDesc :=
    or_default
      (attr (S [Simple (tag_with "meta" [Equals "name" "description"])])
            "content") "" in
  let metaDescLength := slen metaDesc in
  let metaDescResult : Z * Status :=
    if ((metaDescLength >=? 120) && (metaDescLength <=? 160))%bool
    then (15, good)
    else if ((metaDescLength >? 0) && (metaDescLength <? 120))%bool
    then (10, warning)
    else if metaDescLength >? 160 then (8, warning)
    else (0, error) in
  let metaDescScore := fst metaDescResult in
  let metaDescStatus := snd metaDescResult in
  let c_metaDescription :=
    {| name := "Meta Description";
       value := if JsString.truthy metaDesc then metaDesc else "Missing";
       score := metaDescScore; maxScore := 15; status := metaDescStatus |} in
  (* Favicon check (max 5 points) *)
  let favicon :=
    attr (S [Simple (tag_with "link" [Equals "rel" "icon"]);
             Simple (tag_with "link" [Equals "rel" "shortcut icon"]);
             Simple (tag_with "link" [Contains "rel" "icon"])]) "href" in
  let faviconScore := if truthy favicon then 5 else 0 in
  let c_favicon :=
    {| name := "Favicon";
       value := if truthy favicon then "Present" else "Missing";
       score := faviconScore; maxScore := 5;
       status := if truthy favicon then good else error |} in
  (* Viewport meta check (max 5 points) *)
  let viewport :=
    attr (S [Simple (tag_with "meta" [Equals "name" "viewport"])])
         "content" in
  let viewportScore := if truthy viewport then 5 else 0 in
  let c_viewport :=
    {| name := "Viewport Meta";
       value := if truthy viewport then "Present" else "Missing";
       score := viewportScore; maxScore := 5;
       status := if truthy viewport then good else error |} in
  (* Headings structure check (max 5 points) *)
  let h1Count := List.length (S [Simple (tag "h1")]) in
  let hasH1 := Nat.eqb h1Count 1 in
  let headingsScore :=
    if hasH1 then 5 else if Nat.ltb 1 h1Count then 3 else 0 in
  let c_headings :=
    {| name := "Headings";
       value := show_nat h1Count ++ " H1 tag(s)";
       score := headingsScore; maxScore := 5;
       status := if hasH1 then good else warning |} in
  category "Site Quality"
    [("title", c_title); ("metaDescription", c_metaDescription);
     ("favicon", c_favicon); ("viewport", c_viewport);
     ("headings", c_headings)].

(** The image counts of [analyzeContentQuality]. *)
Definition allImages (this : t) : Z :=
  zlen (select (dollar this) [Simple (tag "img")]).

Definition webpImages (this : t) : Z :=
  zlen (select (dollar this)
          [Simple (tag_with "img" [Contains "src" ".webp"]);
           Simple (tag_with "source" [Equals "type" "image/webp"])]).

Definition pictureElements (this : t) : Z :=
  zlen (select (dollar this) [Simple (tag "picture")]).

Definition optimizedRatio (this : t) : Q :=
  if allImages this >? 0
  then js_div (webpImages this + pictureElements this) (allImages this)
  else 1%Q.

Definition imageOptScore (this : t) : Z := js_round (optimizedRatio this * 4).

Definition analyzeContentQuality (this : t) : Category :=
  let S := select (dollar this) in
  (* Word count check (max 5 points) *)
  let bodyText :=
    JsString.trim (JsString.collapse_ws (text (S [Simple (tag "body")]))) in
  let wordCount :=
    zlen (List.filter (fun w => slen w >? 0) (JsString.split_space bodyText)) in
  let wordCountResult : Z * Status :=
    if wordCount >=? 300 then (5, good)
    else if wordCount >=? 100 then (3, warning)
    else (0, warning) in
  let wordCountScore := fst wordCountResult in
  let wordCountStatus := snd wordCountResult in
  let c_wordCount :=
    {| name := "Content Length";
       value := show_Z wordCount ++ " words";
       score := wordCountScore; maxScore := 5; status := wordCountStatus |} in
  (* Image optimization check (max 4 points) *)
  let allImages := allImages this in
  let webpImages := webpImages this in
  let pictureElements := pictureElements this in
  let imageOptScore := imageOptScore this in
  let c_imageOptimization :=
    {| name := "Image Optimization";
       value := show_Z (webpImages + pictureElements) ++ "/"
                ++ show_Z allImages ++ " optimized";
       score := imageOptScore; maxScore := 4;
       status := if imageOptScore >=? 3 then good
                 else if imageOptScore >=? 1 then warning else error |} in
  category "Content Quality"
    [("wordCount", c_wordCount); ("imageOptimization", c_imageOptimization)].

(** The pattern of the tag checks below:
    [{ name, value: v || 'Missing', score: v ? pts : 0, maxScore: pts,
       status: v ? 'good' : 'warning' }]. *)
Definition tag_check (n : string) (v : option string) (pts : Z) : Check :=
  {| name := n;
     value := or_default v "Missing";
     score := if truthy v then pts else 0;
     maxScore := pts;
     status := if truthy v then good else warning |}.

Definition meta_property (this : t) (p : string) : option string :=
  attr (select (dollar this) [Simple (tag_with "meta" [Equals "property" p])])
       "content".

Definition meta_name (this : t) (n : string) : option string :=
  attr (select (dollar this) [Simple (tag_with "meta" [Equals "name" n])])
       "content".

Definition analyzeOpenGraph (this : t) : Category :=
  let ogTitle := meta_property this "og:title" in
  let ogDesc := meta_property this "og:description" in
  let ogImage := meta_property this "og:image" in
  category "Open Graph"
    [("ogTitle", tag_check "OG Title" ogTitle 5);
     ("ogDescription", tag_check "OG Description" ogDesc 5);
     ("ogImage", tag_check "OG Image" ogImage 5)].

Definition analyzeTwitterCards (this : t) : Category :=
  let twitterCard := meta_name this "twitter:card" in
  let twitterTitle := meta_name this "twitter:title" in
  let twitterDesc := meta_name this "twitter:description" in
  let twitterImage := meta_name this "twitter:image" in
  category "Twitter Cards"
    [("cardType", tag_check "Card Type" twitterCard 3);
     ("twitterTitle", tag_check "Twitter Title" twitterTitle 3);
     ("twitterDescription", tag_check "Twitter Description" twitterDesc 2);
     ("twitterImage", tag_check "Twitter Image" twitterImage 2)].

Definition analyzeTechnicalSeo (this : t) : Category :=
  let S := select (dollar this) in
  let canonical :=
    attr (S [Simple (tag_with "link" [Equals "rel" "canonical"])]) "href" in
  let htmlLang := attr (S [Simple (tag "html")]) "lang" in
  let charset :=
    js_or (attr (S [Simple (tag_with "meta" [Has "charset"])]) "charset")
          (attr (S [Simple (tag_with "meta"
                              [Equals "http-equiv" "Content-Type"])])
                "content") in
  let jsonLd :=
    Nat.ltb 0 (List.length
                 (S [Simple (tag_with "script"
                                [Equals "type" "application/ld+json"])])) in
  category "Technical SEO"
    [("canonical", tag_check "Canonical URL" canonical 5);
     ("htmlLang", tag_check "HTML Lang" htmlLang 3);
     ("charset", tag_check "Character Encoding" charset 3);
     ("schemaJsonLd",
      {| name := "Schema.org JSON-LD";
         value := if jsonLd then "Present" else "Missing";
         score := if jsonLd then 4 else 0;
         maxScore := 4;
         status := if jsonLd then good else warning |})].

(** The pattern of the three file checks:
    [has = v !== null && v !== false]. *)
Definition has_file (v : JsVal) : bool :=
  (negb (JsVal.is_null v) && negb (JsVal.is_false v))%bool.

Definition analyzeCrawlability (this : t) : Category :=
  (* robots.txt check (max 4 points) *)
  let hasRobots := has_file (robotsTxt this) in
  let c_robotsTxt :=
    {| name := "robots.txt";
       value := if hasRobots then "Present" else "Missing";
       score := if hasRobots then 4 else 0;
       maxScore := 4;
       status := if hasRobots then good else warning |} in
  (* sitemap.xml check (max 4 points) *)
  let hasSitemap := has_file (sitemap this) in
  let c_sitemap :=
    {| name := "Sitemap";
       value := if hasSitemap then "Present" else "Missing";
       score := if hasSitemap then 4 else 0;
       maxScore := 4;
       status := if hasSitemap then good else warning |} in
  (* llms.txt check (max 3 points) *)
  let hasLlmsTxt := has_file (llmsTxt this) in
  let c_llmsTxt :=
    {| name := "llms.txt";
       value := if hasLlmsTxt then "Present" else "Missing";
       score := if hasLlmsTxt then 3 else 0;
       maxScore := 3;
       status := if hasLlmsTxt then good else error |} in
  category "Crawlability"
    [("robotsTxt", c_robotsTxt); ("sitemap", c_sitemap);
     ("llmsTxt", c_llmsTxt)].

(** [allChecks]: the checks of the six categories, spread into one array. *)
Definition allChecks (this : t) : list Check :=
  values (checks (analyzeSiteQuality this))
  ++ values (checks (analyzeContentQuality this))
  ++ values (checks (analyzeOpenGraph this))
  ++ values (checks (analyzeTwitterCards this))
  ++ values (checks (analyzeTechnicalSeo this))
  ++ values (checks (analyzeCrawlability this)).

Definition earnedPoints (this : t) : Z := reduce_sum score (allChecks this).
Definition maxPoints (this : t) : Z := reduce_sum maxScore (allChecks this).

Definition analyze (this : t) : Results :=
  {| res_score := js_round (js_div (earnedPoints this) (maxPoints this) * 100);
     res_maxScore := 100;
     categories :=
       [("siteQuality", analyzeSiteQuality this);
        ("contentQuality", analyzeContentQuality this);
        ("openGraph", analyzeOpenGraph this);
        ("twitterCards", analyzeTwitterCards this);
        ("technicalSeo", analyzeTechnicalSeo this);
        ("crawlability", analyzeCrawlability this)] |}.

End WebsiteQualityAnalyzer.

(** ** TrustSecurityAnalyzer

    [analyzeSSL] and [getSSLInfo] open a TLS connection and read the clock;
    no method of the class and no route calls them; they are modelled apart,
    in [Ssl]. *)

Module TrustSecurityAnalyzer.

Record t : Type := mk {
  url : string;
  headers : gmap string string;
  html : string;
  parsedUrl : URL
}.

Section Constructor.
Variable new_URL : string -> option URL.

Definition new (url : string) (headers : gmap string string)
           (html : string) : option t :=
  match new_URL url with
  | None => None
  | Some u =>
      Some {| url := url; headers := headers; html := html;
              parsedUrl := u |}
  end.
End Constructor.

(** [s.match(/[\d.]+/)] succeeds when [s] has a digit or a dot. *)
Fixpoint match_version (s : string) : bool :=
  match s with
  | EmptyString => false
  | String c s' =>
      (JsString.is_digit c || Ascii.eqb c "." || match_version s')%bool
  end.

(** [s.match(/\d{5}/)] succeeds when [s] has five digits in a row. *)
Fixpoint digits_run (n : nat) (s : string) : bool :=
  match n with
  | O => true
  | S n' =>
      match s with
      | String c s' => (JsString.is_digit c && digits_run n' s')%bool
      | EmptyString => false
      end
  end.

Fixpoint match_zip (s : string) : bool :=
  (digits_run 5 s ||
   match s with
   | EmptyString => false
   | String _ s' => match_zip s'
   end)%bool.

(** The pattern of the header checks:
    [{ name, value: h ? present : 'Missing', score: h ? pts : 0,
       maxScore: pts, status: h ? 'good' : 'warning' }]. *)
Definition header_check (n : string) (h : option string) (present : string)
           (pts : Z) : Check :=
  {| name := n;
     value := if truthy h then present else "Missing";
     score := if truthy h then pts else 0;
     maxScore := pts;
     status := if truthy h then good else warning |}.

Definition hstsScore (hsts : option string) : Z :=
  match hsts with
  | Some h =>
      if JsString.truthy h then
        let s := 10 in
        let s := if negb (JsString.includes h "includeSubDomains") then 7
                 else s in
        let s := if negb (JsString.includes h "preload") then Z.min s 8
                 else s in
        s
      else 0
  | None => 0
  end.

Definition analyzeSecurityHeaders (this : t) : Category :=
  let H := fun k : string => headers this !! k in
  (* HTTPS check (max 20 points) *)
  let isHttps := String.eqb (protocol (parsedUrl this)) "https:" in
  let c_https :=
    {| name := "HTTPS";
       value := if isHttps then "Secure connection enabled"
                else "Not using HTTPS";
       score := if isHttps then 20 else 0;
       maxScore := 20;
       status := if isHttps then good else error |} in
  (* Strict-Transport-Security (HSTS) (max 10 points) *)
  let hsts := H "strict-transport-security" in
  let c_hsts :=
    {| name := "HTTP Strict Transport Security";
       value := if truthy hsts
                then "HSTS: " ++ JsString.substring0 60 (default "" hsts)
                     ++ (if slen (default "" hsts) >? 60 then "..." else "")
                else "Missing";
       score := hstsScore hsts;
       maxScore := 10;
       status := if truthy hsts then good else warning |} in
  (* Content-Security-Policy (max 10 points) *)
  let csp := H "content-security-policy" in
  (* X-Frame-Options (max 5 points) *)
  let xFrameOptions := H "x-frame-options" in
  (* X-Content-Type-Options (max 5 points) *)
  let xContentType := H "x-content-type-options" in
  (* X-XSS-Protection (max 3 points) *)
  let xssProtection := H "x-xss-protection" in
  (* Referrer-Policy (max 5 points) *)
  let referrerPolicy := H "referrer-policy" in
  (* Permissions-Policy (max 5 points) *)
  let permissionsPolicy :=
    js_or (H "permissions-policy") (H "feature-policy") in
  (* Cache-Control for security (max 3 points) *)
  let cacheControl := H "cache-control" in
  let hasSecureCache :=
    (truthy cacheControl
     && (JsString.includes (default "" cacheControl) "no-store"
         || JsString.includes (default "" cacheControl) "private"))%bool in
  let c_secureCache :=
    {| name := "Secure Caching";
       value := or_default cacheControl "Not configured";
       score := if hasSecureCache then 3 else 1;
       maxScore := 3;
       status := if hasSecureCache then good else warning |} in
  (* Cross-Origin headers (max 4 points) *)
  let coep := H "cross-origin-embedder-policy" in
  let coop := H "cross-origin-opener-policy" in
  let corp := H "cross-origin-resource-policy" in
  let crossOriginCount :=
    (if truthy coep then 1 else 0) + (if truthy coop then 1 else 0)
    + (if truthy corp then 1 else 0) in
  let c_crossOrigin :=
    {| name := "Cross-Origin Isolation";
       value := if crossOriginCount >? 0
                then show_Z crossOriginCount ++ "/3 policies set"
                else "Not configured";
       score := Z.min 4 (crossOriginCount * 2);
       maxScore := 4;
       status := if crossOriginCount >=? 2 then good
                 else if crossOriginCount >? 0 then warning else warning |} in
  category "Security Headers"
    [("https", c_https);
     ("hsts", c_hsts);
     ("csp", header_check "Content Security Policy" csp "CSP configured" 10);
     ("frameProtection",
      header_check "Clickjacking Protection" xFrameOptions
        ("X-Frame-Options: " ++ default "" xFrameOptions) 5);
     ("mimeProtection",
      header_check "MIME Sniffing Protection" xContentType
        ("X-Content-Type-Options: " ++ default "" xContentType) 5);
     ("xssProtection",
      header_check "XSS Protection Header" xssProtection
        ("X-XSS-Protection: " ++ default "" xssProtection) 3);
     ("referrerPolicy",
      header_check "Referrer Policy" referrerPolicy
        ("Referrer-Policy: " ++ default "" referrerPolicy) 5);
     ("permissionsPolicy",
      header_check "Permissions Policy" permissionsPolicy "Configured" 5);
     ("secureCache", c_secureCache);
     ("crossOrigin", c_crossOrigin)].

Definition analyzeDomainTrust (this : t) : Category :=
  category "Domain Trust"
    [("domainRating",
      {| name := "Domain Rating"; value := "Not available";
         score := 0; maxScore := 25; status := warning |});
     ("domainAge",
      {| name := "Domain Age"; value := "Could not determine";
         score := 0; maxScore := 5; status := warning |});
     ("registrar",
      {| name := "Registrar"; value := "Could not determine";
         score := 0; maxScore := 0; status := warning |});
     ("country",
      {| name := "Country"; value := "Could not determine";
         score := 0; maxScore := 0; status := warning |})].

Definition analyzeInfrastructure (this : t) : Category :=
  let H := fun k : string => headers this !! k in
  let server := or_default (H "server") "" in
  let via := or_default (H "via") "" in
  let cfRay := H "cf-ray" in
  let xVercelId := H "x-vercel-id" in
  let xAmzCfId := H "x-amz-cf-id" in
  let xCache := or_default (H "x-cache") "" in
  let xPoweredBy := or_default (H "x-powered-by") "" in
  let serverLower := JsString.toLowerCase server in
  let provider :=
    if truthy cfRay then "Cloudflare"
    else if truthy xVercelId then "Vercel"
    else if (truthy xAmzCfId || JsString.includes xCache "cloudfront")%bool
    then "AWS CloudFront"
    else if JsString.includes serverLower "nginx" then "Nginx"
    else if JsString.includes serverLower "apache" then "Apache"
    else if JsString.includes serverLower "netlify" then "Netlify"
    else if JsString.includes via "google" then "Google Cloud"
    else if (JsString.includes serverLower "microsoft"
             || JsString.includes serverLower "iis")%bool
    then "Microsoft IIS"
    else "Unknown" in
  let known := negb (String.eqb provider "Unknown") in
  let c_provider :=
    {| name := "Hosting Provider"; value := provider;
       score := 0; maxScore := 0;
       status := if known then good else warning |} in
  (* CDN Detection (max 5 points) *)
  let hasCDN :=
    (truthy cfRay || truthy xAmzCfId || JsString.includes xCache "HIT"
     || JsString.includes xCache "cloudfront"
     || JsString.includes via "cloudflare" || JsString.includes via "akamai"
     || JsString.includes via "fastly")%bool in
  let c_cdn :=
    {| name := "CDN Usage";
       value := if hasCDN then "CDN detected" else "No CDN detected";
       score := if hasCDN then 5 else 0;
       maxScore := 5;
       status := if hasCDN then good else warning |} in
  (* Server Version Exposure (max 3 points) *)
  let exposesVersion := (match_version server || match_version xPoweredBy)%bool in
  let c_serverExposure :=
    {| name := "Server Version Hidden";
       value := if exposesVersion then "Version exposed" else "Version hidden";
       score := if exposesVersion then 0 else 3;
       maxScore := 3;
       status := if exposesVersion then warning else good |} in
  (* X-Powered-By removal check (max 2 points) *)
  let c_poweredBy :=
    {| name := "X-Powered-By Hidden";
       value := if JsString.truthy xPoweredBy then "Exposed: " ++ xPoweredBy
                else "Hidden";
       score := if JsString.truthy xPoweredBy then 0 else 2;
       maxScore := 2;
       status := if JsString.truthy xPoweredBy then warning else good |} in
  (* WAF Detection (informational) *)
  let hasWAF :=
    (truthy cfRay || truthy (H "x-sucuri-id") || truthy (H "x-cdn")
     || JsString.includes serverLower "cloudflare"
     || JsString.includes serverLower "sucuri")%bool in
  let c_waf :=
    {| name := "Web Application Firewall";
       value := if hasWAF then "WAF detected" else "No WAF detected";
       score := 0; maxScore := 0;
       status := if hasWAF then good else warning |} in
  category "Infrastructure"
    [("provider", c_provider); ("cdn", c_cdn);
     ("serverExposure", c_serverExposure); ("poweredBy", c_poweredBy);
     ("waf", c_waf)].

(** The pattern of the trust-indicator checks. *)
Definition indicator_check (n : string) (found : bool) (yes no : string)
           (pts : Z) : Check :=
  {| name := n;
     value := if found then yes else no;
     score := if found then pts else 0;
     maxScore := pts;
     status := if found then good else warning |}.

Definition analyzeTrustIndicators (this : t) : Category :=
  let htmlLower := JsString.toLowerCase (html this) in
  let inc := JsString.includes htmlLower in
  (* Privacy Policy detection (max 4 points) *)
  let hasPrivacyPolicy :=
    (inc "privacy policy" || inc "privacy-policy" || inc "/privacy"
     || inc "datenschutz")%bool in
  (* Terms of Service detection (max 3 points) *)
  let hasTerms :=
    (inc "terms of service" || inc "terms-of-service"
     || inc "terms and conditions" || inc "/terms" || inc "tos")%bool in
  (* Contact information detection (max 3 points) *)
  let hasContact :=
    (inc "contact us" || inc "contact-us" || inc "/contact" || inc "mailto:"
     || inc "tel:" || inc "support@" || inc "info@")%bool in
  (* Cookie consent detection (max 3 points) *)
  let hasCookieConsent :=
    (inc "cookie"
     && (inc "consent" || inc "accept" || inc "policy" || inc "banner"))%bool in
  (* About section (max 2 points) *)
  let hasAbout :=
    (inc "about us" || inc "about-us" || inc "/about" || inc "our team"
     || inc "our story" || inc "who we are")%bool in
  (* Physical Address (max 2 points) *)
  let hasAddress :=
    (inc "address" || match_zip (html this) || inc "street" || inc "suite"
     || inc "floor")%bool in
  (* Social Media Links (max 2 points) *)
  let hasSocial :=
    (inc "twitter.com" || inc "facebook.com" || inc "linkedin.com"
     || inc "instagram.com" || inc "youtube.com" || inc "x.com")%bool in
  (* Trust Badges/Seals (max 2 points) *)
  let hasTrustBadges :=
    (inc "ssl" || inc "secure" || inc "verified" || inc "certified"
     || inc "trust" || inc "norton" || inc "mcafee" || inc "bbb")%bool in
  (* GDPR Compliance indicators (max 2 points) *)
  let hasGDPR :=
    (inc "gdpr" || inc "data protection" || inc "data subject"
     || inc "right to be forgotten" || inc "data controller")%bool in
  category "Trust Indicators"
    [("privacyPolicy",
      indicator_check "Privacy Policy" hasPrivacyPolicy
        "Found" "Not detected" 4);
     ("termsOfService",
      indicator_check "Terms of Service" hasTerms "Found" "Not detected" 3);
     ("contactInfo",
      indicator_check "Contact Information" hasContact
        "Found" "Not detected" 3);
     ("cookieConsent",
      indicator_check "Cookie Notice" hasCookieConsent
        "Detected" "Not detected" 3);
     ("aboutSection",
      indicator_check "About Section" hasAbout "Found" "Not detected" 2);
     ("physicalAddress",
      indicator_check "Physical Address" hasAddress
        "Detected" "Not found" 2);
     ("socialMedia",
      indicator_check "Social Media Presence" hasSocial
        "Links found" "Not detected" 2);
     ("trustBadges",
      indicator_check "Trust Indicators" hasTrustBadges
        "Found" "Not detected" 2);
     ("gdprCompliance",
      indicator_check "GDPR Compliance" hasGDPR
        "Indicators found" "Not detected" 2)].

Definition allChecks (this : t) : list Check :=
  values (checks (analyzeSecurityHeaders this))
  ++ values (checks (analyzeDomainTrust this))
  ++ values (checks (analyzeInfrastructure this))
  ++ values (checks (analyzeTrustIndicators this)).

Definition earnedPoints (this : t) : Z := reduce_sum score (allChecks this).
Definition maxPoints (this : t) : Z := reduce_sum maxScore (allChecks this).

Definition analyze (this : t) : Results :=
  {| res_score := js_round (js_div (earnedPoints this) (maxPoints this) * 100);
     res_maxScore := 100;
     categories :=
       [("securityHeaders", analyzeSecurityHeaders this);
        ("domainTrust", analyzeDomainTrust this);
        ("infrastructure", analyzeInfrastructure this);
        ("trustIndicators", analyzeTrustIndicators this)] |}.

End TrustSecurityAnalyzer.

(** ** PageSpeedAnalyzer *)

Definition Qltb (a b : Q) : bool := negb (Qle_bool b a).

Module PageSpeedAnalyzer.

(** [loadTime] is the difference of two [Date.now()] readings, an integer
    number of milliseconds. *)
Record t : Type := mk {
  url : string;
  dollar : Dom;
  headers : gmap string string;
  loadTime : Z;
  html : string
}.

Section Constructor.
Variable cheerio_load : string -> Dom.

Definition new (url : string) (html : string)
           (headers : gmap string string) (loadTime : Z) : t :=
  {| url := url; dollar := cheerio_load html; headers := headers;
     loadTime := loadTime; html := html |}.
End Constructor.

Record Report : Type := mkReport {
  results : Results;
  performanceScore : Z;
  seoScore : Z;
  bestPracticesScore : Z;
  accessibilityScore : Z
}.

(** *** Helpers for the pattern matches of [analyzeAccessibility] *)

Definition digit_val (c : ascii) : Z := Z.of_nat (nat_of_ascii c) - 48.

Fixpoint take_while (f : ascii -> bool) (s : string) : string :=
  match s with
  | String c s' => if f c then String c (take_while f s') else EmptyString
  | EmptyString => EmptyString
  end.

Fixpoint drop_while (f : ascii -> bool) (s : string) : string :=
  match s with
  | String c s' => if f c then drop_while f s' else s
  | EmptyString => EmptyString
  end.

Fixpoint drop (n : nat) (s : string) : string :=
  match n, s with
  | S n', String _ s' => drop n' s'
  | _, _ => s
  end.

(** The value of a string of decimal digits. *)
Definition dec_value (s : string) : Z :=
  (fix go (acc : Z) (s : string) : Z :=
     match s with
     | EmptyString => acc
     | String c s' => go (10 * acc + digit_val c) s'
     end) 0 s.

(** [parseFloat] on a string of digits and dots (what the capture group of
    [/maximum-scale=([0-9.]+)/] holds): the decimal value of the longest
    prefix [digits [. digits]], [None] (NaN) when that prefix has no
    digit. *)
Definition parseFloat (s : string) : option Q :=
  let ip := take_while JsString.is_digit s in
  let rest := drop_while JsString.is_digit s in
  let fp := match rest with
            | String "." r => take_while JsString.is_digit r
            | _ => EmptyString
            end in
  match ip, fp with
  | EmptyString, EmptyString => None
  | _, _ =>
      Some (inject_Z (dec_value ip)
            + inject_Z (dec_value fp) / inject_Z (10 ^ slen fp))%Q
  end.

(** The capture group of the leftmost match of
    [/maximum-scale=([0-9.]+)/]. *)
Definition is_scale_char (c : ascii) : bool :=
  (JsString.is_digit c || Ascii.eqb c ".")%bool.

Fixpoint match_max_scale (s : string) : option string :=
  let here :=
    if JsString.startsWith s "maximum-scale=" then
      match take_while is_scale_char (drop 14 s) with
      | EmptyString => None
      | g => Some g
      end
    else None in
  match here with
  | Some g => Some g
  | None =>
      match s with
      | EmptyString => None
      | String _ s' => match_max_scale s'
      end
  end.

(** [parseFloat(g) < 5].  The double nearest to a decimal [d] is below 5
    exactly when [d < 5 - 2^-51], the midpoint between 5 and the double
    before it (the tie goes to 5, whose significand is even). *)
Definition maxScaleTooLow (viewport : string) : bool :=
  match match_max_scale viewport with
  | Some g =>
      match parseFloat g with
      | Some d => Qltb d (5 - 1 / inject_Z (2 ^ 51))
      | None => false
      end
  | None => false
  end.

Definition hex_val (c : ascii) : option Z :=
  if JsString.is_digit c then Some (digit_val c)
  else let l := JsString.lower_char c in
       let n := Z.of_nat (nat_of_ascii l) in
       if ((97 <=? n) && (n <=? 102))%bool then Some (n - 87) else None.

Fixpoint hex_digits (s : string) : list Z :=
  match s with
  | String c s' =>
      match hex_val c with
      | Some d => d :: hex_digits s'
      | None => []
      end
  | EmptyString => []
  end.

(** [parseInt(s)] without a radix, as a mathematical integer; [None] is
    NaN ([undefined] is passed as [None] and also gives NaN). *)
Definition parseInt (v : option string) : option Z :=
  match v with
  | None => None
  | Some s =>
      let s := JsString.trimStart s in
      let '(sign, s) :=
        match s with
        | String "-" r => (-1, r)
        | String "+" r => (1, r)
        | _ => (1, s)
        end in
      if (JsString.startsWith s "0x" || JsString.startsWith s "0X")%bool then
        match hex_digits (drop 2 s) with
        | [] => None
        | ds => Some (sign * List.fold_left (fun a d => 16 * a + d) ds 0)
        end
      else
        match take_while JsString.is_digit s with
        | EmptyString => None
        | ds => Some (sign * dec_value ds)
        end
  end.

(** [/^[a-z]{2}(-[A-Z]{2})?$/.test(s)] *)
Definition validLangPattern (s : string) : bool :=
  match s with
  | String a (String b r) =>
      (JsString.is_lower a && JsString.is_lower b
       && match r with
          | EmptyString => true
          | String "-" (String c (String d EmptyString)) =>
              (JsString.is_upper c && JsString.is_upper d)%bool
          | _ => false
          end)%bool
  | _ => false
  end.

(** The loop over [headings], from index 1: the order is invalid as soon as
    a level exceeds the level before it by more than one. *)
Fixpoint headingOrder_from (prev : Z) (l : list Z) : bool :=
  match l with
  | [] => true
  | h :: l' => if h >? prev + 1 then false else headingOrder_from h l'
  end.

Definition headingOrderValid_of (headings : list Z) : bool :=
  match headings with
  | [] => true
  | h0 :: rest => headingOrder_from h0 rest
  end.

(** [n === 0 ? full : Math.round((part / n) * full)] *)
Definition ratio_score (part n full : Z) : Z :=
  if n =? 0 then full else js_round (js_div part n * inject_Z full).

Section Methods.
(** [Number.prototype.toFixed] applied to a computed double and
    [new URL] are taken as given. *)
Variable toFixed : Q -> nat -> string.
Variable new_URL : string -> option URL.

Definition analyzePerformance (this : t) : Category :=
  let S := select (dollar this) in
  (* Largest Contentful Paint simulation (max 25 points) *)
  let lcpTime : Q := (inject_Z (loadTime this) * (13 # 10))%Q in
  let lcpResult : Z * Status :=
    if Qltb lcpTime 2500 then (25, good)
    else if Qltb lcpTime 4000 then (22, warning)
    else (10, error) in
  let lcpScore := fst lcpResult in
  let lcpStatus := snd lcpResult in
  let c_lcp :=
    {| name := "Largest Contentful Paint";
       value := toFixed (lcpTime / 1000)%Q 1 ++ "s";
       score := lcpScore; maxScore := 25; status := lcpStatus |} in
  (* First Contentful Paint (max 10 points) *)
  let fcpTime : Q := (inject_Z (loadTime this) * (6 # 10))%Q in
  let fcpResult : Z * Status :=
    if Qltb fcpTime 1800 then (10, good)
    else if Qltb fcpTime 3000 then (7, warning)
    else (3, error) in
  let fcpScore := fst fcpResult in
  let fcpStatus := snd fcpResult in
  let c_fcp :=
    {| name := "First Contentful Paint";
       value := toFixed (fcpTime / 1000)%Q 1 ++ "s";
       score := fcpScore; maxScore := 10; status := fcpStatus |} in
  (* Total Blocking Time (max 30 points) *)
  let blockingJS :=
    zlen (S [Simple (mkCompound (Some "script") []
                       [Has "async"; Has "defer";
                        Equals "type" "application/ld+json"])]) in
  let tbtTime := blockingJS * 50 in
  let tbtScore :=
    if tbtTime >? 600 then 10
    else if tbtTime >? 300 then 20
    else if tbtTime >? 150 then 25
    else 30 in
  let c_tbt :=
    {| name := "Total Blocking Time";
       value := show_Z tbtTime ++ "ms";
       score := tbtScore; maxScore := 30;
       status := if tbtScore >=? 25 then good
                 else if tbtScore >=? 20 then warning else error |} in
  (* Cumulative Layout Shift (max 25 points) *)
  let images := S [Simple (tag "img")] in
  let imagesWithDimensions :=
    zlen (S [Simple (tag_with "img" [Has "width"; Has "height"])]) in
  let iframes := S [Simple (tag "iframe")] in
  let iframesWithDimensions :=
    zlen (S [Simple (tag_with "iframe" [Has "width"; Has "height"])]) in
  let unsizedMedia :=
    (zlen images - imagesWithDimensions)
    + (zlen iframes - iframesWithDimensions) in
  let clsScore :=
    if unsizedMedia >? 5 then 10
    else if unsizedMedia >? 2 then 18
    else if unsizedMedia >? 0 then 22
    else 25 in
  let c_cls :=
    {| name := "Cumulative Layout Shift";
       value := if unsizedMedia =? 0 then "0.00"
                else "~" ++ toFixed (inject_Z unsizedMedia * (5 # 100))%Q 2;
       score := clsScore; maxScore := 25;
       status := if clsScore >=? 22 then good
                 else if clsScore >=? 18 then warning else error |} in
  (* Speed Index (max 10 points) *)
  let speedIndex : Q := (inject_Z (loadTime this) * (11 # 10))%Q in
  let siResult : Z * Status :=
    if Qltb speedIndex 3400 then (10, good)
    else if Qltb speedIndex 5800 then (7, warning)
    else (3, error) in
  let siScore := fst siResult in
  let siStatus := snd siResult in
  let c_speedIndex :=
    {| name := "Speed Index";
       value := toFixed (speedIndex / 1000)%Q 1 ++ "s";
       score := siScore; maxScore := 10; status := siStatus |} in
  category "Performance"
    [("lcp", c_lcp); ("fcp", c_fcp); ("tbt", c_tbt); ("cls", c_cls);
     ("speedIndex", c_speedIndex)].

Definition nondescriptive : list string :=
  ["click here"; "here"; "read more"; "link"; "more"].

Definition analyzeSEO (this : t) : Category :=
  let S := select (dollar this) in
  (* Page is indexable (max 31 points) *)
  let noIndex :=
    Nat.ltb 0 (List.length
                 (S [Simple (tag_with "meta"
                               [Equals "name" "robots";
                                Contains "content" "noindex"])])) in
  let c_indexable :=
    {| name := "Page isn't blocked from indexing";
       value := if noIndex then "Blocked" else "Indexable";
       score := if noIndex then 0 else 31;
       maxScore := 31;
       status := if noIndex then error else good |} in
  (* Has title (max 8 points) *)
  let titleText := JsString.trim (text (S [Simple (tag "title")])) in
  let hasTitle := slen titleText >? 0 in
  let c_hasTitle :=
    {| name := "Document has a `<title>` element";
       value := if hasTitle
                then JsString.quote ++ JsString.substring0 40 titleText
                     ++ (if slen titleText >? 40 then "..." else "")
                     ++ JsString.quote
                else "Missing";
       score := if hasTitle then 8 else 0;
       maxScore := 8;
       status := if hasTitle then good else error |} in
  (* Has meta description (max 8 points) *)
  let metaDesc :=
    attr (S [Simple (tag_with "meta" [Equals "name" "description"])])
         "content" in
  let hasMetaDesc :=
    (truthy metaDesc && (slen (default "" metaDesc) >? 0))%bool in
  let c_hasMetaDesc :=
    {| name := "Document has a meta description";
       value := if hasMetaDesc then "Present" else "Missing";
       score := if hasMetaDesc then 8 else 0;
       maxScore := 8;
       status := if hasMetaDesc then good else warning |} in
  (* HTTP status code (max 8 points) *)
  let c_httpStatus :=
    {| name := "Page has successful HTTP status code";
       value := "200 OK"; score := 8; maxScore := 8; status := good |} in
  (* Links have descriptive text (max 8 points) *)
  let links := S [Simple (tag "a")] in
  let descriptiveLinks :=
    zlen (List.filter
            (fun el =>
               let text := JsString.toLowerCase
                             (JsString.trim (elem_text el)) in
               ((slen text >? 0)
                && negb (existsb (String.eqb text) nondescriptive))%bool)
            links) in
  let descriptiveLinkScore := ratio_score descriptiveLinks (zlen links) 8 in
  let c_descriptiveLinks :=
    {| name := "Links have descriptive text";
       value := show_Z descriptiveLinks ++ "/" ++ show_Z (zlen links)
                ++ " links";
       score := descriptiveLinkScore; maxScore := 8;
       status := if descriptiveLinkScore >=? 6 then good else warning |} in
  (* Links are crawlable (max 8 points) *)
  let jsLinks :=
    zlen (S [Simple (tag_with "a" [Prefixed "href" "javascript:"])]) in
  let crawlableScore := if jsLinks =? 0 then 8 else Z.max 0 (8 - jsLinks) in
  let c_crawlableLinks :=
    {| name := "Links are crawlable";
       value := if jsLinks =? 0 then "All crawlable"
                else show_Z jsLinks ++ " JavaScript links";
       score := crawlableScore; maxScore := 8;
       status := if jsLinks =? 0 then good else warning |} in
  (* robots.txt is valid (max 8 points) *)
  let c_robotsTxt :=
    {| name := "robots.txt is valid"; value := "Check separately";
       score := 8; maxScore := 8; status := good |} in
  (* Images have alt text (max 8 points) *)
  let allImages := zlen (S [Simple (tag "img")]) in
  let imagesWithAlt := zlen (S [Simple (tag_with "img" [Has "alt"])]) in
  let altScore := ratio_score imagesWithAlt allImages 8 in
  let c_imageAlt :=
    {| name := "Image elements have [alt] attributes";
       value := show_Z imagesWithAlt ++ "/" ++ show_Z allImages ++ " images";
       score := altScore; maxScore := 8;
       status := if altScore >=? 6 then good else warning |} in
  (* Document has hreflang (max 8 points) *)
  let hasHreflang :=
    (Nat.ltb 0 (List.length (S [Simple (tag_with "link" [Has "hreflang"])]))
     || Nat.ltb 0 (List.length (S [Simple (tag_with "html" [Has "lang"])])))%bool in
  let c_hreflang :=
    {| name := "Document has a valid `hreflang`";
       value := if hasHreflang then "Present" else "Missing";
       score := if hasHreflang then 8 else 4;
       maxScore := 8;
       status := if hasHreflang then good else warning |} in
  (* Document has canonical (max 8 points) *)
  let hasCanonical :=
    Nat.ltb 0 (List.length
                 (S [Simple (tag_with "link" [Equals "rel" "canonical"])])) in
  let c_canonical :=
    {| name := "Document has a valid `rel=canonical`";
       value := if hasCanonical then "Present" else "Missing";
       score := if hasCanonical then 8 else 0;
       maxScore := 8;
       status := if hasCanonical then good else warning |} in
  category "SEO"
    [("indexable", c_indexable); ("hasTitle", c_hasTitle);
     ("hasMetaDesc", c_hasMetaDesc); ("httpStatus", c_httpStatus);
     ("descriptiveLinks", c_descriptiveLinks);
     ("crawlableLinks", c_crawlableLinks); ("robotsTxt", c_robotsTxt);
     ("imageAlt", c_imageAlt); ("hreflang", c_hreflang);
     ("canonical", c_canonical)].

(** [None] when [new URL(this.url)] throws. *)
Definition analyzeBestPractices (this : t) : option Category :=
  let S := select (dollar this) in
  let inc := JsString.includes (html this) in
  match new_URL (url this) with
  | None => None
  | Some parsedUrl =>
  (* Uses HTTPS (max 19 points) *)
  let isHttps := String.eqb (protocol parsedUrl) "https:" in
  let c_usesHttps :=
    {| name := "Uses HTTPS";
       value := if isHttps then "Yes" else "No";
       score := if isHttps then 19 else 0;
       maxScore := 19;
       status := if isHttps then good else error |} in
  (* Avoids deprecated APIs (max 19 points) *)
  let hasDeprecated := (inc "document.write" || inc "eval(" || inc "with(")%bool in
  let c_noDeprecatedApis :=
    {| name := "Avoids deprecated APIs";
       value := if hasDeprecated then "Found deprecated APIs"
                else "No deprecated APIs";
       score := if hasDeprecated then 0 else 19;
       maxScore := 19;
       status := if hasDeprecated then warning else good |} in
  (* Avoids third-party cookies (max 19 points) *)
  let hasTrackers :=
    (inc "google-analytics" || inc "facebook.com/tr" || inc "doubleclick.net")%bool in
  let c_noThirdPartyCookies :=
    {| name := "Avoids third-party cookies";
       value := if hasTrackers then "Third-party scripts found" else "Clean";
       score := if hasTrackers then 12 else 19;
       maxScore := 19;
       status := if hasTrackers then warning else good |} in
  (* Allows users to paste into input fields (max 12 points) *)
  let pasteBlocked :=
    (inc ("onpaste=" ++ JsString.quote ++ "return false" ++ JsString.quote)
     || inc ("onpaste=" ++ JsString.quote ++ "false" ++ JsString.quote))%bool in
  let c_allowsPaste :=
    {| name := "Allows users to paste into input fields";
       value := if pasteBlocked then "Paste blocked" else "Paste allowed";
       score := if pasteBlocked then 0 else 12;
       maxScore := 12;
       status := if pasteBlocked then error else good |} in
  (* Avoids geolocation on page load (max 4 points) *)
  let hasGeoOnLoad :=
    (inc "navigator.geolocation.getCurrentPosition"
     && negb (inc "addEventListener"))%bool in
  let c_noGeoOnLoad :=
    {| name := "Avoids requesting the geolocation permission on page load";
       value := if hasGeoOnLoad then "Requests on load" else "OK";
       score := if hasGeoOnLoad then 0 else 4;
       maxScore := 4;
       status := if hasGeoOnLoad then warning else good |} in
  (* Avoids notification on page load (max 4 points) *)
  let hasNotifOnLoad :=
    (inc "Notification.requestPermission"
     && negb (inc "addEventListener"))%bool in
  let c_noNotifOnLoad :=
    {| name := "Avoids requesting the notification permission on page load";
       value := if hasNotifOnLoad then "Requests on load" else "OK";
       score := if hasNotifOnLoad then 0 else 4;
       maxScore := 4;
       status := if hasNotifOnLoad then warning else good |} in
  (* Images with correct aspect ratio (max 4 points) *)
  let imagesWithDimensions :=
    zlen (S [Simple (tag_with "img" [Has "width"; Has "height"])]) in
  let totalImages := zlen (S [Simple (tag "img")]) in
  let aspectRatioScore := ratio_score imagesWithDimensions totalImages 4 in
  let c_imageAspectRatio :=
    {| name := "Displays images with correct aspect ratio";
       value := show_Z imagesWithDimensions ++ "/" ++ show_Z totalImages
                ++ " images have dimensions";
       score := aspectRatioScore; maxScore := 4;
       status := if aspectRatioScore >=? 3 then good else warning |} in
  (* Serves images with appropriate resolution (max 4 points) *)
  let responsiveImages :=
    zlen (S [Simple (tag_with "img" [Has "srcset"])])
    + zlen (S [Descendant (tag "picture") (tag "source")]) in
  let c_responsiveImages :=
    {| name := "Serves images with appropriate resolution";
       value := if responsiveImages >? 0
                then show_Z responsiveImages ++ " responsive images"
                else "No srcset found";
       score := if responsiveImages >? 0 then 4 else 2;
       maxScore := 4;
       status := if responsiveImages >? 0 then good else warning |} in
  (* Has doctype (max 4 points) *)
  let hasDoctype :=
    JsString.includes (JsString.toLowerCase (html this)) "<!doctype html" in
  let c_hasDoctype :=
    {| name := "Page has the HTML doctype";
       value := if hasDoctype then "Present" else "Missing";
       score := if hasDoctype then 4 else 0;
       maxScore := 4;
       status := if hasDoctype then good else error |} in
  (* Charset defined (max 4 points) *)
  let charsetMeta :=
    attr (S [Simple (tag_with "meta" [Has "charset"])]) "charset" in
  let httpEquivCharset :=
    attr (S [Simple (tag_with "meta" [Equals "http-equiv" "Content-Type"])])
         "content" in
  let hasCharset := js_or charsetMeta httpEquivCharset in
  let c_hasCharset :=
    {| name := "Properly defines charset";
       value := if truthy hasCharset then or_default charsetMeta "Defined"
                else "Missing";
       score := if truthy hasCharset then 4 else 0;
       maxScore := 4;
       status := if truthy hasCharset then good else warning |} in
  (* Browser errors (max 4 points) *)
  let c_browserErrors :=
    {| name := "Browser errors were logged to the console";
       value := "Check in browser DevTools";
       score := 4; maxScore := 4; status := good |} in
  (* No issues in Chrome DevTools (max 4 points) *)
  let c_devToolsIssues :=
    {| name := "No issues in the `Issues` panel in Chrome Devtools";
       value := "Check in browser DevTools";
       score := 4; maxScore := 4; status := good |} in
  Some (category "Best Practices"
    [("usesHttps", c_usesHttps); ("noDeprecatedApis", c_noDeprecatedApis);
     ("noThirdPartyCookies", c_noThirdPartyCookies);
     ("allowsPaste", c_allowsPaste); ("noGeoOnLoad", c_noGeoOnLoad);
     ("noNotifOnLoad", c_noNotifOnLoad);
     ("imageAspectRatio", c_imageAspectRatio);
     ("responsiveImages", c_responsiveImages); ("hasDoctype", c_hasDoctype);
     ("hasCharset", c_hasCharset); ("browserErrors", c_browserErrors);
     ("devToolsIssues", c_devToolsIssues)])
  end.

(** A check that always earns its points. *)
Definition fixed_check (n v : string) (pts : Z) : Check :=
  {| name := n; value := v; score := pts; maxScore := pts; status := good |}.

Definition analyzeAccessibility (this : t) : Category :=
  let S := select (dollar this) in
  (* [aria-*] attributes match their roles (max 5 points) *)
  let ariaLabel := zlen (S [Simple (any_with [Has "aria-label"])]) in
  let ariaHidden := zlen (S [Simple (any_with [Has "aria-hidden"])]) in
  let ariaDescribedby := zlen (S [Simple (any_with [Has "aria-describedby"])]) in
  let ariaLabelledby := zlen (S [Simple (any_with [Has "aria-labelledby"])]) in
  let ariaElements := ariaLabel + ariaHidden + ariaDescribedby + ariaLabelledby in
  let c_ariaMatchRoles :=
    fixed_check "`[aria-*]` attributes match their roles"
      (if ariaElements >? 0 then "ARIA attributes found"
       else "No ARIA attributes") 5 in
  (* aria-hidden not on body (max 5 points) *)
  let bodyHidden :=
    Nat.ltb 0 (List.length
                 (S [Simple (tag_with "body" [Equals "aria-hidden" "true"])])) in
  let c_ariaHiddenBody :=
    {| name := "`[aria-hidden=" ++ JsString.quote ++ "true" ++ JsString.quote
               ++ "]` is not present on the document `<body>`";
       value := if bodyHidden then "Found on body" else "OK";
       score := if bodyHidden then 0 else 5;
       maxScore := 5;
       status := if bodyHidden then error else good |} in
  (* [role]s have required aria-* attributes (max 5 points) *)
  let roleElements := zlen (S [Simple (any_with [Has "role"])]) in
  let c_roleAriaRequired :=
    fixed_check "`[role]`'s have all required `[aria-*]` attributes"
      (if roleElements >? 0 then show_Z roleElements ++ " role elements"
       else "No role elements") 5 in
  (* [role] values are valid (max 5 points) *)
  let c_roleValuesValid :=
    fixed_check "`[role]` values are valid" "Checking valid roles" 5 in
  (* [aria-*] attributes have valid values (max 5 points) *)
  let c_ariaValuesValid :=
    fixed_check "`[aria-*]` attributes have valid values"
      "Values appear valid" 5 in
  (* [aria-*] attributes are valid and not misspelled (max 5 points) *)
  let c_ariaNotMisspelled :=
    fixed_check "`[aria-*]` attributes are valid and not misspelled"
      "No misspellings detected" 5 in
  (* Buttons have accessible names (max 5 points) *)
  let buttons := S [Simple (tag "button")] in
  let buttonsWithText :=
    zlen (List.filter
            (fun el =>
               (JsString.truthy (JsString.trim (elem_text el))
                || truthy (get_attr "aria-label" (e_attribs el))
                || truthy (get_attr "title" (e_attribs el)))%bool)
            buttons) in
  let buttonScore := ratio_score buttonsWithText (zlen buttons) 5 in
  let c_buttonNames :=
    {| name := "Buttons have an accessible name";
       value := show_Z buttonsWithText ++ "/" ++ show_Z (zlen buttons)
                ++ " buttons";
       score := buttonScore; maxScore := 5;
       status := if buttonScore >=? 4 then good else warning |} in
  (* Images have alt (max 5 points) *)
  let images := S [Simple (tag "img")] in
  let imagesWithAlt := zlen (S [Simple (tag_with "img" [Has "alt"])]) in
  let imgAltScore := ratio_score imagesWithAlt (zlen images) 5 in
  let c_imagesHaveAlt :=
    {| name := "Image elements have `[alt]` attributes";
       value := show_Z imagesWithAlt ++ "/" ++ show_Z (zlen images)
                ++ " images";
       score := imgAltScore; maxScore := 5;
       status := if imgAltScore >=? 4 then good else warning |} in
  (* Form elements have associated labels (max 5 points).  The source builds
     the selector label[for="${id}"] from the id at run time; the lookup
     below is its meaning for an id that [plain_id] accepts (no double
     quote, no backslash).  For other ids the selector text is not the
     equality test on [id]: see [labels_plain]. *)
  let inputs :=
    S [Simple (mkCompound (Some "input") []
                 [Equals "type" "hidden"; Equals "type" "submit";
                  Equals "type" "button"])] in
  let inputsWithLabels :=
    zlen (List.filter
            (fun el =>
               let id := get_attr "id" (e_attribs el) in
               (truthy (get_attr "aria-label" (e_attribs el))
                || truthy (get_attr "placeholder" (e_attribs el))
                || (truthy id
                    && Nat.ltb 0
                         (List.length
                            (S [Simple (tag_with "label"
                                          [Equals "for" (default "" id)])]))))%bool)
            inputs) in
  let labelScore := ratio_score inputsWithLabels (zlen inputs) 5 in
  let c_formLabels :=
    {| name := "Form elements have associated labels";
       value := show_Z inputsWithLabels ++ "/" ++ show_Z (zlen inputs)
                ++ " inputs";
       score := labelScore; maxScore := 5;
       status := if labelScore >=? 4 then good else warning |} in
  (* Viewport meta scalable (max 5 points) *)
  let viewport :=
    or_default
      (attr (S [Simple (tag_with "meta" [Equals "name" "viewport"])])
            "content") "" in
  let hasUserScalableNo :=
    (JsString.includes viewport "user-scalable=no"
     || JsString.includes viewport "user-scalable=0")%bool in
  let restricted := (hasUserScalableNo || maxScaleTooLow viewport)%bool in
  let c_viewportScalable :=
    {| name := "`[user-scalable=" ++ JsString.quote ++ "no" ++ JsString.quote
               ++ "]` is not used in the `<meta name=" ++ JsString.quote
               ++ "viewport" ++ JsString.quote
               ++ ">` element and the `[maximum-scale]` attribute is not less than 5.";
       value := if restricted then "Scaling restricted" else "OK";
       score := if restricted then 0 else 5;
       maxScore := 5;
       status := if restricted then error else good |} in
  (* Interactive elements have accessible names (max 3 points) *)
  let c_interactiveNames :=
    fixed_check
      "`button`, `link`, and `menuitem` elements have accessible names"
      "Checking interactive elements" 3 in
  (* ARIA used as specified (max 3 points) *)
  let c_ariaAsSpecified :=
    fixed_check "ARIA attributes are used as specified for the element's role"
      "ARIA usage appears correct" 3 in
  (* aria-hidden elements don't contain focusable (max 3 points) *)
  let hidden := any_with [Equals "aria-hidden" "true"] in
  let ariaHiddenWithFocusable :=
    zlen (S [Descendant hidden (tag "button"); Descendant hidden (tag "a");
             Descendant hidden (tag "input")]) in
  let c_ariaHiddenFocusable :=
    {| name := "`[aria-hidden=" ++ JsString.quote ++ "true" ++ JsString.quote
               ++ "]` elements do not contain focusable descendents";
       value := if ariaHiddenWithFocusable =? 0 then "OK"
                else show_Z ariaHiddenWithFocusable ++ " issues found";
       score := if ariaHiddenWithFocusable =? 0 then 3 else 0;
       maxScore := 3;
       status := if ariaHiddenWithFocusable =? 0 then good else error |} in
  (* Elements use only permitted ARIA attributes (max 3 points) *)
  let c_ariaPermitted :=
    fixed_check "Elements use only permitted ARIA attributes"
      "ARIA attributes appear valid" 3 in
  (* Color contrast (max 3 points) *)
  let c_colorContrast :=
    fixed_check
      "Background and foreground colors do not have a sufficient contrast ratio."
      "Check in browser DevTools" 3 in
  (* Document has title (max 3 points) *)
  let hasTitle :=
    slen (JsString.trim (text (S [Simple (tag "title")]))) >? 0 in
  let c_docTitle :=
    {| name := "Document has a `<title>` element";
       value := if hasTitle then "Present" else "Missing";
       score := if hasTitle then 3 else 0;
       maxScore := 3;
       status := if hasTitle then good else error |} in
  (* HTML lang attribute (max 3 points) *)
  let hasLang := attr (S [Simple (tag "html")]) "lang" in
  let c_htmlLang :=
    {| name := "`<html>` element has a `[lang]` attribute";
       value := or_default hasLang "Missing";
       score := if truthy hasLang then 3 else 0;
       maxScore := 3;
       status := if truthy hasLang then good else error |} in
  (* HTML lang is valid (max 3 points) *)
  let langValue := attr (S [Simple (tag "html")]) "lang" in
  let isValidLang :=
    (truthy langValue && validLangPattern (default "" langValue))%bool in
  let c_htmlLangValid :=
    {| name := "`<html>` element has a valid value for its `[lang]` attribute";
       value := if isValidLang then default "" langValue
                else "Invalid or missing";
       score := if isValidLang then 3 else 0;
       maxScore := 3;
       status := if isValidLang then good else warning |} in
  (* Links distinguishable without color (max 3 points) *)
  let c_linksDistinguishable :=
    fixed_check "Links are distinguishable without relying on color."
      "Check visually" 3 in
  (* Links have discernible text (max 3 points) *)
  let links := S [Simple (tag "a")] in
  let linksWithText :=
    zlen (List.filter
            (fun el =>
               (JsString.truthy (JsString.trim (elem_text el))
                || truthy (get_attr "aria-label" (e_attribs el))
                || Nat.ltb 0
                     (List.length
                        (find el [Simple (tag_with "img" [Has "alt"])])))%bool)
            links) in
  let linkScore := ratio_score linksWithText (zlen links) 3 in
  let c_linkNames :=
    {| name := "Links have a discernible name";
       value := show_Z linksWithText ++ "/" ++ show_Z (zlen links) ++ " links";
       score := linkScore; maxScore := 3;
       status := if linkScore >=? 2 then good else warning |} in
  (* Lists contain only li elements (max 3 points) *)
  let lists := S [Simple (tag "ul"); Simple (tag "ol")] in
  let validLists :=
    zlen (List.filter
            (fun el =>
               let children := children_of el in
               Nat.eqb
                 (List.length
                    (List.filter
                       (matches [Simple (tag "li"); Simple (tag "script");
                                 Simple (tag "template")])
                       children))
                 (List.length children))
            lists) in
  let listScore := ratio_score validLists (zlen lists) 3 in
  let c_listStructure :=
    {| name := "Lists contain only `<li>` elements and script supporting elements (`<script>` and `<template>`).";
       value := show_Z validLists ++ "/" ++ show_Z (zlen lists)
                ++ " lists valid";
       score := listScore; maxScore := 3;
       status := if listScore >=? 2 then good else warning |} in
  (* List items in proper parents (max 3 points) *)
  let orphanedLi :=
    zlen (List.filter
            (fun el =>
               match parent_tagName el with
               | Some p => negb (existsb (String.eqb p) ["UL"; "OL"; "MENU"])
               | None => true
               end)
            (S [Simple (tag "li")])) in
  let c_listItemsContained :=
    {| name := "List items (`<li>`) are contained within `<ul>`, `<ol>` or `<menu>` parent elements";
       value := if orphanedLi =? 0 then "All valid"
                else show_Z orphanedLi ++ " orphaned items";
       score := if orphanedLi =? 0 then 3 else 0;
       maxScore := 3;
       status := if orphanedLi =? 0 then good else error |} in
  (* No tabindex > 0 (max 3 points) *)
  let positiveTabindex :=
    zlen (List.filter
            (fun el =>
               match parseInt (get_attr "tabindex" (e_attribs el)) with
               | Some n => n >? 0
               | None => false
               end)
            (S [Simple (any_with [Has "tabindex"])])) in
  let c_noPositiveTabindex :=
    {| name := "No element has a `[tabindex]` value greater than 0";
       value := if positiveTabindex =? 0 then "OK"
                else show_Z positiveTabindex ++ " elements with tabindex > 0";
       score := if positiveTabindex =? 0 then 3 else 0;
       maxScore := 3;
       status := if positiveTabindex =? 0 then good else warning |} in
  (* Touch targets (max 3 points) *)
  let c_touchTargets :=
    fixed_check "Touch targets have sufficient size and spacing."
      "Check visually" 3 in
  (* Table headers (max 3 points) *)
  let tablesWithHeaders :=
    (Nat.ltb 0 (List.length (S [Descendant (tag "table") (tag "th")]))
     || Nat.eqb (List.length (S [Simple (tag "table")])) 0)%bool in
  let c_tableHeaders :=
    {| name := "Cells in a `<table>` element that use the `[headers]` attribute refer to table cells within the same table.";
       value := if tablesWithHeaders then "OK" else "Missing headers";
       score := if tablesWithHeaders then 3 else 0;
       maxScore := 3;
       status := if tablesWithHeaders then good else warning |} in
  (* Heading order (max 1 point) *)
  let headings :=
    List.map (fun el => digit_val (default "0"%char (String.get 1 (e_tag el))))
      (S [Simple (tag "h1"); Simple (tag "h2"); Simple (tag "h3");
          Simple (tag "h4"); Simple (tag "h5"); Simple (tag "h6")]) in
  let headingOrderValid := headingOrderValid_of headings in
  let c_headingOrder :=
    {| name := "Heading elements appear in a sequentially-descending order";
       value := if headingOrderValid then "Valid order"
                else "Skipped heading levels";
       score := if headingOrderValid then 1 else 0;
       maxScore := 1;
       status := if headingOrderValid then good else warning |} in
  (* Main landmark (max 1 point) *)
  let hasMain :=
    (Nat.ltb 0 (List.length (S [Simple (tag "main")]))
     || Nat.ltb 0 (List.length (S [Simple (any_with [Equals "role" "main"])])))%bool in
  let c_mainLandmark :=
    {| name := "Document has a main landmark.";
       value := if hasMain then "Present" else "Missing";
       score := if hasMain then 1 else 0;
       maxScore := 1;
       status := if hasMain then good else warning |} in
  category "Accessibility"
    [("ariaMatchRoles", c_ariaMatchRoles); ("ariaHiddenBody", c_ariaHiddenBody);
     ("roleAriaRequired", c_roleAriaRequired);
     ("roleValuesValid", c_roleValuesValid);
     ("ariaValuesValid", c_ariaValuesValid);
     ("ariaNotMisspelled", c_ariaNotMisspelled);
     ("buttonNames", c_buttonNames); ("imagesHaveAlt", c_imagesHaveAlt);
     ("formLabels", c_formLabels); ("viewportScalable", c_viewportScalable);
     ("interactiveNames", c_interactiveNames);
     ("ariaAsSpecified", c_ariaAsSpecified);
     ("ariaHiddenFocusable", c_ariaHiddenFocusable);
     ("ariaPermitted", c_ariaPermitted); ("colorContrast", c_colorContrast);
     ("docTitle", c_docTitle); ("htmlLang", c_htmlLang);
     ("htmlLangValid", c_htmlLangValid);
     ("linksDistinguishable", c_linksDistinguishable);
     ("linkNames", c_linkNames); ("listStructure", c_listStructure);
     ("listItemsContained", c_listItemsContained);
     ("noPositiveTabindex", c_noPositiveTabindex);
     ("touchTargets", c_touchTargets); ("tableHeaders", c_tableHeaders);
     ("headingOrder", c_headingOrder); ("mainLandmark", c_mainLandmark)].

(** [categoryScores[i]] *)
Definition categoryScore (c : Category) : Q :=
  js_div (cat_score c) (cat_maxScore c).

(** Weighted average (Performance: 40%, SEO: 25%, Best Practices: 20%,
    Accessibility: 15%). *)
Definition weightedScore (performance seo bestPractices accessibility : Category)
  : Q :=
  (categoryScore performance * 40 + categoryScore seo * 25
   + categoryScore bestPractices * 20 + categoryScore accessibility * 15)%Q.

Definition analyze (this : t) : option Report :=
  let performance := analyzePerformance this in
  let seo := analyzeSEO this in
  match analyzeBestPractices this with
  | None => None
  | Some bestPractices =>
      let accessibility := analyzeAccessibility this in
      Some
        {| results :=
             {| res_score :=
                  js_round (weightedScore performance seo bestPractices
                                          accessibility);
                res_maxScore := 100;
                categories :=
                  [("performance", performance); ("seo", seo);
                   ("bestPractices", bestPractices);
                   ("accessibility", accessibility)] |};
           performanceScore := js_round (categoryScore performance * 100);
           seoScore := js_round (categoryScore seo * 100);
           bestPracticesScore := js_round (categoryScore bestPractices * 100);
           accessibilityScore := js_round (categoryScore accessibility * 100) |}
  end.

End Methods.
End PageSpeedAnalyzer.

(** ** Doubles, for the weighted sum of the route *)

(** The double nearest to an integer. *)
Definition float_of_Z (z : Z) : float :=
  SF2Prim (binary_normalize prec emax z 0 false).

(** [Math.round] on a double: the nearest integer, ties towards +infinity;
    [None] for NaN and the infinities, which round to themselves. *)
Definition round_double (x : float) : option Z :=
  match Prim2SF x with
  | S754_zero _ => Some 0
  | S754_finite s m e =>
      let n := if s then Z.neg m else Z.pos m in
      if 0 <=? e then Some (n * 2 ^ e)
      else Some ((2 * n + 2 ^ (- e)) / 2 ^ (- e + 1))
  | _ => None
  end.

#[local] Set Warnings "-inexact-float".

(** [Math.round((a * 0.35) + (b * 0.30) + (c * 0.35))] *)
Definition weighted_average (a b c : Z) : option Z :=
  round_double
    ((float_of_Z a * 0.35) + (float_of_Z b * 0.30) + (float_of_Z c * 0.35))%float.

#[local] Set Warnings "inexact-float".

(** ** The route [POST /api/analyze] *)

Module Route.

(** What the handler asks of the network: every [axios.get] of the route
    differs from the others in its URL or in its [User-Agent]. *)
Record Request : Type := mkRequest {
  rq_url : string;
  rq_timeout : Z;
  rq_userAgent : string
}.

Inductive HttpOutcome : Type :=
| Reply (status : Z) (data : JsVal) (headers : gmap string string)
| Failure (message : string).

(** The environment of one request: the two [Date.now()] readings around
    the page fetch, the time stamp of the result, the network, and the
    message of the exception that the [catch] of the handler reports (an
    analyzer raises one on a body that is not a string). *)
Record World : Type := mkWorld {
  now_start : Z;
  now_end : Z;
  now_iso : string;
  network : Request -> HttpOutcome;
  type_error : string
}.

(** What the handler does, in order.  [Analyze a]: analyzer [a] has been
    built on the page and run to its results. *)
Inductive Event : Type :=
| ConsoleLog (msg : string)
| ConsoleError (msg : string)
| Fetch (rq : Request)
| Analyze (analyzer : string).

Record ReportSection : Type := mkSection {
  sec_name : string;
  sec_score : Z;
  sec_maxScore : Z;
  sec_categories : list (string * Category)
}.

Record PageSpeedSection : Type := mkPageSpeedSection {
  ps_section : ReportSection;
  ps_performanceScore : Z;
  ps_seoScore : Z;
  ps_bestPracticesScore : Z;
  ps_accessibilityScore : Z
}.

Record Sections : Type := mkSections {
  websiteQuality : ReportSection;
  trustSecurity : ReportSection;
  pageSpeed : PageSpeedSection
}.

Record AnalysisResult : Type := mkAnalysisResult {
  ar_url : JsVal;
  analyzedAt : string;
  ar_loadTime : string;
  overallScore : option Z;
  sections : Sections
}.

Inductive Body : Type :=
| ErrorBody (error : string) (details : option string)
| ResultBody (result : AnalysisResult).

(** [res.status(code).json(body)]; [res.json(body)] has status 200. *)
Record Response : Type := mkResponse {
  status_code : Z;
  body : Body
}.

(** *** The handler monad: a log of effects, and an early [return] *)

Definition Handler (A : Type) : Type := (list Event * (Response + A))%type.

Definition ret {A} (a : A) : Handler A := ([], inr a).

Definition bind {A B} (m : Handler A) (f : A -> Handler B) : Handler B :=
  match m with
  | (tr, inl r) => (tr, inl r)
  | (tr, inr a) => ((tr ++ fst (f a))%list, snd (f a))
  end.

Definition emit (e : Event) : Handler unit := ([e], inr tt).

(** [return res.status(code).json(body)] *)
Definition respond {A} (code : Z) (b : Body) : Handler A :=
  ([], inl (mkResponse code b)).

Notation "x <- m ;; k" := (bind m (fun x => k))
  (at level 100, m at next level, right associativity).
Notation "m ;;; k" := (bind m (fun _ => k))
  (at level 100, right associativity).

Definition run (m : Handler Response) : list Event * Response :=
  match m with
  | (tr, inl r) => (tr, r)
  | (tr, inr r) => (tr, r)
  end.

Definition botUserAgent : string :=
  "Mozilla/5.0 (compatible; WebsiteScoreBot/1.0)".

Definition browserUserAgent : string :=
  "Mozilla/5.0 (Windows NT 10.0; Win64; x64) AppleWebKit/537.36 (KHTML, like Gecko) Chrome/120.0.0.0 Safari/537.36".

(** [axios.get(url, { timeout, validateStatus, headers })]: the reply, or
    the message of the error thrown. *)
Definition axios_get (w : World) (rq : Request) (validateStatus : Z -> bool)
  : Handler (string + (JsVal * gmap string string)) :=
  emit (Fetch rq) ;;;
  ret match network w rq with
      | Failure msg => inl msg
      | Reply st d h =>
          if validateStatus st then inr (d, h)
          else inl ("Request failed with status code " ++ show_Z st)
      end.

(** [checkFileExists(baseUrl, path)] *)
Definition checkFileExists (w : World) (baseUrl path : string)
  : Handler JsVal :=
  r <- axios_get w (mkRequest (baseUrl ++ path) 5000 botUserAgent)
         (fun st => st =? 200) ;;
  ret match r with
      | inr (d, _) => d
      | inl _ => JNull
      end.

(** What [checkFileExists] resolves to: the body of a 200 reply, else
    [null]. *)
Definition file_content (w : World) (baseUrl path : string) : JsVal :=
  match network w (mkRequest (baseUrl ++ path) 5000 botUserAgent) with
  | Reply st d _ => if st =? 200 then d else JNull
  | Failure _ => JNull
  end.

Section Handler.
Variable cheerio_load : string -> Dom.
Variable new_URL : string -> option URL.
Variable toFixed : Q -> nat -> string.

(** The [catch] of the whole handler. *)
Definition internal_error {A} (msg : string) : Handler A :=
  emit (ConsoleError "Analysis error:") ;;;
  respond 500 (ErrorBody "Failed to analyze the website" (Some msg)).

(** [router.post('/', ...)], on the [url] member of the request body
    ([JUndefined] when the body has none).  Where the handler needs the
    string of [url] (a template literal, [new URL], the request) it is its
    string conversion.  On a page for which the PageSpeed analyzer builds a
    label selector from an [id] with a double quote or a backslash the
    analyzer may raise, and the handler answer 500; the model covers the
    other pages ([labels_plain]). *)
Definition post (w : World) (url : JsVal) : Handler Response :=
  if negb (JsVal.truthy url) then
    respond 400 (ErrorBody "URL is required" None)
  else
  let url_s := JsVal.to_string url in
  (* Validate URL *)
  match new_URL url_s with
  | None => respond 400 (ErrorBody "Invalid URL format" None)
  | Some validUrl =>
  if negb (existsb (String.eqb (protocol validUrl)) ["http:"; "https:"]) then
    respond 400 (ErrorBody "Invalid URL format" None)
  else
  emit (ConsoleLog ("Analyzing: " ++ url_s)) ;;;
  let baseUrl := protocol validUrl ++ "//" ++ host validUrl in
  (* Fetch the website *)
  let startTime := now_start w in
  fetched <- axios_get w (mkRequest url_s 30000 browserUserAgent)
               (fun st => st <? 500) ;;
  match fetched with
  | inl message =>
      emit (ConsoleError ("Fetch error: " ++ message)) ;;;
      respond 400 (ErrorBody "Could not fetch the website" (Some message))
  | inr (data, headers) =>
  let loadTime := now_end w - startTime in
  (* Check for robots.txt, sitemap.xml, and llms.txt in parallel *)
  robotsTxt <- checkFileExists w baseUrl "/robots.txt" ;;
  sitemap <- checkFileExists w baseUrl "/sitemap.xml" ;;
  llmsTxt <- checkFileExists w baseUrl "/llms.txt" ;;
  match data with
  | JStr html =>
  (* Run all analyzers *)
  match WebsiteQualityAnalyzer.new cheerio_load new_URL url_s html headers
          (mkAdditionalData robotsTxt sitemap llmsTxt) with
  | None => internal_error (type_error w)
  | Some websiteQualityAnalyzer =>
  emit (Analyze "WebsiteQualityAnalyzer") ;;;
  let websiteQualityResults :=
    WebsiteQualityAnalyzer.analyze websiteQualityAnalyzer in
  match TrustSecurityAnalyzer.new new_URL url_s headers html with
  | None => internal_error (type_error w)
  | Some trustSecurityAnalyzer =>
  emit (Analyze "TrustSecurityAnalyzer") ;;;
  let trustSecurityResults :=
    TrustSecurityAnalyzer.analyze trustSecurityAnalyzer in
  let pageSpeedAnalyzer :=
    PageSpeedAnalyzer.new cheerio_load url_s html headers loadTime in
  emit (Analyze "PageSpeedAnalyzer") ;;;
  match PageSpeedAnalyzer.analyze toFixed new_URL pageSpeedAnalyzer with
  | None => internal_error (type_error w)
  | Some pageSpeedResults =>
  (* Calculate overall score (weighted average) *)
  let overallScore :=
    weighted_average (res_score websiteQualityResults)
                     (res_score trustSecurityResults)
                     (res_score (PageSpeedAnalyzer.results pageSpeedResults)) in
  let result :=
    {| ar_url := url;
       analyzedAt := now_iso w;
       ar_loadTime := toFixed (inject_Z loadTime / 1000)%Q 2 ++ "s";
       overallScore := overallScore;
       sections :=
         {| websiteQuality :=
              {| sec_name := "Website Quality";
                 sec_score := res_score websiteQualityResults;
                 sec_maxScore := 100;
                 sec_categories := categories websiteQualityResults |};
            trustSecurity :=
              {| sec_name := "Trust & Security";
                 sec_score := res_score trustSecurityResults;
                 sec_maxScore := 100;
                 sec_categories := categories trustSecurityResults |};
            pageSpeed :=
              {| ps_section :=
                   {| sec_name := "PageSpeed";
                      sec_score :=
                        res_score (PageSpeedAnalyzer.results pageSpeedResults);
                      sec_maxScore := 100;
                      sec_categories :=
                        categories
                          (PageSpeedAnalyzer.results pageSpeedResults) |};
                 ps_performanceScore :=
                   PageSpeedAnalyzer.performanceScore pageSpeedResults;
                 ps_seoScore := PageSpeedAnalyzer.seoScore pageSpeedResults;
                 ps_bestPracticesScore :=
                   PageSpeedAnalyzer.bestPracticesScore pageSpeedResults;
                 ps_accessibilityScore :=
                   PageSpeedAnalyzer.accessibilityScore pageSpeedResults |} |} |} in
  ret (mkResponse 200 (ResultBody result))
  end end end
  | _ =>
      (* An analyzer raises on a body that is not a string: cheerio on
         [null], the Security analyzer, which calls [html.toLowerCase()], at
         the latest.  Which analyzers came to their results before depends
         on the body and on cheerio; the log of this path records none. *)
      internal_error (type_error w)
  end end end.

(** The handler on [req.body] itself: [const { url } = req.body] raises
    when the request has no parsed body ([None]: [req.body] is [undefined],
    which the JSON middleware of some express versions leaves for a request
    without a JSON body), and the [catch] of the handler answers. *)
Definition handle (w : World) (body : option JsVal) : Handler Response :=
  match body with
  | None => internal_error (type_error w)
  | Some url => post w url
  end.

End Handler.
End Route.

(** The flattening of a report: the checks of all its categories. *)
Definition flat_checks (r : Results) : list Check :=
  List.concat (List.map (fun c => values (checks (snd c))) (categories r)).

(** The sum of a list of integers. *)
Definition sum_Z (l : list Z) : Z := List.fold_right Z.add 0 l.

(** A check keeps to its range when [0 <= score <= maxScore]. *)
Definition in_range (c : Check) : Prop := 0 <= score c <= maxScore c.

(** The totals of a category are the sums over its checks. *)
Definition totals_are_sums (c : Category) : Prop :=
  cat_score c = reduce_sum score (values (checks c))
  /\ cat_maxScore c = reduce_sum maxScore (values (checks c)).

(** What a category reports for the check filed under [key]. *)
Definition check_score (key : string) (c : Category) : option Z :=
  option_map score (get_check key (checks c)).

Definition check_maxScore (key : string) (c : Category) : option Z :=
  option_map maxScore (get_check key (checks c)).

Definition check_value (key : string) (c : Category) : option string :=
  option_map value (get_check key (checks c)).

(** The selector [img]. *)
Definition img : Selector := [Simple (tag "img")].

(** The header of the HSTS check. *)
Definition hsts : string := "strict-transport-security".

(** A check that is worth no point, and the checks that are worth some. *)
Definition informational (c : Check) : bool := maxScore c =? 0.

Definition scored (l : list Check) : list Check :=
  List.filter (fun c => negb (informational c)) l.

(** The scores of a response: of an analysis result, its overall score and
    its sections (every category with every check); nothing of an error. *)
Definition scores_of (r : Route.Response) : option (option Z * Route.Sections) :=
  match Route.body r with
  | Route.ResultBody a => Some (Route.overallScore a, Route.sections a)
  | Route.ErrorBody _ _ => None
  end.

(** The PageSpeed score as combined from the four percentages the report
    exposes: their sum weighted by 40, 25, 20 and 15, and that sum brought
    back to the scale of 100. *)
Definition weighted_percentages (rep : PageSpeedAnalyzer.Report) : Z :=
  40 * PageSpeedAnalyzer.performanceScore rep
  + 25 * PageSpeedAnalyzer.seoScore rep
  + 20 * PageSpeedAnalyzer.bestPracticesScore rep
  + 15 * PageSpeedAnalyzer.accessibilityScore rep.

Definition score_from_percentages (rep : PageSpeedAnalyzer.Report) : Z :=
  js_round (js_div (weighted_percentages rep) 100).

(** ** Example inputs *)

Module Fixtures.

(** A stand-in for [new URL] on URLs of the form [scheme://host/...]: the
    protocol is the scheme in lower case with its colon, the host runs up to
    the next [/], [?] or [#] and must not be empty; anything else is
    rejected. *)
Definition is_scheme_char (c : ascii) : bool :=
  (JsString.is_lower c || JsString.is_upper c || JsString.is_digit c)%bool.

Definition is_host_char (c : ascii) : bool :=
  negb (Ascii.eqb c "/" || Ascii.eqb c "?" || Ascii.eqb c "#")%bool.

Definition simple_URL (s : string) : option URL :=
  let scheme := PageSpeedAnalyzer.take_while is_scheme_char s in
  let rest := PageSpeedAnalyzer.drop_while is_scheme_char s in
  match scheme, rest with
  | String _ _, String ":" (String "/" (String "/" r)) =>
      match PageSpeedAnalyzer.take_while is_host_char r with
      | EmptyString => None
      | h => Some {| protocol := JsString.toLowerCase scheme ++ ":";
                     host := h; hostname := h |}
      end
  | _, _ => None
  end.

(** A stand-in for [toFixed], on the exact value: the nearest decimal with
    [f] digits after the point, ties away from zero.
    [Number.prototype.toFixed] rounds the double instead and differs where
    the double is not the decimal that it prints ([(0.15).toFixed(1)] is
    0.1); the stand-in formats display values of the examples only. *)
Definition pad_left (n : nat) (s : string) : string :=
  String.concat "" (List.repeat "0" (n - String.length s)) ++ s.

Definition toFixed_exact (x : Q) (f : nat) : string :=
  let neg := Qltb x 0 in
  let a := if neg then (- x)%Q else x in
  let n := js_round (a * inject_Z (10 ^ Z.of_nat f)) in
  let ip := n / 10 ^ Z.of_nat f in
  let fp := n mod 10 ^ Z.of_nat f in
  (if neg then "-" else "") ++ show_Z ip
  ++ (if Nat.eqb f 0 then "" else "." ++ pad_left f (show_Z fp)).

(** A page whose only image sits in a [<picture>] with a WebP source. *)
Definition picture_html : string :=
  "<html><head><title>Gallery</title></head><body><picture><source type='image/webp' srcset='a.webp'><img src='a.jpg' alt='A'></picture></body></html>".

Definition picture_dom : Dom :=
  [Element "html" []
     [Element "head" [] [Element "title" [] [TextNode "Gallery"]];
      Element "body" []
        [Element "picture" []
           [Element "source" [("type", "image/webp"); ("srcset", "a.webp")] [];
            Element "img" [("src", "a.jpg"); ("alt", "A")] []]]]].

(** A page without images, links or title. *)
Definition bare_html : string :=
  "<!doctype html><html><head><meta charset='utf-8'></head><body></body></html>".

Definition bare_dom : Dom :=
  [Element "html" []
     [Element "head" [] [Element "meta" [("charset", "utf-8")] []];
      Element "body" [] []]].

(** The parser, on the two pages above. *)
Definition load (html : string) : Dom :=
  if String.eqb html picture_html then picture_dom
  else if String.eqb html bare_html then bare_dom
  else [].

Definition example_url : URL :=
  {| protocol := "http:"; host := "example.com"; hostname := "example.com" |}.

Definition picture_page : WebsiteQualityAnalyzer.t :=
  {| WebsiteQualityAnalyzer.url := "http://example.com";
     WebsiteQualityAnalyzer.dollar := picture_dom;
     WebsiteQualityAnalyzer.headers := ∅;
     WebsiteQualityAnalyzer.html := picture_html;
     WebsiteQualityAnalyzer.parsedUrl := example_url;
     WebsiteQualityAnalyzer.robotsTxt := JNull;
     WebsiteQualityAnalyzer.sitemap := JNull;
     WebsiteQualityAnalyzer.llmsTxt := JNull |}.

Definition bare_speed : PageSpeedAnalyzer.t :=
  PageSpeedAnalyzer.new load "http://example.com" bare_html ∅ 100.

(** The bare page, its three files fetched with an empty body. *)
Definition empty_files : AdditionalData :=
  mkAdditionalData (JStr "") (JStr "") (JStr "").

Definition bare_quality : WebsiteQualityAnalyzer.t :=
  {| WebsiteQualityAnalyzer.url := "http://example.com";
     WebsiteQualityAnalyzer.dollar := bare_dom;
     WebsiteQualityAnalyzer.headers := ∅;
     WebsiteQualityAnalyzer.html := bare_html;
     WebsiteQualityAnalyzer.parsedUrl := example_url;
     WebsiteQualityAnalyzer.robotsTxt := JNull;
     WebsiteQualityAnalyzer.sitemap := JNull;
     WebsiteQualityAnalyzer.llmsTxt := JNull |}.

(** A site that sends [Strict-Transport-Security: max-age=31536000]. *)
Definition hsts_site : TrustSecurityAnalyzer.t :=
  {| TrustSecurityAnalyzer.url := "https://example.com";
     TrustSecurityAnalyzer.headers := {[ hsts := "max-age=31536000" ]};
     TrustSecurityAnalyzer.html := bare_html;
     TrustSecurityAnalyzer.parsedUrl :=
       {| protocol := "https:"; host := "example.com";
          hostname := "example.com" |} |}.

(** The same site sending the header with an empty value. *)
Definition empty_hsts_site : TrustSecurityAnalyzer.t :=
  {| TrustSecurityAnalyzer.url := "https://example.com";
     TrustSecurityAnalyzer.headers := {[ hsts := "" ]};
     TrustSecurityAnalyzer.html := bare_html;
     TrustSecurityAnalyzer.parsedUrl :=
       {| protocol := "https:"; host := "example.com";
          hostname := "example.com" |} |}.

(** A network on which [http://example.com] serves the bare page and no
    other URL answers. *)
Definition example_network (rq : Route.Request) : Route.HttpOutcome :=
  if String.eqb (Route.rq_url rq) "http://example.com"
  then Route.Reply 200 (JStr bare_html) {[ "server" := "nginx" ]}
  else Route.Failure "Request failed with status code 404".

(** Two runs against it, at different times of the day. *)
Definition morning : Route.World :=
  {| Route.now_start := 1000;
     Route.now_end := 1100;
     Route.now_iso := "2024-01-01T08:00:00.000Z";
     Route.network := example_network;
     Route.type_error := "this.html.toLowerCase is not a function" |}.

Definition evening : Route.World :=
  {| Route.now_start := 52000;
     Route.now_end := 52100;
     Route.now_iso := "2024-01-01T20:00:00.000Z";
     Route.network := example_network;
     Route.type_error := "html.includes is not a function" |}.

Definition example_request : JsVal := JStr "http://example.com".

(** A page with a title of 45 characters, a description of 140, a favicon,
    a viewport and a single [<h1>]. *)
Definition letters (n : nat) : string :=
  String.concat "" (List.repeat "a" n).

Definition tidy_dom : Dom :=
  [Element "html" [("lang", "en")]
     [Element "head" []
        [Element "title" [] [TextNode (letters 45)];
         Element "meta" [("name", "description"); ("content", letters 140)] [];
         Element "link" [("rel", "icon"); ("href", "/favicon.ico")] [];
         Element "meta"
           [("name", "viewport"); ("content", "width=device-width")] []];
      Element "body" [] [Element "h1" [] [TextNode "Welcome"]]]].

Definition tidy_page : WebsiteQualityAnalyzer.t :=
  {| WebsiteQualityAnalyzer.url := "http://example.com";
     WebsiteQualityAnalyzer.dollar := tidy_dom;
     WebsiteQualityAnalyzer.headers := ∅;
     WebsiteQualityAnalyzer.html := "";
     WebsiteQualityAnalyzer.parsedUrl := example_url;
     WebsiteQualityAnalyzer.robotsTxt := JNull;
     WebsiteQualityAnalyzer.sitemap := JNull;
     WebsiteQualityAnalyzer.llmsTxt := JNull |}.

Definition example_response (w : Route.World) : Route.Response :=
  snd (Route.run (Route.post load simple_URL toFixed_exact w example_request)).

End Fixtures.


(** ** The certificate inspection of TrustSecurityAnalyzer

    [getSSLInfo] sends one request to port 443 of the host, certificate
    errors ignored, and always resolves; the outcome of that request, the
    clock and [new Date(string)] are what it is given.  [analyzeSSL] awaits
    it inside a [try] whose [catch] is therefore never entered. *)

Module Ssl.

(** What [res.socket.getPeerCertificate()] returns: [issuer_O] is [None]
    when the certificate has no [issuer], and [Some o] when it has one whose
    [O] member is [o]. *)
Record Certificate : Type := mkCertificate {
  valid_from : option string;
  valid_to : option string;
  issuer_O : option (option string)
}.

Inductive TlsOutcome : Type :=
| Responded (cert : option Certificate) (authorized : bool)
| ConnectionError
| TimedOut.

(** What the promise resolves to; [daysRemaining] is a number, [None] being
    NaN. *)
Record SslInfo : Type := mkSslInfo {
  valid : bool;
  issuer : option string;
  daysRemaining : option Z;
  validFrom : option string;
  validTo : option string
}.

(** [resolve({ valid: false, daysRemaining: 0 })] *)
Definition no_certificate : SslInfo :=
  {| valid := false; issuer := None; daysRemaining := Some 0;
     validFrom := None; validTo := None |}.

(** [Math.ceil(n / d)] for a positive [d].  The quotient is exact here; the
    double quotient of the source compares alike with 30 and with 7 for
    every pair of dates, and has the same ceiling as long as the expiry
    date lies within 100 000 years of the clock. *)
Definition ceil_div (n d : Z) : Z := - ((- n) / d).

Definition msPerDay : Z := 1000 * 60 * 60 * 24.

Section Inspection.
(** [new Date(s).getTime()], [None] for an invalid date. *)
Variable Date_parse : string -> option Z.

Definition getSSLInfo (now : Z) (o : TlsOutcome) : SslInfo :=
  match o with
  | Responded (Some cert) authorized =>
      if truthy (valid_to cert) then
        let expiryDate := Date_parse (default "" (valid_to cert)) in
        let daysRemaining :=
          option_map (fun e => ceil_div (e - now) msPerDay) expiryDate in
        {| valid := authorized;
           issuer := match issuer_O cert with
                     | Some o => o
                     | None => Some "Unknown"
                     end;
           daysRemaining := daysRemaining;
           validFrom := valid_from cert;
           validTo := valid_to cert |}
      else no_certificate
  | Responded None _ => no_certificate
  | ConnectionError => no_certificate
  | TimedOut => no_certificate
  end.

(** [sslInfo.daysRemaining || 0] *)
Definition daysUntilExpiry (i : SslInfo) : Z :=
  match daysRemaining i with
  | Some d => d
  | None => 0
  end.

Definition analyzeSSL (this : TrustSecurityAnalyzer.t) (now : Z)
           (o : TlsOutcome) : Category :=
  if String.eqb (protocol (TrustSecurityAnalyzer.parsedUrl this)) "https:" then
    (* Get SSL certificate info *)
    let sslInfo := getSSLInfo now o in
    (* Valid SSL (max 10 points) *)
    let c_validSsl :=
      {| name := "Valid SSL Certificate";
         value := if valid sslInfo then "Valid" else "Invalid";
         score := if valid sslInfo then 10 else 0;
         maxScore := 10;
         status := if valid sslInfo then good else error |} in
    (* Days until expiry (max 5 points) *)
    let daysUntilExpiry := daysUntilExpiry sslInfo in
    let expiryResult : Z * Status :=
      if daysUntilExpiry >? 30 then (5, good)
      else if daysUntilExpiry >? 7 then (3, warning)
      else (0, error) in
    let c_sslExpiry :=
      {| name := "SSL Expiry";
         value := show_Z daysUntilExpiry ++ " days remaining";
         score := fst expiryResult;
         maxScore := 5;
         status := snd expiryResult |} in
    category "SSL/TLS" [("validSsl", c_validSsl); ("sslExpiry", c_sslExpiry)]
  else
    category "SSL/TLS"
      [("validSsl",
        {| name := "Valid SSL Certificate"; value := "Not applicable (HTTP)";
           score := 0; maxScore := 10; status := error |});
       ("sslExpiry",
        {| name := "SSL Expiry"; value := "Not applicable";
           score := 0; maxScore := 5; status := error |})].

End Inspection.
End Ssl.

(** ** The client

    [analyzeWebsite] of the [App] component prepares the URL it posts, and
    the cards and circles colour a score. *)

Module Client.

(** The URL that [analyzeWebsite] posts for the text of the input field;
    [None] when it posts nothing and shows 'Please enter a URL'. *)
Definition targetUrl (url : string) : option string :=
  if negb (JsString.truthy (JsString.trim url)) then None
  else
    (* Add protocol if missing *)
    let targetUrl := JsString.trim url in
    Some (if (negb (JsString.startsWith targetUrl "http://")
              && negb (JsString.startsWith targetUrl "https://"))%bool
          then "https://" ++ targetUrl
          else targetUrl).

(** [getScoreColor(score)] of [ScoreCircle]. *)
Definition circleColor (score : Z) : Status :=
  if score >=? 70 then good
  else if score >=? 40 then warning
  else error.

(** [getScoreColor(score, maxScore)] of [SectionCard] and [PageSpeedCard].
    With [maxScore] 0 the percentage is not a ratio: it is +Infinity for a
    positive score, and NaN or -Infinity otherwise, which no comparison
    accepts.  Elsewhere the percentage is exact here, and the two
    comparisons come out as they do on doubles: at a ratio of exactly 7/10
    or 2/5 the double product is not below 70 or 40, and any other ratio of
    integers below 10^12 is too far from these for the rounding to
    matter. *)
Definition cardColor (score maxScore : Z) : Status :=
  if maxScore =? 0 then (if score >? 0 then good else error)
  else
    let percentage : Q := (js_div score maxScore * 100)%Q in
    if Qle_bool 70 percentage then good
    else if Qle_bool 40 percentage then warning
    else error.

End Client.

(** ** Requests and replies of the route, for the statements below *)

(** The request for the page itself. *)
Definition page_request (url : string) : Route.Request :=
  Route.mkRequest url 30000 Route.browserUserAgent.

(** The request [checkFileExists(baseUrl, path)] sends. *)
Definition file_request (u : URL) (path : string) : Route.Request :=
  Route.mkRequest ((protocol u ++ "//" ++ host u) ++ path) 5000
                  Route.botUserAgent.

(** The network answers a request with status 200 and a truthy body. *)
Definition served (w : Route.World) (rq : Route.Request) : bool :=
  match Route.network w rq with
  | Route.Reply st d _ => ((st =? 200) && JsVal.truthy d)%bool
  | Route.Failure _ => false
  end.

(** ** The selector built from an [id] *)

(** An [id] from which [label[for="id"]] is the plain equality test. *)
Definition plain_id (id : string) : bool :=
  negb (JsString.includes id JsString.quote || JsString.includes id "\")%bool.

(** The [id]s that [analyzeAccessibility] looks a label up for: those of the
    inputs that have no [aria-label] and no [placeholder]. *)
Definition label_lookups (d : Dom) : list string :=
  List.flat_map
    (fun el =>
       let id := get_attr "id" (e_attribs el) in
       if (truthy (get_attr "aria-label" (e_attribs el))
           || truthy (get_attr "placeholder" (e_attribs el)))%bool then []
       else if truthy id then [default "" id] else [])
    (select d [Simple (mkCompound (Some "input") []
                         [Equals "type" "hidden"; Equals "type" "submit";
                          Equals "type" "button"])]).

Definition labels_plain (d : Dom) : bool := forallb plain_id (label_lookups d).

(** ** The overall score, read with exact arithmetic

    [round(quality * 0.35 + security * 0.30 + speed * 0.35)] on rationals,
    the tie going up: what the formula says when it is not evaluated on
    doubles. *)
Definition overall_exact (quality security speed : Z) : Z :=
  js_round (inject_Z quality * (35 # 100) + inject_Z security * (30 # 100)
            + inject_Z speed * (35 # 100)).

(** The value of a double that is finite, as a rational. *)
Definition value_of (x : float) : option Q :=
  match Prim2SF x with
  | S754_zero _ => Some 0%Q
  | S754_finite s m e =>
      let n := if s then Z.neg m else Z.pos m in
      Some (if 0 <=? e then inject_Z (n * 2 ^ e)
            else inject_Z n / inject_Z (2 ^ (- e)))%Q
  | _ => None
  end.

(** ** More example inputs *)

Module Samples.

(** A small shop page: title, description, canonical link and two sized
    images with [alt], one of them WebP. *)
Definition shop_html : string :=
  "<!DOCTYPE html><html lang='en'><head><title>Shop</title><meta charset='utf-8'><meta name='description' content='Things for sale'><link rel='canonical' href='https://shop.example/'></head><body><h1>Shop</h1><img src='a.webp' alt='A' width='10' height='10'><img src='b.png' alt='B' width='10' height='10'><a href='/privacy'>Privacy Policy</a></body></html>".

Definition shop_dom : Dom :=
  [Element "html" [("lang", "en")]
     [Element "head" []
        [Element "title" [] [TextNode "Shop"];
         Element "meta" [("charset", "utf-8")] [];
         Element "meta"
           [("name", "description"); ("content", "Things for sale")] [];
         Element "link"
           [("rel", "canonical"); ("href", "https://shop.example/")] []];
      Element "body" []
        [Element "h1" [] [TextNode "Shop"];
         Element "img"
           [("src", "a.webp"); ("alt", "A"); ("width", "10");
            ("height", "10")] [];
         Element "img"
           [("src", "b.png"); ("alt", "B"); ("width", "10");
            ("height", "10")] [];
         Element "a" [("href", "/privacy")] [TextNode "Privacy Policy"]]]].

Definition shop_url : string := "https://shop.example/".

Definition shop_headers : gmap string string :=
  {[ "cf-ray" := "8a1b2c3d4e5f-AMS" ]}.

Definition shop_quality : WebsiteQualityAnalyzer.t :=
  {| WebsiteQualityAnalyzer.url := shop_url;
     WebsiteQualityAnalyzer.dollar := shop_dom;
     WebsiteQualityAnalyzer.headers := shop_headers;
     WebsiteQualityAnalyzer.html := shop_html;
     WebsiteQualityAnalyzer.parsedUrl :=
       {| protocol := "https:"; host := "shop.example";
          hostname := "shop.example" |};
     WebsiteQualityAnalyzer.robotsTxt := JNull;
     WebsiteQualityAnalyzer.sitemap := JNull;
     WebsiteQualityAnalyzer.llmsTxt := JNull |}.

(** The page, loaded in 1.2 s and in 4 s. *)
Definition shop_speed : PageSpeedAnalyzer.t :=
  {| PageSpeedAnalyzer.url := shop_url;
     PageSpeedAnalyzer.dollar := shop_dom;
     PageSpeedAnalyzer.headers := shop_headers;
     PageSpeedAnalyzer.loadTime := 1200;
     PageSpeedAnalyzer.html := shop_html |}.

Definition shop_speed_slow : PageSpeedAnalyzer.t :=
  {| PageSpeedAnalyzer.url := shop_url;
     PageSpeedAnalyzer.dollar := shop_dom;
     PageSpeedAnalyzer.headers := shop_headers;
     PageSpeedAnalyzer.loadTime := 4000;
     PageSpeedAnalyzer.html := shop_html |}.

Definition shop_security : TrustSecurityAnalyzer.t :=
  {| TrustSecurityAnalyzer.url := shop_url;
     TrustSecurityAnalyzer.headers := shop_headers;
     TrustSecurityAnalyzer.html := shop_html;
     TrustSecurityAnalyzer.parsedUrl :=
       {| protocol := "https:"; host := "shop.example";
          hostname := "shop.example" |} |}.

(** The same site serving its markup in capitals. *)
Definition shop_security_capitals : TrustSecurityAnalyzer.t :=
  {| TrustSecurityAnalyzer.url := shop_url;
     TrustSecurityAnalyzer.headers := shop_headers;
     TrustSecurityAnalyzer.html := JsString.toUpperCase shop_html;
     TrustSecurityAnalyzer.parsedUrl :=
       {| protocol := "https:"; host := "shop.example";
          hostname := "shop.example" |} |}.

(** A run during which no host can be reached. *)
Definition offline : Route.World :=
  {| Route.now_start := 1000;
     Route.now_end := 1030;
     Route.now_iso := "2024-01-01T08:00:00.000Z";
     Route.network :=
       fun _ => Route.Failure "getaddrinfo ENOTFOUND example.com";
     Route.type_error := "html.includes is not a function" |}.

(** A run that takes six seconds to fetch the bare page from a server that
    sends one cross-origin policy. *)
Definition sluggish_network (rq : Route.Request) : Route.HttpOutcome :=
  if String.eqb (Route.rq_url rq) "http://example.com"
  then Route.Reply 200 (JStr Fixtures.bare_html)
         {[ "server" := "nginx";
            "cross-origin-opener-policy" := "same-origin" ]}
  else Route.Failure "Request failed with status code 404".

Definition sluggish : Route.World :=
  {| Route.now_start := 1000;
     Route.now_end := 7000;
     Route.now_iso := "2024-01-01T08:00:00.000Z";
     Route.network := sluggish_network;
     Route.type_error := "this.html.toLowerCase is not a function" |}.

(** A certificate that expires on 1 January 2027, seen on 3 November 2026,
    and the one date string that the stand-in for [new Date] knows. *)
Definition leaf_certificate : Ssl.Certificate :=
  {| Ssl.valid_from := Some "Oct  3 00:00:00 2026 GMT";
     Ssl.valid_to := Some "Jan  1 00:00:00 2027 GMT";
     Ssl.issuer_O := Some (Some "Example Trust Services") |}.

Definition known_dates (s : string) : option Z :=
  if String.eqb s "Jan  1 00:00:00 2027 GMT" then Some 1798761600000
  else None.

Definition november_3rd : Z := 1793664000000.

End Samples.

(** * Properties *)

(** ** Arithmetic of [Math.round] on ratios *)

(** Rounding a scaled ratio of integers is one integer division. *)
Lemma js_round_ratio (a b k : Z) :
  0 < b -> js_round (js_div a b * inject_Z k) = (2 * a * k + b) / (2 * b).
Proof.
  intros Hb. destruct b as [|p|p]; try lia.
  unfold js_round, js_div, Qfloor, Qdiv, Qinv, Qmult, Qplus, inject_Z.
  cbn [Qnum Qden].
  rewrite !Pos.mul_1_l, !Pos.mul_1_r, Pos2Z.inj_mul.
  f_equal; ring.
Qed.

Lemma js_round_comp (x y : Q) : (x == y)%Q -> js_round x = js_round y.
Proof. intros H. unfold js_round. now rewrite H. Qed.

Lemma ratio_score_bounds (part n full : Z) :
  0 <= part <= n -> 0 <= full ->
  0 <= PageSpeedAnalyzer.ratio_score part n full <= full.
Proof.
  intros Hp Hf. unfold PageSpeedAnalyzer.ratio_score.
  destruct (Z.eqb_spec n 0) as [->|Hn]; [lia|].
  rewrite js_round_ratio by lia. split.
  - apply Z.div_pos; nia.
  - enough ((2 * part * full + n) / (2 * n) < full + 1) by lia.
    apply Z.div_lt_upper_bound; nia.
Qed.

(** ** Sums over checks *)

Lemma reduce_sum_from (f : Check -> Z) (l : list Check) (acc : Z) :
  List.fold_left (fun sum c => sum + f c) l acc = acc + reduce_sum f l.
Proof.
  unfold reduce_sum. revert acc.
  induction l as [|c l IH]; intros acc; cbn [List.fold_left].
  - lia.
  - rewrite IH, (IH (0 + f c)). lia.
Qed.

Lemma reduce_sum_cons (f : Check -> Z) (c : Check) (l : list Check) :
  reduce_sum f (c :: l) = f c + reduce_sum f l.
Proof.
  unfold reduce_sum at 1. cbn [List.fold_left].
  rewrite reduce_sum_from. lia.
Qed.

Lemma reduce_sum_app (f : Check -> Z) (l1 l2 : list Check) :
  reduce_sum f (l1 ++ l2)%list = reduce_sum f l1 + reduce_sum f l2.
Proof.
  induction l1 as [|c l1 IH]; cbn [app].
  - reflexivity.
  - rewrite !reduce_sum_cons, IH. lia.
Qed.

(** Informational checks that score 0 weigh nothing in either sum. *)
Lemma scored_sums (l : list Check) :
  Forall (fun c => informational c = true -> score c = 0) l ->
  reduce_sum score (scored l) = reduce_sum score l
  /\ reduce_sum maxScore (scored l) = reduce_sum maxScore l.
Proof.
  induction 1 as [|c l Hc _ [IHs IHm]]; [split; reflexivity|].
  unfold scored in *. cbn [List.filter].
  unfold informational in *.
  destruct (Z.eqb_spec (maxScore c) 0) as [E|E]; cbn [negb].
  - rewrite !reduce_sum_cons, IHs, IHm, E, (Hc eq_refl). lia.
  - rewrite !reduce_sum_cons, IHs, IHm. lia.
Qed.

(** ** Counting selections *)

Lemma zlen_nonneg {A} (l : list A) : 0 <= zlen l.
Proof. unfold zlen. lia. Qed.

Lemma zlen_filter {A} (f : A -> bool) (l : list A) :
  0 <= zlen (List.filter f l) <= zlen l.
Proof.
  unfold zlen. pose proof (List.filter_length_le f l). lia.
Qed.

Lemma filter_length_mono {A} (f g : A -> bool) (l : list A) :
  (forall x, f x = true -> g x = true) ->
  (List.length (List.filter f l) <= List.length (List.filter g l))%nat.
Proof.
  intros Hfg. induction l as [|x l IH]; cbn [List.filter]; [lia|].
  destruct (f x) eqn:Hf.
  - rewrite (Hfg x Hf). cbn [List.length]. lia.
  - destruct (g x); cbn [List.length]; lia.
Qed.

(** A selection by tag and attributes is part of the selection by tag. *)
Lemma matches_tag_with (t : string) (l : list AttrTest) (e : Elem) :
  matches [Simple (tag_with t l)] e = true -> matches [Simple (tag t)] e = true.
Proof.
  unfold matches, matches_complex, matches_compound, tag_with, tag.
  cbn [existsb sel_tag sel_attrs sel_not forallb].
  rewrite !orb_false_r, !andb_true_r, !andb_true_iff. tauto.
Qed.

Lemma zlen_select_tag_with (d : Dom) (t : string) (l : list AttrTest) :
  0 <= zlen (select d [Simple (tag_with t l)]) <= zlen (select d [Simple (tag t)]).
Proof.
  split; [apply zlen_nonneg|]. unfold zlen, select.
  pose proof (filter_length_mono _ _ (elements d) (matches_tag_with t l)). lia.
Qed.

Create HintDb ranges.
#[local] Hint Resolve zlen_filter zlen_select_tag_with : ranges.

(** ** Every category total is the sum over its checks *)

Lemma category_totals (n : string) (cs : Checks) :
  totals_are_sums (category n cs).
Proof. split; reflexivity. Qed.

Lemma quality_totals (this : WebsiteQualityAnalyzer.t) :
  Forall (fun c => totals_are_sums (snd c))
         (categories (WebsiteQualityAnalyzer.analyze this)).
Proof. repeat constructor. Qed.

Lemma security_totals (this : TrustSecurityAnalyzer.t) :
  Forall (fun c => totals_are_sums (snd c))
         (categories (TrustSecurityAnalyzer.analyze this)).
Proof. repeat constructor. Qed.

Lemma pagespeed_totals (toFixed : Q -> nat -> string)
      (new_URL : string -> option URL) (this : PageSpeedAnalyzer.t)
      (rep : PageSpeedAnalyzer.Report) :
  PageSpeedAnalyzer.analyze toFixed new_URL this = Some rep ->
  Forall (fun c => totals_are_sums (snd c))
         (categories (PageSpeedAnalyzer.results rep)).
Proof.
  unfold PageSpeedAnalyzer.analyze, PageSpeedAnalyzer.analyzeBestPractices.
  destruct (new_URL (PageSpeedAnalyzer.url this)) as [u|]; [|discriminate].
  intros [= <-]. repeat constructor.
Qed.

(** ** The range of a check *)

(** One check at a time: a ratio score by [ratio_score_bounds], the others
    by cases on their conditions. *)
Ltac check_in_range :=
  unfold in_range;
  lazy beta iota zeta delta
    [score maxScore snd fst
     WebsiteQualityAnalyzer.tag_check TrustSecurityAnalyzer.header_check
     TrustSecurityAnalyzer.indicator_check TrustSecurityAnalyzer.hstsScore
     PageSpeedAnalyzer.fixed_check];
  first [ apply ratio_score_bounds; [auto with ranges | lia]
        | repeat case_match; simplify_eq; lazy beta iota;
          try match goal with
              | |- context [zlen ?l] => pose proof (zlen_nonneg l)
              end;
          lia ].

Ltac each_check :=
  repeat (apply List.Forall_cons); try apply List.Forall_nil.

(** X1: every check of the Security analyzer keeps to its range: its score
    lies between 0 and its maxScore, whatever the headers and the markup. *)
Lemma security_in_range (this : TrustSecurityAnalyzer.t) :
  Forall in_range (TrustSecurityAnalyzer.allChecks this).
Proof.
  unfold TrustSecurityAnalyzer.allChecks. rewrite !Forall_app.
  repeat split; each_check; check_in_range.
Qed.

(** X2: every check of the PageSpeed analyzer keeps to its range, whatever
    the document, the markup and the load time. *)
Lemma pagespeed_in_range (toFixed : Q -> nat -> string)
      (new_URL : string -> option URL) (this : PageSpeedAnalyzer.t)
      (rep : PageSpeedAnalyzer.Report) :
  PageSpeedAnalyzer.analyze toFixed new_URL this = Some rep ->
  Forall in_range (flat_checks (PageSpeedAnalyzer.results rep)).
Proof.
  unfold PageSpeedAnalyzer.analyze, PageSpeedAnalyzer.analyzeBestPractices.
  destruct (new_URL (PageSpeedAnalyzer.url this)) as [u|]; [|discriminate].
  intros [= <-]. unfold flat_checks.
  cbn [categories PageSpeedAnalyzer.results List.map List.concat snd].
  rewrite !Forall_app.
  repeat split; each_check; check_in_range.
Qed.

(** So does every check of the Quality analyzer, Image Optimization
    apart. *)
Lemma quality_in_range_but_image (this : WebsiteQualityAnalyzer.t) :
  Forall (fun c => name c <> "Image Optimization" -> in_range c)
         (WebsiteQualityAnalyzer.allChecks this).
Proof.
  unfold WebsiteQualityAnalyzer.allChecks. rewrite !Forall_app.
  repeat split; each_check.
  all: try (intros _; check_in_range).
  intros H. now contradiction H.
Qed.

(** The Image Optimization check keeps to its range on the pages where the
    WebP images and the [<picture>] elements together do not outnumber the
    images. *)
Lemma image_optimization_in_range_if (this : WebsiteQualityAnalyzer.t) :
  WebsiteQualityAnalyzer.webpImages this
  + WebsiteQualityAnalyzer.pictureElements this
  <= WebsiteQualityAnalyzer.allImages this ->
  0 <= WebsiteQualityAnalyzer.imageOptScore this <= 4.
Proof.
  intros H.
  unfold WebsiteQualityAnalyzer.imageOptScore,
    WebsiteQualityAnalyzer.optimizedRatio.
  pose proof (zlen_nonneg (select (WebsiteQualityAnalyzer.dollar this)
                             [Simple (tag_with "img" [Contains "src" ".webp"]);
                              Simple (tag_with "source"
                                        [Equals "type" "image/webp"])])) as Hw.
  pose proof (zlen_nonneg (select (WebsiteQualityAnalyzer.dollar this)
                             [Simple (tag "picture")])) as Hp.
  fold (WebsiteQualityAnalyzer.webpImages this) in Hw.
  fold (WebsiteQualityAnalyzer.pictureElements this) in Hp.
  destruct (Z.gtb_spec (WebsiteQualityAnalyzer.allImages this) 0) as [Hpos|_].
  - change 4%Q with (inject_Z 4).
    rewrite js_round_ratio by lia. split.
    + apply Z.div_pos; lia.
    + enough ((2 * (WebsiteQualityAnalyzer.webpImages this
                    + WebsiteQualityAnalyzer.pictureElements this) * 4
               + WebsiteQualityAnalyzer.allImages this)
              / (2 * WebsiteQualityAnalyzer.allImages this) < 4 + 1) by lia.
      apply Z.div_lt_upper_bound; lia.
  - vm_compute. split; discriminate.
Qed.

(** C1, at the failing input: on a page whose single [<img>] sits in a
    [<picture>] with a WebP [<source>], the Image Optimization check of the
    Quality analyzer has score 8 and maxScore 4, outside the range
    [0 <= score <= maxScore]. *)
Theorem image_optimization_exceeds_maxScore :
  exists c,
    get_check "imageOptimization"
      (checks (WebsiteQualityAnalyzer.analyzeContentQuality
                 Fixtures.picture_page)) = Some c
    /\ name c = "Image Optimization"
    /\ score c = 8 /\ maxScore c = 4 /\ ~ in_range c.
Proof.
  eexists. split; [vm_compute; reflexivity|].
  unfold in_range. cbn [name score maxScore]. repeat split; lia.
Qed.

(** ** The Quality analyzer *)

Lemma quality_flat_checks (this : WebsiteQualityAnalyzer.t) :
  flat_checks (WebsiteQualityAnalyzer.analyze this)
  = WebsiteQualityAnalyzer.allChecks this.
Proof.
  unfold flat_checks, WebsiteQualityAnalyzer.allChecks,
    WebsiteQualityAnalyzer.analyze.
  cbn [categories List.map List.concat snd]. now rewrite app_nil_r.
Qed.

Lemma quality_maxPoints (this : WebsiteQualityAnalyzer.t) :
  WebsiteQualityAnalyzer.maxPoints this = 110.
Proof. reflexivity. Qed.

Lemma quality_check_count (this : WebsiteQualityAnalyzer.t) :
  List.length (WebsiteQualityAnalyzer.allChecks this) = 21%nat.
Proof. reflexivity. Qed.

(** C4, as amended: the Quality analyzer's top-level score is
    round(100 * earned / max) over the flat list of all its checks (the
    earned and the maximal points are the plain sums of the category totals,
    no category is weighted); that list has 21 checks, worth 110 points. *)
Theorem quality_score_is_flat_ratio (this : WebsiteQualityAnalyzer.t) :
  let r := WebsiteQualityAnalyzer.analyze this in
  let all := flat_checks r in
  List.length all = 21%nat
  /\ reduce_sum maxScore all = 110
  /\ reduce_sum score all
     = sum_Z (List.map (fun c => cat_score (snd c)) (categories r))
  /\ reduce_sum maxScore all
     = sum_Z (List.map (fun c => cat_maxScore (snd c)) (categories r))
  /\ res_score r
     = js_round (100 * js_div (reduce_sum score all) (reduce_sum maxScore all)).
Proof.
  cbv zeta. rewrite quality_flat_checks.
  split; [exact (quality_check_count this)|].
  split; [exact (quality_maxPoints this)|].
  pose proof (quality_totals this) as T.
  unfold WebsiteQualityAnalyzer.analyze in T. cbn [categories] in T.
  repeat match goal with
         | H : Forall _ (_ :: _) |- _ =>
             apply Forall_cons_iff in H; destruct H as [[? ?] H]
         end.
  cbn [snd] in *.
  unfold WebsiteQualityAnalyzer.allChecks, WebsiteQualityAnalyzer.analyze.
  rewrite !reduce_sum_app.
  cbn [categories List.map snd sum_Z List.fold_right res_score].
  split; [lia|]. split; [lia|].
  apply js_round_comp.
  unfold WebsiteQualityAnalyzer.earnedPoints, WebsiteQualityAnalyzer.maxPoints,
    WebsiteQualityAnalyzer.allChecks.
  rewrite !reduce_sum_app. ring.
Qed.

(** C4, as stated, fails: on the gallery page the flat list of the Quality
    analyzer's checks has 21 entries, not 24. *)
Lemma quality_has_not_24_checks :
  List.length
    (flat_checks (WebsiteQualityAnalyzer.analyze Fixtures.picture_page))
  = 21%nat
  /\ List.length
       (flat_checks (WebsiteQualityAnalyzer.analyze Fixtures.picture_page))
     <> 24%nat.
Proof. vm_compute. split; [reflexivity|discriminate]. Qed.

(** C7: on a page without [<img>] the Image Optimization ratio of the Quality
    analyzer is 1 and its check scores 4 of 4, the image-alt check of the SEO
    category scores 8 of 8 and the image-alt check of the Accessibility
    category 5 of 5. *)
Theorem no_images_full_scores
        (q : WebsiteQualityAnalyzer.t) (p : PageSpeedAnalyzer.t) (d : Dom) :
  WebsiteQualityAnalyzer.dollar q = d ->
  PageSpeedAnalyzer.dollar p = d ->
  select d img = [] ->
  WebsiteQualityAnalyzer.optimizedRatio q = 1%Q
  /\ check_score "imageOptimization"
       (WebsiteQualityAnalyzer.analyzeContentQuality q) = Some 4
  /\ check_maxScore "imageOptimization"
       (WebsiteQualityAnalyzer.analyzeContentQuality q) = Some 4
  /\ check_score "imageAlt" (PageSpeedAnalyzer.analyzeSEO p) = Some 8
  /\ check_maxScore "imageAlt" (PageSpeedAnalyzer.analyzeSEO p) = Some 8
  /\ check_score "imagesHaveAlt" (PageSpeedAnalyzer.analyzeAccessibility p)
     = Some 5
  /\ check_maxScore "imagesHaveAlt" (PageSpeedAnalyzer.analyzeAccessibility p)
     = Some 5.
Proof.
  intros Hq Hp Hd.
  assert (Hr : WebsiteQualityAnalyzer.optimizedRatio q = 1%Q).
  { unfold WebsiteQualityAnalyzer.optimizedRatio,
      WebsiteQualityAnalyzer.allImages.
    rewrite Hq. fold img. rewrite Hd. reflexivity. }
  split; [exact Hr|].
  split.
  { change (Some (WebsiteQualityAnalyzer.imageOptScore q) = Some 4).
    unfold WebsiteQualityAnalyzer.imageOptScore. rewrite Hr. reflexivity. }
  split; [reflexivity|].
  split.
  { change (Some (PageSpeedAnalyzer.ratio_score
                    (zlen (select (PageSpeedAnalyzer.dollar p)
                             [Simple (tag_with "img" [Has "alt"])]))
                    (zlen (select (PageSpeedAnalyzer.dollar p) img)) 8)
            = Some 8).
    rewrite Hp, Hd. reflexivity. }
  split; [reflexivity|].
  split; [|reflexivity].
  change (Some (PageSpeedAnalyzer.ratio_score
                  (zlen (select (PageSpeedAnalyzer.dollar p)
                           [Simple (tag_with "img" [Has "alt"])]))
                  (zlen (select (PageSpeedAnalyzer.dollar p) img)) 5)
          = Some 5).
  rewrite Hp, Hd. reflexivity.
Qed.

Lemma no_images_full_scores_witness :
  select Fixtures.bare_dom img = []
  /\ check_score "imageOptimization"
       (WebsiteQualityAnalyzer.analyzeContentQuality Fixtures.bare_quality)
     = Some 4
  /\ check_score "imageAlt" (PageSpeedAnalyzer.analyzeSEO Fixtures.bare_speed)
     = Some 8
  /\ check_score "imagesHaveAlt"
       (PageSpeedAnalyzer.analyzeAccessibility Fixtures.bare_speed)
     = Some 5.
Proof.
  pose proof (no_images_full_scores Fixtures.bare_quality Fixtures.bare_speed
                Fixtures.bare_dom eq_refl eq_refl eq_refl) as H.
  split; [reflexivity|].
  destruct H as (_ & H1 & _ & H2 & _ & H3 & _).
  split; [exact H1|]. split; [exact H2|exact H3].
Defined.

Lemma or_null_falsy (v : JsVal) :
  JsVal.truthy v = false -> JsVal.or_null v = JNull.
Proof. intros H. unfold JsVal.or_null. now rewrite H. Qed.

(** C10: an auxiliary artifact whose fetched content is falsy (the empty
    string, and any other falsy value) is stored as [null] by the
    constructor of the Quality analyzer, and its Crawlability check scores 0
    with value 'Missing'; for robots.txt, sitemap.xml and llms.txt alike. *)
Theorem falsy_artifact_is_missing
        (cheerio_load : string -> Dom) (new_URL : string -> option URL)
        (url html : string) (headers : gmap string string)
        (ad : AdditionalData) (this : WebsiteQualityAnalyzer.t) :
  WebsiteQualityAnalyzer.new cheerio_load new_URL url html headers ad
  = Some this ->
  let crawl := WebsiteQualityAnalyzer.analyzeCrawlability this in
  JsVal.truthy (JStr "") = false
  /\ (JsVal.truthy (ad_robotsTxt ad) = false ->
      WebsiteQualityAnalyzer.robotsTxt this = JNull
      /\ check_score "robotsTxt" crawl = Some 0
      /\ check_value "robotsTxt" crawl = Some "Missing")
  /\ (JsVal.truthy (ad_sitemap ad) = false ->
      WebsiteQualityAnalyzer.sitemap this = JNull
      /\ check_score "sitemap" crawl = Some 0
      /\ check_value "sitemap" crawl = Some "Missing")
  /\ (JsVal.truthy (ad_llmsTxt ad) = false ->
      WebsiteQualityAnalyzer.llmsTxt this = JNull
      /\ check_score "llmsTxt" crawl = Some 0
      /\ check_value "llmsTxt" crawl = Some "Missing").
Proof.
  intros Hnew. cbv zeta. unfold WebsiteQualityAnalyzer.new in Hnew.
  destruct (new_URL url) as [u|]; [|discriminate].
  injection Hnew as <-.
  unfold check_score, check_value, WebsiteQualityAnalyzer.analyzeCrawlability.
  cbn [WebsiteQualityAnalyzer.robotsTxt WebsiteQualityAnalyzer.sitemap
       WebsiteQualityAnalyzer.llmsTxt].
  split; [reflexivity|].
  repeat split; try (now apply or_null_falsy);
    match goal with
    | H : JsVal.truthy _ = false |- _ => rewrite (or_null_falsy _ H)
    end; reflexivity.
Qed.

Lemma falsy_artifact_is_missing_witness :
  WebsiteQualityAnalyzer.new Fixtures.load Fixtures.simple_URL
    "http://example.com" Fixtures.bare_html ∅ Fixtures.empty_files
  = Some Fixtures.bare_quality
  /\ check_score "robotsTxt"
       (WebsiteQualityAnalyzer.analyzeCrawlability Fixtures.bare_quality)
     = Some 0
  /\ check_value "robotsTxt"
       (WebsiteQualityAnalyzer.analyzeCrawlability Fixtures.bare_quality)
     = Some "Missing".
Proof.
  assert (Hnew : WebsiteQualityAnalyzer.new Fixtures.load Fixtures.simple_URL
                   "http://example.com" Fixtures.bare_html ∅
                   Fixtures.empty_files
                 = Some Fixtures.bare_quality) by reflexivity.
  split; [exact Hnew|].
  destruct (falsy_artifact_is_missing _ _ _ _ _ _ _ Hnew) as (_ & H & _).
  destruct (H eq_refl) as (_ & H1 & H2).
  split; [exact H1|exact H2].
Defined.

(** ** The Security analyzer *)

(** C6, as amended: the HSTS check has maxScore 10; when the
    strict-transport-security header has a non-empty value the check scores
    7 if the value lacks includeSubDomains (with or without preload), 8 if
    it has includeSubDomains but lacks preload, 10 if it has both; when the
    header is absent or its value is empty the check scores 0. *)
Theorem hsts_score_by_flags (this : TrustSecurityAnalyzer.t) :
  let sec := TrustSecurityAnalyzer.analyzeSecurityHeaders this in
  check_maxScore "hsts" sec = Some 10
  /\ (forall h : string,
        TrustSecurityAnalyzer.headers this !! hsts = Some h -> h <> "" ->
        check_score "hsts" sec
        = Some (if negb (JsString.includes h "includeSubDomains") then 7
                else if negb (JsString.includes h "preload") then 8
                else 10))
  /\ (TrustSecurityAnalyzer.headers this !! hsts = None
      \/ TrustSecurityAnalyzer.headers this !! hsts = Some "" ->
      check_score "hsts" sec = Some 0).
Proof.
  cbv zeta. split; [reflexivity|].
  change (check_score "hsts" (TrustSecurityAnalyzer.analyzeSecurityHeaders this))
    with (Some (TrustSecurityAnalyzer.hstsScore
                  (TrustSecurityAnalyzer.headers this !! hsts))).
  split.
  - intros h -> Hne. unfold TrustSecurityAnalyzer.hstsScore.
    destruct h as [|c h]; [congruence|]. cbn [JsString.truthy].
    destruct (JsString.includes _ "includeSubDomains"),
      (JsString.includes _ "preload"); reflexivity.
  - intros [-> | ->]; reflexivity.
Qed.

Lemma hsts_score_by_flags_witness :
  TrustSecurityAnalyzer.headers Fixtures.hsts_site !! hsts
  = Some "max-age=31536000"
  /\ check_score "hsts"
       (TrustSecurityAnalyzer.analyzeSecurityHeaders Fixtures.hsts_site)
     = Some 7
  /\ check_score "hsts"
       (TrustSecurityAnalyzer.analyzeSecurityHeaders Fixtures.empty_hsts_site)
     = Some 0.
Proof.
  assert (H : TrustSecurityAnalyzer.headers Fixtures.hsts_site !! hsts
              = Some "max-age=31536000") by (vm_compute; reflexivity).
  assert (He : TrustSecurityAnalyzer.headers Fixtures.empty_hsts_site !! hsts
               = Some "") by (vm_compute; reflexivity).
  split; [exact H|]. split.
  - destruct (hsts_score_by_flags Fixtures.hsts_site) as (_ & Hs & _).
    exact (Hs "max-age=31536000" H ltac:(discriminate)).
  - destruct (hsts_score_by_flags Fixtures.empty_hsts_site) as (_ & _ & H0).
    exact (H0 (or_intror He)).
Defined.

(** C6, as stated, fails: a strict-transport-security header with an empty
    value is present and lacks includeSubDomains, and the HSTS check scores
    0, not 7. *)
Lemma hsts_empty_value_scores_0 :
  TrustSecurityAnalyzer.headers Fixtures.empty_hsts_site !! hsts = Some ""
  /\ JsString.includes "" "includeSubDomains" = false
  /\ check_score "hsts"
       (TrustSecurityAnalyzer.analyzeSecurityHeaders Fixtures.empty_hsts_site)
     = Some 0
  /\ check_score "hsts"
       (TrustSecurityAnalyzer.analyzeSecurityHeaders Fixtures.empty_hsts_site)
     <> Some 7.
Proof. vm_compute. repeat split; discriminate. Qed.

Lemma security_flat_checks (this : TrustSecurityAnalyzer.t) :
  flat_checks (TrustSecurityAnalyzer.analyze this)
  = TrustSecurityAnalyzer.allChecks this.
Proof.
  unfold flat_checks, TrustSecurityAnalyzer.allChecks,
    TrustSecurityAnalyzer.analyze.
  cbn [categories List.map List.concat snd]. now rewrite app_nil_r.
Qed.

Lemma security_informational_score_0 (this : TrustSecurityAnalyzer.t) :
  Forall (fun c => informational c = true -> score c = 0)
         (TrustSecurityAnalyzer.allChecks this).
Proof.
  unfold TrustSecurityAnalyzer.allChecks. rewrite !Forall_app.
  repeat split; each_check; intros H; try discriminate H; reflexivity.
Qed.

(** C5: the Security analyzer's top score is
    round(100 * sum of scores / sum of maxScores) over all its checks; the
    sum of maxScores is 133 for every input, so the division never has a
    zero denominator; each of the four checks with maxScore 0 has score 0,
    and leaving them out changes neither sum. *)
Theorem security_score_is_flat_ratio (this : TrustSecurityAnalyzer.t) :
  let r := TrustSecurityAnalyzer.analyze this in
  let all := flat_checks r in
  res_score r
  = js_round (100 * js_div (reduce_sum score all) (reduce_sum maxScore all))
  /\ reduce_sum maxScore all = 133
  /\ reduce_sum maxScore all <> 0
  /\ Forall (fun c => maxScore c = 0 -> score c = 0) all
  /\ List.length (List.filter informational all) = 4%nat
  /\ reduce_sum score (scored all) = reduce_sum score all
  /\ reduce_sum maxScore (scored all) = reduce_sum maxScore all.
Proof.
  cbv zeta. rewrite security_flat_checks.
  pose proof (security_informational_score_0 this) as Hinfo.
  assert (Hmax : reduce_sum maxScore (TrustSecurityAnalyzer.allChecks this)
                 = 133) by reflexivity.
  split.
  { unfold TrustSecurityAnalyzer.analyze. cbn [res_score].
    apply js_round_comp.
    unfold TrustSecurityAnalyzer.earnedPoints, TrustSecurityAnalyzer.maxPoints.
    ring. }
  split; [exact Hmax|].
  split; [rewrite Hmax; discriminate|].
  split.
  { eapply List.Forall_impl; [|exact Hinfo].
    intros c Hc E. apply Hc. unfold informational. now rewrite E. }
  split; [reflexivity|].
  now apply scored_sums.
Qed.

Lemma security_score_is_flat_ratio_witness :
  res_score (TrustSecurityAnalyzer.analyze Fixtures.hsts_site)
  = js_round (100 * js_div 33 133)
  /\ res_score (TrustSecurityAnalyzer.analyze Fixtures.hsts_site) = 25.
Proof.
  destruct (security_score_is_flat_ratio Fixtures.hsts_site) as (H & _).
  split; [|vm_compute; reflexivity].
  rewrite H. vm_compute. reflexivity.
Defined.

(** ** The PageSpeed analyzer *)

(** C3, as amended: the PageSpeed top score is the rounded sum of the four
    category ratios score / maxScore, not rounded, weighted by 40
    (Performance), 25 (SEO), 20 (Best Practices) and 15 (Accessibility),
    weights that sum to 100; the report also exposes each ratio as the
    rounded percentage round(100 * score / maxScore).  The four maxScores
    are 100, 103, 101 and 97 for every input. *)
Theorem pagespeed_score_is_weighted_ratio
        (toFixed : Q -> nat -> string) (new_URL : string -> option URL)
        (this : PageSpeedAnalyzer.t) (rep : PageSpeedAnalyzer.Report) :
  PageSpeedAnalyzer.analyze toFixed new_URL this = Some rep ->
  exists performance seo bestPractices accessibility,
    categories (PageSpeedAnalyzer.results rep)
    = [("performance", performance); ("seo", seo);
       ("bestPractices", bestPractices); ("accessibility", accessibility)]
    /\ cat_maxScore performance = 100 /\ cat_maxScore seo = 103
    /\ cat_maxScore bestPractices = 101 /\ cat_maxScore accessibility = 97
    /\ 40 + 25 + 20 + 15 = 100
    /\ res_score (PageSpeedAnalyzer.results rep)
       = js_round (40 * js_div (cat_score performance) (cat_maxScore performance)
                   + 25 * js_div (cat_score seo) (cat_maxScore seo)
                   + 20 * js_div (cat_score bestPractices)
                                 (cat_maxScore bestPractices)
                   + 15 * js_div (cat_score accessibility)
                                 (cat_maxScore accessibility))
    /\ PageSpeedAnalyzer.performanceScore rep
       = js_round (100 * js_div (cat_score performance)
                                (cat_maxScore performance))
    /\ PageSpeedAnalyzer.seoScore rep
       = js_round (100 * js_div (cat_score seo) (cat_maxScore seo))
    /\ PageSpeedAnalyzer.bestPracticesScore rep
       = js_round (100 * js_div (cat_score bestPractices)
                                (cat_maxScore bestPractices))
    /\ PageSpeedAnalyzer.accessibilityScore rep
       = js_round (100 * js_div (cat_score accessibility)
                                (cat_maxScore accessibility)).
Proof.
  unfold PageSpeedAnalyzer.analyze.
  destruct (PageSpeedAnalyzer.analyzeBestPractices new_URL this)
    as [bestPractices|] eqn:Hbp; [|discriminate].
  intros [= <-].
  exists (PageSpeedAnalyzer.analyzePerformance toFixed this),
    (PageSpeedAnalyzer.analyzeSEO this), bestPractices,
    (PageSpeedAnalyzer.analyzeAccessibility this).
  cbn [PageSpeedAnalyzer.results categories res_score
       PageSpeedAnalyzer.performanceScore PageSpeedAnalyzer.seoScore
       PageSpeedAnalyzer.bestPracticesScore
       PageSpeedAnalyzer.accessibilityScore].
  assert (Hmax : cat_maxScore bestPractices = 101).
  { unfold PageSpeedAnalyzer.analyzeBestPractices in Hbp.
    destruct (new_URL (PageSpeedAnalyzer.url this)); [|discriminate].
    injection Hbp as <-. reflexivity. }
  unfold PageSpeedAnalyzer.weightedScore, PageSpeedAnalyzer.categoryScore.
  repeat split; try reflexivity; try exact Hmax;
    apply js_round_comp; ring.
Qed.

Lemma pagespeed_score_is_weighted_ratio_witness :
  exists rep,
    PageSpeedAnalyzer.analyze Fixtures.toFixed_exact Fixtures.simple_URL
      Fixtures.bare_speed = Some rep
    /\ exists performance seo bestPractices accessibility,
         categories (PageSpeedAnalyzer.results rep)
         = [("performance", performance); ("seo", seo);
            ("bestPractices", bestPractices);
            ("accessibility", accessibility)]
         /\ res_score (PageSpeedAnalyzer.results rep)
            = js_round
                (40 * js_div (cat_score performance) (cat_maxScore performance)
                 + 25 * js_div (cat_score seo) (cat_maxScore seo)
                 + 20 * js_div (cat_score bestPractices)
                               (cat_maxScore bestPractices)
                 + 15 * js_div (cat_score accessibility)
                               (cat_maxScore accessibility)).
Proof.
  destruct (PageSpeedAnalyzer.analyze Fixtures.toFixed_exact
              Fixtures.simple_URL Fixtures.bare_speed) as [rep|] eqn:E;
    [|vm_compute in E; discriminate E].
  exists rep. split; [reflexivity|].
  destruct (pagespeed_score_is_weighted_ratio _ _ _ _ E)
    as (pf & seo & bp & acc & Hc & _ & _ & _ & _ & _ & Hs & _).
  exists pf, seo, bp, acc. split; [exact Hc|exact Hs].
Defined.

(** C3, as stated, fails: on the bare page the PageSpeed score is 87, while
    the four exposed percentages 100, 73, 79 and 90 weighted by 40, 25, 20
    and 15 sum to 8755, which is 88 on the scale of 100. *)
Lemma pagespeed_score_differs_from_percentages :
  exists rep,
    PageSpeedAnalyzer.analyze Fixtures.toFixed_exact Fixtures.simple_URL
      Fixtures.bare_speed = Some rep
    /\ res_score (PageSpeedAnalyzer.results rep) = 87
    /\ PageSpeedAnalyzer.performanceScore rep = 100
    /\ PageSpeedAnalyzer.seoScore rep = 73
    /\ PageSpeedAnalyzer.bestPracticesScore rep = 79
    /\ PageSpeedAnalyzer.accessibilityScore rep = 90
    /\ weighted_percentages rep = 8755
    /\ score_from_percentages rep = 88
    /\ res_score (PageSpeedAnalyzer.results rep) <> weighted_percentages rep
    /\ res_score (PageSpeedAnalyzer.results rep) <> score_from_percentages rep.
Proof.
  eexists. split; [vm_compute; reflexivity|].
  vm_compute. repeat split; discriminate.
Qed.

(** ** The route *)

Lemma snd_bind {A B} (m : Route.Handler A) (f : A -> Route.Handler B) :
  snd (Route.bind m f)
  = match snd m with
    | inl r => inl r
    | inr a => snd (f a)
    end.
Proof. destruct m as [tr [r|a]]; reflexivity. Qed.

Lemma snd_run (m : Route.Handler Route.Response) :
  snd (Route.run m) = match snd m with inl r => r | inr r => r end.
Proof. destruct m as [tr [r|r]]; reflexivity. Qed.

Lemma snd_axios_get (w : Route.World) (rq : Route.Request) (v : Z -> bool) :
  snd (Route.axios_get w rq v)
  = inr match Route.network w rq with
        | Route.Failure msg => inl msg
        | Route.Reply st d h =>
            if v st then inr (d, h)
            else inl ("Request failed with status code " ++ show_Z st)
        end.
Proof. reflexivity. Qed.

Lemma snd_checkFileExists (w : Route.World) (baseUrl path : string) :
  snd (Route.checkFileExists w baseUrl path)
  = inr (Route.file_content w baseUrl path).
Proof.
  unfold Route.checkFileExists, Route.file_content.
  rewrite snd_bind, snd_axios_get.
  cbn [Route.ret snd]. destruct (Route.network w _) as [st d h|msg];
    [|reflexivity].
  destruct (st =? 200); reflexivity.
Qed.

Lemma file_content_ext (w1 w2 : Route.World) (baseUrl path : string) :
  (forall rq, Route.network w1 rq = Route.network w2 rq) ->
  Route.file_content w1 baseUrl path = Route.file_content w2 baseUrl path.
Proof. intros H. unfold Route.file_content. now rewrite H. Qed.

Lemma ResultBody_inj (a b : Route.AnalysisResult) :
  Route.ResultBody a = Route.ResultBody b -> a = b.
Proof. intros H. now injection H. Qed.

(** Case analysis along the handler: only on conditions that are not
    themselves case analyses. *)
Ltac neutral t :=
  idtac;
  lazymatch t with
  | context [match _ with _ => _ end] => fail
  | _ => idtac
  end.

Ltac split_cond :=
  match goal with
  | |- context [match ?x with _ => _ end] => neutral x; destruct x eqn:?
  end.

Ltac step_handler :=
  repeat first
    [ rewrite snd_run
    | rewrite snd_bind
    | rewrite snd_axios_get
    | rewrite snd_checkFileExists
    | progress unfold Route.internal_error
    | progress cbn [snd Route.emit Route.ret Route.respond] ].

(** ** [Math.round] on doubles *)

Lemma js_round_inject_Z (n : Z) : js_round (inject_Z n) = n.
Proof.
  unfold js_round, Qfloor, Qplus, inject_Z. cbn [Qnum Qden].
  rewrite Pos.mul_1_l. change (Z.pos 2) with 2.
  symmetry. apply Z.div_unique with (r := 1); lia.
Qed.

(** [Math.round] on a finite double is the rounding of its value: the
    nearest integer, the tie going up. *)
Lemma round_double_is_round (x : float) :
  round_double x = option_map js_round (value_of x).
Proof.
  unfold round_double, value_of.
  destruct (Prim2SF x) as [s| | |s m e]; try reflexivity.
  cbn [option_map].
  set (n := if s then Z.neg m else Z.pos m).
  destruct (Z.leb_spec 0 e) as [He|He]; f_equal.
  - now rewrite js_round_inject_Z.
  - assert (Hp : 0 < 2 ^ (- e)) by (apply Z.pow_pos_nonneg; lia).
    rewrite (js_round_comp _ (js_div n (2 ^ (- e)) * inject_Z 1)).
    + rewrite js_round_ratio by exact Hp.
      replace (- e + 1) with (Z.succ (- e)) by lia.
      rewrite Z.pow_succ_r by lia. f_equal. lia.
    + unfold js_div. change (inject_Z 1) with 1%Q. ring.
Qed.

(** The integers up to 1000 are doubles. *)
Lemma float_of_Z_exact (z : Z) :
  0 <= z <= 1000 ->
  exists v, value_of (float_of_Z z) = Some v /\ (v == inject_Z z)%Q.
Proof.
  intros Hz.
  assert (H : forallb (fun z => match value_of (float_of_Z z) with
                                 | Some v => Qeq_bool v (inject_Z z)
                                 | None => false
                                 end)
                      (List.map Z.of_nat (List.seq 0 1001)) = true)
    by (vm_compute; reflexivity).
  rewrite forallb_forall in H.
  specialize (H z).
  destruct (value_of (float_of_Z z)) as [v|].
  - exists v. split; [reflexivity|]. apply Qeq_bool_iff, H.
    apply in_map_iff. exists (Z.to_nat z). split; [lia|].
    apply in_seq. lia.
  - exfalso. enough (false = true) by discriminate. apply H.
    apply in_map_iff. exists (Z.to_nat z). split; [lia|].
    apply in_seq. lia.
Qed.

Section RouteFacts.
Variable cheerio_load : string -> Dom.
Variable new_URL : string -> option URL.
Variable toFixed : Q -> nat -> string.

(** C8: a request whose body has no [url], and a request whose [url] does
    not parse to an http or https URL (its scheme is another one, as in
    ftp://example.com), is answered with status 400 and a body
    [{error}], and the handler has had no effect before: no request was
    sent and no analyzer was run. *)
Theorem invalid_request_rejected_before_fetch
        (w : Route.World) (url : JsVal) :
  url = JUndefined
  \/ (forall u, new_URL (JsVal.to_string url) = Some u ->
                protocol u <> "http:" /\ protocol u <> "https:") ->
  exists err,
    Route.run (Route.post cheerio_load new_URL toFixed w url)
    = ([], {| Route.status_code := 400;
              Route.body := Route.ErrorBody err None |}).
Proof.
  intros [-> | H].
  - eexists. reflexivity.
  - unfold Route.post.
    destruct (JsVal.truthy url); cbn [negb]; [|eexists; reflexivity].
    destruct (new_URL (JsVal.to_string url)) as [u|]; [|eexists; reflexivity].
    destruct (H u eq_refl) as [H1 H2].
    cbn [existsb].
    rewrite (proj2 (String.eqb_neq _ _) H1), (proj2 (String.eqb_neq _ _) H2).
    eexists. reflexivity.
Qed.

(** C9: two runs of the handler that meet the same network replies and
    measure the same load time answer with the same status and the same
    scores (the overall score and, in every section, every category and
    every check), whatever the clock and the time stamp are. *)
Theorem scores_depend_on_inputs_only (w1 w2 : Route.World) (url : JsVal) :
  (forall rq, Route.network w1 rq = Route.network w2 rq) ->
  Route.now_end w1 - Route.now_start w1
  = Route.now_end w2 - Route.now_start w2 ->
  let r1 := snd (Route.run (Route.post cheerio_load new_URL toFixed w1 url)) in
  let r2 := snd (Route.run (Route.post cheerio_load new_URL toFixed w2 url)) in
  Route.status_code r1 = Route.status_code r2 /\ scores_of r1 = scores_of r2.
Proof.
  intros Hnet Htime. cbv zeta.
  unfold Route.post. rewrite Htime.
  repeat (step_handler;
          rewrite ?Hnet, ?(file_content_ext w1 w2) by assumption;
          try split_cond).
  all: cbn [Route.status_code scores_of Route.body Route.overallScore
            Route.sections].
  all: split; reflexivity.
Qed.

#[local] Set Warnings "-inexact-float".

(** C2, as amended: whenever the handler answers with an analysis result,
    the page request was answered with a string body, the three section
    scores are the top scores of the Quality, the Security and the PageSpeed
    analyzers run on the URL, that body, the headers of the reply, the
    contents of the three files and the measured load time, and the overall
    score is Math.round of the binary64 sum
    quality * 0.35 + security * 0.30 + speed * 0.35, each product and each
    sum rounded to a double as JavaScript rounds them; Math.round takes the
    value of that double to the nearest integer, a tie going up.  Nothing
    else enters the overall score. *)
Theorem overall_score_is_weighted_average
        (w : Route.World) (url : JsVal) (r : Route.AnalysisResult) :
  Route.body (snd (Route.run (Route.post cheerio_load new_URL toFixed w url)))
  = Route.ResultBody r ->
  exists u st html headers quality security speed,
    new_URL (JsVal.to_string url) = Some u
    /\ Route.network w (page_request (JsVal.to_string url))
       = Route.Reply st (JStr html) headers
    /\ WebsiteQualityAnalyzer.new cheerio_load new_URL (JsVal.to_string url)
         html headers
         (mkAdditionalData
            (Route.file_content w (protocol u ++ "//" ++ host u) "/robots.txt")
            (Route.file_content w (protocol u ++ "//" ++ host u)
               "/sitemap.xml")
            (Route.file_content w (protocol u ++ "//" ++ host u) "/llms.txt"))
       = Some quality
    /\ TrustSecurityAnalyzer.new new_URL (JsVal.to_string url) headers html
       = Some security
    /\ PageSpeedAnalyzer.analyze toFixed new_URL
         (PageSpeedAnalyzer.new cheerio_load (JsVal.to_string url) html
            headers (Route.now_end w - Route.now_start w)) = Some speed
    /\ Route.sec_score (Route.websiteQuality (Route.sections r))
       = res_score (WebsiteQualityAnalyzer.analyze quality)
    /\ Route.sec_score (Route.trustSecurity (Route.sections r))
       = res_score (TrustSecurityAnalyzer.analyze security)
    /\ Route.sec_score (Route.ps_section (Route.pageSpeed (Route.sections r)))
       = res_score (PageSpeedAnalyzer.results speed)
    /\ let sum :=
         (float_of_Z (res_score (WebsiteQualityAnalyzer.analyze quality))
          * 0.35
          + float_of_Z (res_score (TrustSecurityAnalyzer.analyze security))
            * 0.30
          + float_of_Z (res_score (PageSpeedAnalyzer.results speed))
            * 0.35)%float in
       Route.overallScore r = round_double sum
       /\ round_double sum = option_map js_round (value_of sum).
Proof.
  unfold Route.post, page_request.
  repeat (step_handler; try split_cond).
  all: cbn [Route.body]; try discriminate.
  intros H. apply ResultBody_inj in H. subst r.
  cbn [Route.overallScore Route.sections Route.websiteQuality
       Route.trustSecurity Route.pageSpeed Route.ps_section Route.sec_score].
  do 7 eexists.
  repeat (split; [eassumption || reflexivity|]).
  apply round_double_is_round.
Qed.

#[local] Set Warnings "inexact-float".

End RouteFacts.

Lemma invalid_request_rejected_before_fetch_witness :
  (exists err,
     Route.run (Route.post Fixtures.load Fixtures.simple_URL
                  Fixtures.toFixed_exact Fixtures.morning
                  (JStr "ftp://example.com"))
     = ([], {| Route.status_code := 400;
               Route.body := Route.ErrorBody err None |}))
  /\ (exists err,
        Route.run (Route.post Fixtures.load Fixtures.simple_URL
                     Fixtures.toFixed_exact Fixtures.morning JUndefined)
        = ([], {| Route.status_code := 400;
                  Route.body := Route.ErrorBody err None |})).
Proof.
  split; apply invalid_request_rejected_before_fetch.
  - right. intros u H. vm_compute in H. injection H as <-.
    split; discriminate.
  - left. reflexivity.
Defined.

Lemma scores_depend_on_inputs_only_witness :
  Route.status_code (Fixtures.example_response Fixtures.morning)
  = Route.status_code (Fixtures.example_response Fixtures.evening)
  /\ scores_of (Fixtures.example_response Fixtures.morning)
     = scores_of (Fixtures.example_response Fixtures.evening)
  /\ Route.status_code (Fixtures.example_response Fixtures.morning) = 200
  /\ Route.now_iso Fixtures.morning <> Route.now_iso Fixtures.evening.
Proof.
  destruct (scores_depend_on_inputs_only Fixtures.load Fixtures.simple_URL
              Fixtures.toFixed_exact Fixtures.morning Fixtures.evening
              Fixtures.example_request (fun rq => eq_refl) eq_refl)
    as [H1 H2].
  split; [exact H1|]. split; [exact H2|].
  split; [vm_compute; reflexivity|discriminate].
Defined.

#[local] Set Warnings "-inexact-float".

Lemma overall_score_is_weighted_average_witness :
  exists r,
    Route.body (Fixtures.example_response Fixtures.morning)
    = Route.ResultBody r
    /\ Route.sec_score (Route.websiteQuality (Route.sections r)) = 6
    /\ Route.sec_score (Route.trustSecurity (Route.sections r)) = 5
    /\ Route.sec_score (Route.ps_section (Route.pageSpeed (Route.sections r)))
       = 87
    /\ Route.overallScore r
       = round_double (float_of_Z 6 * 0.35 + float_of_Z 5 * 0.30
                       + float_of_Z 87 * 0.35)%float
    /\ Route.overallScore r = Some 34.
Proof.
  destruct (Route.body (Fixtures.example_response Fixtures.morning))
    as [e d|r] eqn:E; [vm_compute in E; discriminate E|].
  exists r. split; [reflexivity|].
  destruct (overall_score_is_weighted_average Fixtures.load
              Fixtures.simple_URL Fixtures.toFixed_exact Fixtures.morning
              Fixtures.example_request r E)
    as (u & st & html & headers & quality & security & speed
        & Hu & Hnet & Hq & Hs & Hp & H1 & H2 & H3 & H4 & _).
  vm_compute in Hnet. injection Hnet as <- <- <-.
  vm_compute in Hu. injection Hu as <-.
  vm_compute in Hq. injection Hq as <-.
  vm_compute in Hs. injection Hs as <-.
  vm_compute in Hp. injection Hp as <-.
  rewrite H1, H2, H3, H4.
  repeat split; vm_compute; reflexivity.
Defined.

#[local] Set Warnings "inexact-float".

(** C2, as stated, fails when the sum is read exactly: for the bare page
    fetched in six seconds from a server that sends one cross-origin policy
    the three scores are 6, 6 and 76; their weighted sum is 30.5 exactly,
    which rounds to 31, while the doubles give 2.1 + 1.8 + 26.6 just below
    30.5 and the handler answers 30. *)
Lemma overall_score_differs_from_exact_sum :
  exists r,
    Route.body (snd (Route.run (Route.post Fixtures.load Fixtures.simple_URL
                                  Fixtures.toFixed_exact Samples.sluggish
                                  Fixtures.example_request)))
    = Route.ResultBody r
    /\ Route.sec_score (Route.websiteQuality (Route.sections r)) = 6
    /\ Route.sec_score (Route.trustSecurity (Route.sections r)) = 6
    /\ Route.sec_score (Route.ps_section (Route.pageSpeed (Route.sections r)))
       = 76
    /\ (inject_Z 6 * (35 # 100) + inject_Z 6 * (30 # 100)
        + inject_Z 76 * (35 # 100) == 61 # 2)%Q
    /\ overall_exact 6 6 76 = 31
    /\ Route.overallScore r = Some 30
    /\ Route.overallScore r <> Some (overall_exact 6 6 76).
Proof.
  eexists. split; [vm_compute; reflexivity|].
  vm_compute. repeat split; discriminate.
Qed.

(** ** Worked examples *)

(** Doubles break the tie of 0.35 * 90 downwards; a tie that doubles
    represent exactly goes up. *)
Example weighted_average_below_tie : weighted_average 0 0 90 = Some 31.
Proof. vm_compute. reflexivity. Qed.

Example weighted_average_tie : weighted_average 10 0 0 = Some 4.
Proof. vm_compute. reflexivity. Qed.

Example weighted_average_full : weighted_average 100 100 100 = Some 100.
Proof. vm_compute. reflexivity. Qed.

Example round_double_negative_tie : round_double (-2.5)%float = Some (-2).
Proof. vm_compute. reflexivity. Qed.

Example js_round_tie : js_round (5 # 2) = 3 /\ js_round (- (5 # 2)) = -2.
Proof. split; reflexivity. Qed.

(** The tidy page earns all 50 points of Site Quality. *)
Example tidy_site_quality :
  let c := WebsiteQualityAnalyzer.analyzeSiteQuality Fixtures.tidy_page in
  List.map (fun kc => score (snd kc)) (checks c) = [20; 15; 5; 5; 5]
  /\ cat_score c = 50 /\ cat_maxScore c = 50.
Proof. vm_compute. repeat split; reflexivity. Qed.

(** The first fingerprint wins: Cloudflare in front of Nginx. *)
Example provider_first_match :
  check_value "provider"
    (TrustSecurityAnalyzer.analyzeInfrastructure
       {| TrustSecurityAnalyzer.url := "https://example.com";
          TrustSecurityAnalyzer.headers :=
            {[ "cf-ray" := "8a1b2c3d4e5f-AMS"; "server" := "nginx" ]};
          TrustSecurityAnalyzer.html := "";
          TrustSecurityAnalyzer.parsedUrl := Fixtures.example_url |})
  = Some "Cloudflare".
Proof. vm_compute. reflexivity. Qed.

(** The run of the morning: a quality score of 6, a security score of 5 and
    a PageSpeed score of 87 give 34 overall. *)
Example morning_scores :
  option_map
    (fun s => (fst s,
               Route.sec_score (Route.websiteQuality (snd s)),
               Route.sec_score (Route.trustSecurity (snd s)),
               Route.sec_score (Route.ps_section (Route.pageSpeed (snd s)))))
    (scores_of (Fixtures.example_response Fixtures.morning))
  = Some (Some 34, 6, 5, 87).
Proof. vm_compute. reflexivity. Qed.

(** * Further properties

    What the code guarantees beyond the statements above: the ranges of
    the scores, the load-time thresholds, the agreement of the analyzers on
    one document, the certificate inspection, the remaining paths of the
    route, and the client. *)

(** ** Sums between bounds *)

Lemma reduce_sum_between (l : list Check) (bs : list (Z * Z)) :
  List.Forall2 (fun c b => fst b <= score c <= snd b) l bs ->
  sum_Z (List.map fst bs) <= reduce_sum score l <= sum_Z (List.map snd bs).
Proof.
  induction 1 as [|c b l bs Hc _ IH]; [cbn; lia|].
  rewrite reduce_sum_cons. cbn [List.map sum_Z List.fold_right] in *.
  unfold sum_Z in IH. lia.
Qed.

Lemma reduce_sum_in_range (l : list Check) :
  Forall in_range l -> 0 <= reduce_sum score l <= reduce_sum maxScore l.
Proof.
  induction 1 as [|c l Hc _ IH]; [cbn; lia|].
  rewrite !reduce_sum_cons. unfold in_range in Hc. lia.
Qed.

Lemma js_round_ratio_between (a b k lo hi : Z) :
  0 < b -> 0 <= k -> lo <= a <= hi ->
  (2 * lo * k + b) / (2 * b) <= js_round (js_div a b * inject_Z k)
  <= (2 * hi * k + b) / (2 * b).
Proof.
  intros Hb Hk Ha. rewrite js_round_ratio by assumption.
  split; apply Z.div_le_mono; nia.
Qed.

Lemma js_round_le (x y : Q) : (x <= y)%Q -> js_round x <= js_round y.
Proof.
  intros H. unfold js_round. apply Qfloor_resp_le.
  apply Qplus_le_compat; [exact H|apply Qle_refl].
Qed.

Lemma js_div_le (a a' b : Z) :
  0 < b -> a <= a' -> (js_div a b <= js_div a' b)%Q.
Proof.
  intros Hb Ha. unfold js_div.
  apply Qmult_le_compat_r; [now rewrite <- Zle_Qle|].
  apply Qinv_le_0_compat. change 0%Q with (inject_Z 0).
  rewrite <- Zle_Qle. lia.
Qed.

(** One check at a time, between the bounds given for it. *)
Ltac score_within :=
  lazy beta iota zeta delta
    [score maxScore snd fst
     WebsiteQualityAnalyzer.tag_check TrustSecurityAnalyzer.header_check
     TrustSecurityAnalyzer.indicator_check TrustSecurityAnalyzer.hstsScore
     PageSpeedAnalyzer.fixed_check];
  first [ apply ratio_score_bounds; [auto with ranges | lia]
        | repeat case_match; simplify_eq; lazy beta iota;
          try match goal with
              | |- context [zlen ?l] => pose proof (zlen_nonneg l)
              end;
          lia ].

Ltac each_bound :=
  repeat (apply List.Forall2_cons); try apply List.Forall2_nil.

(** ** The Quality analyzer within its ranges *)

(** X3: on a page whose WebP images and [<picture>] elements together do
    not outnumber its images, every check of the Quality analyzer has a
    score between 0 and its maxScore, and the top score lies between 0 and
    100. *)
Theorem quality_in_range_if_images_dominate (this : WebsiteQualityAnalyzer.t) :
  WebsiteQualityAnalyzer.webpImages this
  + WebsiteQualityAnalyzer.pictureElements this
  <= WebsiteQualityAnalyzer.allImages this ->
  Forall in_range (WebsiteQualityAnalyzer.allChecks this)
  /\ 0 <= res_score (WebsiteQualityAnalyzer.analyze this) <= 100.
Proof.
  intros H.
  assert (Hall : Forall in_range (WebsiteQualityAnalyzer.allChecks this)).
  { unfold WebsiteQualityAnalyzer.allChecks. rewrite !Forall_app.
    repeat split; each_check.
    7: exact (image_optimization_in_range_if this H).
    all: check_in_range. }
  split; [exact Hall|].
  apply reduce_sum_in_range in Hall.
  pose proof (quality_maxPoints this) as Hmax.
  unfold WebsiteQualityAnalyzer.maxPoints in Hmax. rewrite Hmax in Hall.
  change (res_score (WebsiteQualityAnalyzer.analyze this))
    with (js_round (js_div (WebsiteQualityAnalyzer.earnedPoints this)
                           (WebsiteQualityAnalyzer.maxPoints this)
                    * inject_Z 100)).
  rewrite quality_maxPoints.
  exact (js_round_ratio_between (WebsiteQualityAnalyzer.earnedPoints this)
           110 100 0 110 ltac:(lia) ltac:(lia) Hall).
Qed.

Lemma quality_in_range_if_images_dominate_witness :
  WebsiteQualityAnalyzer.allImages Samples.shop_quality = 2
  /\ Forall in_range (WebsiteQualityAnalyzer.allChecks Samples.shop_quality)
  /\ 0 <= res_score (WebsiteQualityAnalyzer.analyze Samples.shop_quality)
     <= 100.
Proof.
  split; [reflexivity|].
  apply (quality_in_range_if_images_dominate Samples.shop_quality).
  apply Z.leb_le. vm_compute. reflexivity.
Defined.

(** ** The Security score *)

Lemma security_earned_between (this : TrustSecurityAnalyzer.t) :
  1 <= TrustSecurityAnalyzer.earnedPoints this <= 103.
Proof.
  unfold TrustSecurityAnalyzer.earnedPoints.
  apply (reduce_sum_between _
           [(0, 20); (0, 10); (0, 10); (0, 5); (0, 5); (0, 3); (0, 5); (0, 5);
            (1, 3); (0, 4);
            (0, 0); (0, 0); (0, 0); (0, 0);
            (0, 0); (0, 5); (0, 3); (0, 2); (0, 0);
            (0, 4); (0, 3); (0, 3); (0, 3); (0, 2); (0, 2); (0, 2); (0, 2);
            (0, 2)]).
  each_bound; score_within.
Qed.

(** X4: the Security top score is at least 1 and at most 77 for every
    site: the Secure Caching check never scores below 1, and the Domain
    Trust category always earns 0 of its 30 points, which stay in the
    denominator of 133. *)
Theorem security_score_between_1_and_77 (this : TrustSecurityAnalyzer.t) :
  1 <= res_score (TrustSecurityAnalyzer.analyze this) <= 77
  /\ cat_score (TrustSecurityAnalyzer.analyzeDomainTrust this) = 0
  /\ cat_maxScore (TrustSecurityAnalyzer.analyzeDomainTrust this) = 30.
Proof.
  split; [|split; reflexivity].
  unfold TrustSecurityAnalyzer.analyze. cbn [res_score].
  change (TrustSecurityAnalyzer.maxPoints this) with 133.
  change 100%Q with (inject_Z 100).
  pose proof (js_round_ratio_between
                (TrustSecurityAnalyzer.earnedPoints this) 133 100 1 103
                ltac:(lia) ltac:(lia) (security_earned_between this)) as H.
  change ((2 * 1 * 100 + 133) / (2 * 133)) with 1 in H.
  change ((2 * 103 * 100 + 133) / (2 * 133)) with 77 in H.
  exact H.
Qed.

(** ** The PageSpeed scores *)

Lemma pagespeed_in_range_witness :
  exists rep,
    PageSpeedAnalyzer.analyze Fixtures.toFixed_exact Fixtures.simple_URL
      Samples.shop_speed = Some rep
    /\ Forall in_range (flat_checks (PageSpeedAnalyzer.results rep)).
Proof.
  destruct (PageSpeedAnalyzer.analyze Fixtures.toFixed_exact
              Fixtures.simple_URL Samples.shop_speed) as [rep|] eqn:E;
    [|vm_compute in E; discriminate E].
  exists rep. split; [reflexivity|].
  exact (pagespeed_in_range _ _ _ _ E).
Defined.

Lemma weighted_le (p p' s s' b b' a a' : Z) :
  p <= p' -> s <= s' -> b <= b' -> a <= a' ->
  (js_div p 100 * 40 + js_div s 103 * 25 + js_div b 101 * 20
   + js_div a 97 * 15
   <= js_div p' 100 * 40 + js_div s' 103 * 25 + js_div b' 101 * 20
      + js_div a' 97 * 15)%Q.
Proof.
  intros Hp Hs Hb Ha.
  repeat apply Qplus_le_compat;
    (apply Qmult_le_compat_r; [apply js_div_le; [lia|assumption]|discriminate]).
Qed.

Section SpeedRanges.
Variable toFixed : Q -> nat -> string.
Variable new_URL : string -> option URL.

Lemma performance_between (this : PageSpeedAnalyzer.t) :
  36 <= cat_score (PageSpeedAnalyzer.analyzePerformance toFixed this) <= 100.
Proof.
  refine (reduce_sum_between
            (values (checks (PageSpeedAnalyzer.analyzePerformance toFixed this)))
            [(10, 25); (3, 10); (10, 30); (10, 25); (3, 10)] _).
  each_bound; score_within.
Qed.

Lemma seo_between (this : PageSpeedAnalyzer.t) :
  20 <= cat_score (PageSpeedAnalyzer.analyzeSEO this) <= 103.
Proof.
  refine (reduce_sum_between
            (values (checks (PageSpeedAnalyzer.analyzeSEO this)))
            [(0, 31); (0, 8); (0, 8); (8, 8); (0, 8); (0, 8); (8, 8); (0, 8);
             (4, 8); (0, 8)] _).
  each_bound; score_within.
Qed.

Lemma bestPractices_between (this : PageSpeedAnalyzer.t) (c : Category) :
  PageSpeedAnalyzer.analyzeBestPractices new_URL this = Some c ->
  22 <= cat_score c <= 101.
Proof.
  unfold PageSpeedAnalyzer.analyzeBestPractices.
  destruct (new_URL (PageSpeedAnalyzer.url this)) as [u|]; [|discriminate].
  intros [= <-].
  refine (reduce_sum_between _
            [(0, 19); (0, 19); (12, 19); (0, 12); (0, 4); (0, 4); (0, 4);
             (2, 4); (0, 4); (0, 4); (4, 4); (4, 4)] _).
  each_bound; score_within.
Qed.

Lemma accessibility_between (this : PageSpeedAnalyzer.t) :
  43 <= cat_score (PageSpeedAnalyzer.analyzeAccessibility this) <= 97.
Proof.
  refine (reduce_sum_between
            (values (checks (PageSpeedAnalyzer.analyzeAccessibility this)))
            [(5, 5); (0, 5); (5, 5); (5, 5); (5, 5); (5, 5); (0, 5); (0, 5);
             (0, 5); (0, 5); (3, 3); (3, 3); (0, 3); (3, 3); (3, 3); (0, 3);
             (0, 3); (0, 3); (3, 3); (0, 3); (0, 3); (0, 3); (0, 3); (3, 3);
             (0, 3); (0, 1); (0, 1)] _).
  each_bound; score_within.
Qed.

(** X5: whatever the page and its load time, the PageSpeed top score lies
    between 30 and 100, and the four percentages the report exposes lie
    between 36 and 100 (Performance), 19 and 100 (SEO), 22 and 100 (Best
    Practices) and 44 and 100 (Accessibility): the checks that always earn
    points keep every category above zero. *)
Theorem pagespeed_scores_between
        (this : PageSpeedAnalyzer.t) (rep : PageSpeedAnalyzer.Report) :
  PageSpeedAnalyzer.analyze toFixed new_URL this = Some rep ->
  30 <= res_score (PageSpeedAnalyzer.results rep) <= 100
  /\ 36 <= PageSpeedAnalyzer.performanceScore rep <= 100
  /\ 19 <= PageSpeedAnalyzer.seoScore rep <= 100
  /\ 22 <= PageSpeedAnalyzer.bestPracticesScore rep <= 100
  /\ 44 <= PageSpeedAnalyzer.accessibilityScore rep <= 100.
Proof.
  unfold PageSpeedAnalyzer.analyze.
  destruct (PageSpeedAnalyzer.analyzeBestPractices new_URL this)
    as [bestPractices|] eqn:Hbp; [|discriminate].
  intros [= <-].
  cbn [PageSpeedAnalyzer.results res_score
       PageSpeedAnalyzer.performanceScore PageSpeedAnalyzer.seoScore
       PageSpeedAnalyzer.bestPracticesScore
       PageSpeedAnalyzer.accessibilityScore].
  pose proof (performance_between this) as Hp.
  pose proof (seo_between this) as Hs.
  pose proof (bestPractices_between this _ Hbp) as Hb.
  pose proof (accessibility_between this) as Ha.
  assert (Hmax : cat_maxScore bestPractices = 101).
  { unfold PageSpeedAnalyzer.analyzeBestPractices in Hbp.
    destruct (new_URL (PageSpeedAnalyzer.url this)); [|discriminate].
    injection Hbp as <-. reflexivity. }
  unfold PageSpeedAnalyzer.weightedScore, PageSpeedAnalyzer.categoryScore.
  rewrite Hmax.
  change (cat_maxScore (PageSpeedAnalyzer.analyzePerformance toFixed this))
    with 100.
  change (cat_maxScore (PageSpeedAnalyzer.analyzeSEO this)) with 103.
  change (cat_maxScore (PageSpeedAnalyzer.analyzeAccessibility this)) with 97.
  generalize dependent
    (cat_score (PageSpeedAnalyzer.analyzePerformance toFixed this)).
  generalize dependent (cat_score (PageSpeedAnalyzer.analyzeSEO this)).
  generalize dependent (cat_score (PageSpeedAnalyzer.analyzeAccessibility this)).
  generalize dependent (cat_score bestPractices).
  clear. intros b Hb a Ha s Hs p Hp.
  change 100%Q with (inject_Z 100).
  split.
  { split.
    - apply Z.le_trans
        with (js_round (js_div 36 100 * 40 + js_div 20 103 * 25
                        + js_div 22 101 * 20 + js_div 43 97 * 15));
        [vm_compute; discriminate|].
      apply js_round_le, weighted_le; lia.
    - apply Z.le_trans
        with (js_round (js_div 100 100 * 40 + js_div 103 103 * 25
                        + js_div 101 101 * 20 + js_div 97 97 * 15));
        [|vm_compute; discriminate].
      apply js_round_le, weighted_le; lia. }
  pose proof (js_round_ratio_between p 100 100 36 100) as H1.
  pose proof (js_round_ratio_between s 103 100 20 103) as H2.
  pose proof (js_round_ratio_between b 101 100 22 101) as H3.
  pose proof (js_round_ratio_between a 97 100 43 97) as H4.
  repeat split;
    first [ apply H1 | apply H2 | apply H3 | apply H4 ]; lia.
Qed.
End SpeedRanges.

Lemma pagespeed_scores_between_witness :
  exists rep,
    PageSpeedAnalyzer.analyze Fixtures.toFixed_exact Fixtures.simple_URL
      Samples.shop_speed = Some rep
    /\ 30 <= res_score (PageSpeedAnalyzer.results rep) <= 100
    /\ 36 <= PageSpeedAnalyzer.performanceScore rep <= 100.
Proof.
  destruct (PageSpeedAnalyzer.analyze Fixtures.toFixed_exact
              Fixtures.simple_URL Samples.shop_speed) as [rep|] eqn:E;
    [|vm_compute in E; discriminate E].
  exists rep. split; [reflexivity|].
  destruct (pagespeed_scores_between _ _ _ _ E) as (H1 & H2 & _).
  split; [exact H1|exact H2].
Defined.

(** ** The load time *)

Lemma Qltb_scaled (L n t : Z) (d : positive) :
  Qltb (inject_Z L * (n # d)) (t # 1) = (L * n <? t * Z.pos d).
Proof.
  unfold Qltb, Qle_bool, Qmult, inject_Z. cbn [Qnum Qden].
  rewrite Pos.mul_1_l, Z.mul_1_r.
  destruct (Z.leb_spec (t * Z.pos d) (L * n)), (Z.ltb_spec (L * n) (t * Z.pos d));
    cbn [negb]; lia.
Qed.

Lemma timing_score (L n t1 t2 : Z) (d : positive) (x y z : Z * Status) :
  fst (if Qltb (inject_Z L * (n # d)) (t1 # 1) then x
       else if Qltb (inject_Z L * (n # d)) (t2 # 1) then y else z)
  = if L * n <? t1 * Z.pos d then fst x
    else if L * n <? t2 * Z.pos d then fst y else fst z.
Proof. rewrite !Qltb_scaled. repeat case_match; reflexivity. Qed.

Lemma timing_mono (L1 L2 n t1 t2 d a b c : Z) :
  L1 <= L2 -> 0 < n -> t1 <= t2 -> 0 < d -> c <= b <= a ->
  (if L2 * n <? t1 * d then a else if L2 * n <? t2 * d then b else c)
  <= (if L1 * n <? t1 * d then a else if L1 * n <? t2 * d then b else c).
Proof.
  intros.
  repeat match goal with
         | |- context [?a * ?n <? ?b] => destruct (Z.ltb_spec (a * n) b)
         end; nia.
Qed.

Lemma cat_score_5 (n k1 k2 k3 k4 k5 : string) (c1 c2 c3 c4 c5 : Check) :
  cat_score (category n [(k1, c1); (k2, c2); (k3, c3); (k4, c4); (k5, c5)])
  = 0 + score c1 + score c2 + score c3 + score c4 + score c5.
Proof. reflexivity. Qed.

Section LoadTime.
Variable toFixed : Q -> nat -> string.

(** X6: in whole milliseconds of load time, the Largest Contentful Paint
    check scores 25 up to 1923 ms, 22 up to 3076 ms and 10 beyond; the First
    Contentful Paint check scores 10 below 3000 ms, 7 below 5000 ms and 3
    from there on; the Speed Index check scores 10 up to 3090 ms, 7 up to
    5272 ms and 3 beyond. *)
Theorem performance_thresholds_in_ms (this : PageSpeedAnalyzer.t) :
  let L := PageSpeedAnalyzer.loadTime this in
  let performance := PageSpeedAnalyzer.analyzePerformance toFixed this in
  check_score "lcp" performance
  = Some (if L <=? 1923 then 25 else if L <=? 3076 then 22 else 10)
  /\ check_score "fcp" performance
     = Some (if L <? 3000 then 10 else if L <? 5000 then 7 else 3)
  /\ check_score "speedIndex" performance
     = Some (if L <=? 3090 then 10 else if L <=? 5272 then 7 else 3).
Proof.
  cbv zeta.
  set (L := PageSpeedAnalyzer.loadTime this).
  assert (H1 : check_score "lcp"
                 (PageSpeedAnalyzer.analyzePerformance toFixed this)
               = Some (fst (if Qltb (inject_Z L * (13 # 10)) (2500 # 1)
                            then (25, good)
                            else if Qltb (inject_Z L * (13 # 10)) (4000 # 1)
                                 then (22, warning) else (10, error))))
    by reflexivity.
  assert (H2 : check_score "fcp"
                 (PageSpeedAnalyzer.analyzePerformance toFixed this)
               = Some (fst (if Qltb (inject_Z L * (6 # 10)) (1800 # 1)
                            then (10, good)
                            else if Qltb (inject_Z L * (6 # 10)) (3000 # 1)
                                 then (7, warning) else (3, error))))
    by reflexivity.
  assert (H3 : check_score "speedIndex"
                 (PageSpeedAnalyzer.analyzePerformance toFixed this)
               = Some (fst (if Qltb (inject_Z L * (11 # 10)) (3400 # 1)
                            then (10, good)
                            else if Qltb (inject_Z L * (11 # 10)) (5800 # 1)
                                 then (7, warning) else (3, error))))
    by reflexivity.
  rewrite H1, H2, H3, !timing_score. cbn [fst].
  repeat split; f_equal;
    repeat match goal with
           | |- context [?a <? ?b] => destruct (Z.ltb_spec a b)
           | |- context [?a <=? ?b] => destruct (Z.leb_spec a b)
           end; lia.
Qed.

(** X7: of two measurements of the same document, the one with the
    shorter load time earns at least as many Performance points. *)
Theorem faster_load_scores_no_less (this1 this2 : PageSpeedAnalyzer.t) :
  PageSpeedAnalyzer.dollar this1 = PageSpeedAnalyzer.dollar this2 ->
  PageSpeedAnalyzer.loadTime this1 <= PageSpeedAnalyzer.loadTime this2 ->
  cat_score (PageSpeedAnalyzer.analyzePerformance toFixed this2)
  <= cat_score (PageSpeedAnalyzer.analyzePerformance toFixed this1).
Proof.
  intros Hd Hl.
  unfold PageSpeedAnalyzer.analyzePerformance.
  rewrite !cat_score_5. cbn [score].
  rewrite !timing_score, Hd. cbn [fst].
  repeat apply Z.add_le_mono; try apply Z.le_refl;
    apply timing_mono; lia.
Qed.
End LoadTime.

Lemma faster_load_scores_no_less_witness :
  cat_score (PageSpeedAnalyzer.analyzePerformance Fixtures.toFixed_exact
               Samples.shop_speed_slow)
  <= cat_score (PageSpeedAnalyzer.analyzePerformance Fixtures.toFixed_exact
                  Samples.shop_speed).
Proof.
  apply (faster_load_scores_no_less Fixtures.toFixed_exact
           Samples.shop_speed Samples.shop_speed_slow).
  - reflexivity.
  - apply Z.leb_le. vm_compute. reflexivity.
Defined.

(** ** One document, three analyzers *)

(** The first element of a selection by tag that has the attribute is in
    the selection by tag and attribute. *)
Lemma attr_select_tag_with (d : Dom) (t n : string) (v : string) :
  attr (select d [Simple (tag t)]) n = Some v ->
  Nat.ltb 0 (List.length (select d [Simple (tag_with t [Has n])])) = true.
Proof.
  unfold select, attr.
  induction (elements d) as [|e l IH]; cbn [List.filter]; [discriminate|].
  destruct (matches [Simple (tag t)] e) eqn:Ht.
  - intros Hv.
    assert (Hm : matches [Simple (tag_with t [Has n])] e = true).
    { unfold matches, matches_complex, matches_compound, tag_with, tag in *.
      cbn [existsb sel_tag sel_attrs sel_not forallb test_attr] in *.
      rewrite Hv. rewrite !orb_false_r, !andb_true_r in *. exact Ht. }
    rewrite Hm. reflexivity.
  - intros Hv. specialize (IH Hv).
    destruct (matches [Simple (tag_with t [Has n])] e); [reflexivity|exact IH].
Qed.

(** X8: on one parsed document the Quality and the PageSpeed analyzers
    agree on what they both look at: the Title check of Site Quality earns
    points exactly when the title check of SEO earns its 8, and that
    exactly when the title check of Accessibility earns its 3; the Meta
    Description check earns points exactly when the SEO one earns its 8;
    the two HTML Lang checks have the same score; an Accessibility lang
    score of 3 implies the full SEO hreflang score, and a Technical SEO
    canonical score of 5 implies the full SEO canonical score. *)
Theorem document_facts_agree
        (quality : WebsiteQualityAnalyzer.t) (speed : PageSpeedAnalyzer.t) :
  WebsiteQualityAnalyzer.dollar quality = PageSpeedAnalyzer.dollar speed ->
  let site := WebsiteQualityAnalyzer.analyzeSiteQuality quality in
  let technical := WebsiteQualityAnalyzer.analyzeTechnicalSeo quality in
  let seo := PageSpeedAnalyzer.analyzeSEO speed in
  let accessibility := PageSpeedAnalyzer.analyzeAccessibility speed in
  (check_score "title" site <> Some 0
   <-> check_score "hasTitle" seo = Some 8)
  /\ (check_score "hasTitle" seo = Some 8
      <-> check_score "docTitle" accessibility = Some 3)
  /\ (check_score "metaDescription" site <> Some 0
      <-> check_score "hasMetaDesc" seo = Some 8)
  /\ check_score "htmlLang" technical = check_score "htmlLang" accessibility
  /\ (check_score "htmlLang" accessibility = Some 3 ->
      check_score "hreflang" seo = Some 8)
  /\ (check_score "canonical" technical = Some 5 ->
      check_score "canonical" seo = Some 8).
Proof.
  intros Hd. cbv zeta.
  set (d := PageSpeedAnalyzer.dollar speed) in *.
  set (len := slen (JsString.trim (text (select d [Simple (tag "title")])))).
  set (desc := attr (select d [Simple (tag_with "meta"
                                         [Equals "name" "description"])])
                    "content").
  set (lang := attr (select d [Simple (tag "html")]) "lang").
  set (canon := select d [Simple (tag_with "link" [Equals "rel" "canonical"])]).
  assert (Q1 : check_score "title"
                 (WebsiteQualityAnalyzer.analyzeSiteQuality quality)
               = Some (fst (if ((len >=? 30) && (len <=? 60))%bool
                            then (20, good)
                            else if ((len >? 0) && (len <? 30))%bool
                                 then (16, warning)
                                 else if len >? 60 then (12, warning)
                                      else (0, error)))).
  { subst len d. rewrite <- Hd. reflexivity. }
  assert (S1 : check_score "hasTitle" (PageSpeedAnalyzer.analyzeSEO speed)
               = Some (if len >? 0 then 8 else 0)) by reflexivity.
  assert (A1 : check_score "docTitle"
                 (PageSpeedAnalyzer.analyzeAccessibility speed)
               = Some (if len >? 0 then 3 else 0)) by reflexivity.
  assert (Q2 : check_score "metaDescription"
                 (WebsiteQualityAnalyzer.analyzeSiteQuality quality)
               = Some (fst (let n := slen (or_default desc "") in
                            if ((n >=? 120) && (n <=? 160))%bool
                            then (15, good)
                            else if ((n >? 0) && (n <? 120))%bool
                                 then (10, warning)
                                 else if n >? 160 then (8, warning)
                                      else (0, error)))).
  { subst desc d. rewrite <- Hd. reflexivity. }
  assert (S2 : check_score "hasMetaDesc" (PageSpeedAnalyzer.analyzeSEO speed)
               = Some (if (truthy desc && (slen (default "" desc) >? 0))%bool
                       then 8 else 0)) by reflexivity.
  assert (Q3 : check_score "htmlLang"
                 (WebsiteQualityAnalyzer.analyzeTechnicalSeo quality)
               = Some (if truthy lang then 3 else 0)).
  { subst lang d. rewrite <- Hd. reflexivity. }
  assert (A3 : check_score "htmlLang"
                 (PageSpeedAnalyzer.analyzeAccessibility speed)
               = Some (if truthy lang then 3 else 0)) by reflexivity.
  assert (S3 : check_score "hreflang" (PageSpeedAnalyzer.analyzeSEO speed)
               = Some (if (Nat.ltb 0 (List.length
                                        (select d [Simple (tag_with "link"
                                                             [Has "hreflang"])]))
                           || Nat.ltb 0 (List.length
                                           (select d [Simple (tag_with "html"
                                                                [Has "lang"])])))%bool
                       then 8 else 4)) by reflexivity.
  assert (Q4 : check_score "canonical"
                 (WebsiteQualityAnalyzer.analyzeTechnicalSeo quality)
               = Some (if truthy (attr canon "href") then 5 else 0)).
  { subst canon d. rewrite <- Hd. reflexivity. }
  assert (S4 : check_score "canonical" (PageSpeedAnalyzer.analyzeSEO speed)
               = Some (if Nat.ltb 0 (List.length canon) then 8 else 0))
    by reflexivity.
  rewrite Q1, S1, A1, Q2, S2, Q3, A3, S3, Q4, S4.
  clear Q1 S1 A1 Q2 S2 Q3 A3 S3 Q4 S4.
  repeat split.
  - destruct (Z.geb_spec len 30), (Z.leb_spec len 60), (Z.gtb_spec len 0),
      (Z.ltb_spec len 30), (Z.gtb_spec len 60); cbn; intros; try reflexivity;
      try lia; congruence.
  - destruct (Z.geb_spec len 30), (Z.leb_spec len 60), (Z.gtb_spec len 0),
      (Z.ltb_spec len 30), (Z.gtb_spec len 60); cbn; intros; try discriminate;
      try lia.
  - destruct (len >? 0); intros; [reflexivity|discriminate].
  - destruct (len >? 0); intros; [reflexivity|discriminate].
  - cbv zeta. unfold or_default, truthy.
    destruct desc as [[|c s]|];
      [vm_compute; intros; congruence| |vm_compute; intros; congruence].
    cbn [JsString.truthy default andb]. intros _.
    destruct (Z.geb_spec (slen (String c s)) 120),
      (Z.leb_spec (slen (String c s)) 160),
      (Z.gtb_spec (slen (String c s)) 0),
      (Z.ltb_spec (slen (String c s)) 120),
      (Z.gtb_spec (slen (String c s)) 160); cbn; try reflexivity;
      unfold slen in *; cbn [String.length] in *; lia.
  - cbv zeta. unfold or_default, truthy.
    destruct desc as [[|c s]|];
      [vm_compute; intros; congruence| |vm_compute; intros; congruence].
    cbn [JsString.truthy default andb]. intros _.
    destruct (Z.geb_spec (slen (String c s)) 120),
      (Z.leb_spec (slen (String c s)) 160),
      (Z.gtb_spec (slen (String c s)) 0),
      (Z.ltb_spec (slen (String c s)) 120),
      (Z.gtb_spec (slen (String c s)) 160); cbn; try discriminate;
      unfold slen in *; cbn [String.length] in *; lia.
  - destruct lang as [v|] eqn:E; [|discriminate].
    intros _. subst lang.
    rewrite (attr_select_tag_with d "html" "lang" v E), orb_true_r.
    reflexivity.
  - destruct canon as [|e l]; [discriminate|reflexivity].
Qed.

Lemma document_facts_agree_witness :
  check_score "htmlLang"
    (WebsiteQualityAnalyzer.analyzeTechnicalSeo Samples.shop_quality)
  = check_score "htmlLang"
      (PageSpeedAnalyzer.analyzeAccessibility Samples.shop_speed)
  /\ check_score "htmlLang"
       (PageSpeedAnalyzer.analyzeAccessibility Samples.shop_speed) = Some 3
  /\ check_score "hreflang" (PageSpeedAnalyzer.analyzeSEO Samples.shop_speed)
     = Some 8.
Proof.
  destruct (document_facts_agree Samples.shop_quality Samples.shop_speed
              eq_refl) as (_ & _ & _ & H1 & H2 & _).
  split; [exact H1|]. split; [reflexivity|]. apply H2. reflexivity.
Defined.

Lemma ratio_score_all (n full : Z) :
  0 <= n -> PageSpeedAnalyzer.ratio_score n n full = full.
Proof.
  intros Hn. unfold PageSpeedAnalyzer.ratio_score.
  destruct (Z.eqb_spec n 0) as [|Hz]; [reflexivity|].
  rewrite js_round_ratio by lia.
  symmetry. apply Z.div_unique with (r := n); lia.
Qed.

Lemma ratio_score_8_5 (a n : Z) :
  0 <= a <= n ->
  PageSpeedAnalyzer.ratio_score a n 8 = 8 ->
  PageSpeedAnalyzer.ratio_score a n 5 = 5.
Proof.
  intros Ha. unfold PageSpeedAnalyzer.ratio_score.
  destruct (Z.eqb_spec n 0) as [|Hz]; [reflexivity|].
  rewrite !js_round_ratio by lia. intros H8.
  pose proof (Z.mul_div_le (2 * a * 8 + n) (2 * n) ltac:(lia)) as H.
  rewrite H8 in H.
  symmetry. apply Z.div_unique with (r := 2 * a * 5 + n - 10 * n); lia.
Qed.

Section Agreement.
Variable toFixed : Q -> nat -> string.
Variable new_URL : string -> option URL.

(** X9: for one URL and one document, the HTTPS check of the Security
    analyzer earns its 20 points exactly when the Uses HTTPS check of Best
    Practices earns its 19, and the Character Encoding check of the Quality
    analyzer earns its 3 points exactly when the charset check of Best
    Practices earns its 4. *)
Theorem best_practices_agree
        (quality : WebsiteQualityAnalyzer.t)
        (security : TrustSecurityAnalyzer.t)
        (speed : PageSpeedAnalyzer.t) (bestPractices : Category)
        (headers : gmap string string) (html : string) :
  WebsiteQualityAnalyzer.dollar quality = PageSpeedAnalyzer.dollar speed ->
  TrustSecurityAnalyzer.new new_URL (PageSpeedAnalyzer.url speed) headers html
  = Some security ->
  PageSpeedAnalyzer.analyzeBestPractices new_URL speed = Some bestPractices ->
  (check_score "https" (TrustSecurityAnalyzer.analyzeSecurityHeaders security)
   = Some 20
   <-> check_score "usesHttps" bestPractices = Some 19)
  /\ (check_score "charset"
        (WebsiteQualityAnalyzer.analyzeTechnicalSeo quality) = Some 3
      <-> check_score "hasCharset" bestPractices = Some 4).
Proof.
  intros Hd Hs Hb.
  unfold TrustSecurityAnalyzer.new in Hs.
  unfold PageSpeedAnalyzer.analyzeBestPractices in Hb.
  destruct (new_URL (PageSpeedAnalyzer.url speed)) as [u|]; [|discriminate].
  apply (f_equal (option_map TrustSecurityAnalyzer.parsedUrl)) in Hs.
  cbn [option_map TrustSecurityAnalyzer.parsedUrl] in Hs.
  injection Hs as Hs. injection Hb as Hb. subst bestPractices.
  set (d := PageSpeedAnalyzer.dollar speed) in *.
  set (charset :=
         js_or (attr (select d [Simple (tag_with "meta" [Has "charset"])])
                     "charset")
               (attr (select d [Simple (tag_with "meta"
                                          [Equals "http-equiv" "Content-Type"])])
                     "content")).
  assert (T1 : check_score "https"
                 (TrustSecurityAnalyzer.analyzeSecurityHeaders security)
               = Some (if String.eqb (protocol u) "https:" then 20 else 0)).
  { rewrite Hs. reflexivity. }
  assert (Q1 : check_score "charset"
                 (WebsiteQualityAnalyzer.analyzeTechnicalSeo quality)
               = Some (if truthy charset then 3 else 0)).
  { subst charset d. rewrite <- Hd. reflexivity. }
  rewrite T1, Q1. clear T1 Q1.
  match goal with
  | |- (_ <-> check_score "usesHttps" ?c = _) /\ _ =>
      change (check_score "usesHttps" c)
        with (Some (if String.eqb (protocol u) "https:" then 19 else 0));
      change (check_score "hasCharset" c)
        with (Some (if truthy charset then 4 else 0))
  end.
  destruct (String.eqb (protocol u) "https:"), (truthy charset);
    repeat split; intros; congruence.
Qed.

(** X10: within one PageSpeed report, a Cumulative Layout Shift check with
    its full 25 points (no image or iframe without dimensions) implies the
    full 4 points of the image aspect ratio check, and a full SEO score of
    8 for [alt] attributes implies the full Accessibility score of 5 for
    them. *)
Theorem image_checks_agree
        (speed : PageSpeedAnalyzer.t) (bestPractices : Category) :
  PageSpeedAnalyzer.analyzeBestPractices new_URL speed = Some bestPractices ->
  (check_score "cls" (PageSpeedAnalyzer.analyzePerformance toFixed speed)
   = Some 25 ->
   check_score "imageAspectRatio" bestPractices = Some 4)
  /\ (check_score "imageAlt" (PageSpeedAnalyzer.analyzeSEO speed) = Some 8 ->
      check_score "imagesHaveAlt" (PageSpeedAnalyzer.analyzeAccessibility speed)
      = Some 5).
Proof.
  intros Hb.
  unfold PageSpeedAnalyzer.analyzeBestPractices in Hb.
  destruct (new_URL (PageSpeedAnalyzer.url speed)) as [u|]; [|discriminate].
  injection Hb as Hb. subst bestPractices.
  set (d := PageSpeedAnalyzer.dollar speed) in *.
  set (images := zlen (select d [Simple (tag "img")])).
  set (sized := zlen (select d [Simple (tag_with "img"
                                          [Has "width"; Has "height"])])).
  set (iframes := zlen (select d [Simple (tag "iframe")])).
  set (sizedFrames := zlen (select d [Simple (tag_with "iframe"
                                                [Has "width"; Has "height"])])).
  set (withAlt := zlen (select d [Simple (tag_with "img" [Has "alt"])])).
  assert (P1 : check_score "cls"
                 (PageSpeedAnalyzer.analyzePerformance toFixed speed)
               = Some (let unsizedMedia :=
                         (images - sized) + (iframes - sizedFrames) in
                       if unsizedMedia >? 5 then 10
                       else if unsizedMedia >? 2 then 18
                       else if unsizedMedia >? 0 then 22
                       else 25)) by reflexivity.
  assert (S1 : check_score "imageAlt" (PageSpeedAnalyzer.analyzeSEO speed)
               = Some (PageSpeedAnalyzer.ratio_score withAlt images 8))
    by reflexivity.
  assert (A1 : check_score "imagesHaveAlt"
                 (PageSpeedAnalyzer.analyzeAccessibility speed)
               = Some (PageSpeedAnalyzer.ratio_score withAlt images 5))
    by reflexivity.
  rewrite P1, S1, A1. clear P1 S1 A1.
  match goal with
  | |- (_ -> check_score "imageAspectRatio" ?c = _) /\ _ =>
      change (check_score "imageAspectRatio" c)
        with (Some (PageSpeedAnalyzer.ratio_score sized images 4))
  end.
  pose proof (zlen_select_tag_with d "img" [Has "width"; Has "height"]) as H1.
  pose proof (zlen_select_tag_with d "iframe" [Has "width"; Has "height"])
    as H2.
  pose proof (zlen_select_tag_with d "img" [Has "alt"]) as H3.
  fold images sized in H1. fold iframes sizedFrames in H2.
  fold images withAlt in H3.
  split.
  - cbv zeta.
    repeat match goal with
           | |- context [?a >? ?b] => destruct (Z.gtb_spec a b)
           end; intros Hcls; try discriminate Hcls.
    assert (sized = images) as -> by lia.
    now rewrite ratio_score_all by lia.
  - intros [= H]. now rewrite (ratio_score_8_5 withAlt images H3 H).
Qed.
End Agreement.

Lemma best_practices_agree_witness :
  exists bestPractices,
    PageSpeedAnalyzer.analyzeBestPractices Fixtures.simple_URL
      Samples.shop_speed = Some bestPractices
    /\ check_score "https"
         (TrustSecurityAnalyzer.analyzeSecurityHeaders Samples.shop_security)
       = Some 20
    /\ check_score "usesHttps" bestPractices = Some 19.
Proof.
  destruct (PageSpeedAnalyzer.analyzeBestPractices Fixtures.simple_URL
              Samples.shop_speed) as [bp|] eqn:E;
    [|vm_compute in E; discriminate E].
  exists bp. split; [reflexivity|].
  assert (Hs : TrustSecurityAnalyzer.new Fixtures.simple_URL
                 (PageSpeedAnalyzer.url Samples.shop_speed)
                 Samples.shop_headers Samples.shop_html
               = Some Samples.shop_security) by reflexivity.
  destruct (best_practices_agree Fixtures.simple_URL Samples.shop_quality
              Samples.shop_security Samples.shop_speed bp
              Samples.shop_headers Samples.shop_html eq_refl Hs E)
    as [[H _] _].
  split; [reflexivity|]. apply H. reflexivity.
Defined.

Lemma image_checks_agree_witness :
  exists bestPractices,
    PageSpeedAnalyzer.analyzeBestPractices Fixtures.simple_URL
      Samples.shop_speed = Some bestPractices
    /\ check_score "imageAspectRatio" bestPractices = Some 4
    /\ check_score "imagesHaveAlt"
         (PageSpeedAnalyzer.analyzeAccessibility Samples.shop_speed) = Some 5.
Proof.
  destruct (PageSpeedAnalyzer.analyzeBestPractices Fixtures.simple_URL
              Samples.shop_speed) as [bp|] eqn:E;
    [|vm_compute in E; discriminate E].
  exists bp. split; [reflexivity|].
  destruct (image_checks_agree Fixtures.toFixed_exact Fixtures.simple_URL
              Samples.shop_speed bp E) as [H1 H2].
  split; [apply H1|apply H2]; reflexivity.
Defined.

(** ** Details of the Security analyzer *)

(** X11: in the Infrastructure category the provider is Cloudflare exactly
    when the response has a non-empty [cf-ray] header, whatever the other
    headers say; a provider of Cloudflare or AWS CloudFront always comes
    with the 5 points of the CDN check, and a provider of Cloudflare with a
    detected firewall. *)
Theorem provider_agrees_with_cdn_and_waf (this : TrustSecurityAnalyzer.t) :
  let infrastructure := TrustSecurityAnalyzer.analyzeInfrastructure this in
  (check_value "provider" infrastructure = Some "Cloudflare"
   <-> truthy (TrustSecurityAnalyzer.headers this !! "cf-ray") = true)
  /\ (check_value "provider" infrastructure = Some "Cloudflare"
      \/ check_value "provider" infrastructure = Some "AWS CloudFront" ->
      check_score "cdn" infrastructure = Some 5)
  /\ (check_value "provider" infrastructure = Some "Cloudflare" ->
      check_value "waf" infrastructure = Some "WAF detected").
Proof.
  cbv zeta.
  set (H := fun k : string => TrustSecurityAnalyzer.headers this !! k).
  set (xCache := or_default (H "x-cache") "").
  set (via := or_default (H "via") "").
  set (serverLower := JsString.toLowerCase (or_default (H "server") "")).
  assert (P : check_value "provider"
                (TrustSecurityAnalyzer.analyzeInfrastructure this)
              = Some (if truthy (H "cf-ray") then "Cloudflare"
                      else if truthy (H "x-vercel-id") then "Vercel"
                      else if (truthy (H "x-amz-cf-id")
                               || JsString.includes xCache "cloudfront")%bool
                      then "AWS CloudFront"
                      else if JsString.includes serverLower "nginx"
                      then "Nginx"
                      else if JsString.includes serverLower "apache"
                      then "Apache"
                      else if JsString.includes serverLower "netlify"
                      then "Netlify"
                      else if JsString.includes via "google"
                      then "Google Cloud"
                      else if (JsString.includes serverLower "microsoft"
                               || JsString.includes serverLower "iis")%bool
                      then "Microsoft IIS"
                      else "Unknown")) by reflexivity.
  assert (C : check_score "cdn"
                (TrustSecurityAnalyzer.analyzeInfrastructure this)
              = Some (if (truthy (H "cf-ray") || truthy (H "x-amz-cf-id")
                          || JsString.includes xCache "HIT"
                          || JsString.includes xCache "cloudfront"
                          || JsString.includes via "cloudflare"
                          || JsString.includes via "akamai"
                          || JsString.includes via "fastly")%bool
                      then 5 else 0)) by reflexivity.
  assert (W : check_value "waf"
                (TrustSecurityAnalyzer.analyzeInfrastructure this)
              = Some (if (truthy (H "cf-ray") || truthy (H "x-sucuri-id")
                          || truthy (H "x-cdn")
                          || JsString.includes serverLower "cloudflare"
                          || JsString.includes serverLower "sucuri")%bool
                      then "WAF detected" else "No WAF detected"))
    by reflexivity.
  rewrite P, C, W. clear P C W.
  change (TrustSecurityAnalyzer.headers this !! "cf-ray") with (H "cf-ray").
  destruct (truthy (H "cf-ray")); cbn [orb].
  { repeat split; intros; reflexivity. }
  split; [split; intros E; [|discriminate E]|split].
  - repeat case_match; discriminate E.
  - intros [E|E]; [repeat case_match; discriminate E|].
    destruct (truthy (H "x-vercel-id")); [discriminate E|].
    destruct (truthy (H "x-amz-cf-id")); [reflexivity|]. cbn [orb] in *.
    destruct (JsString.includes xCache "cloudfront");
      [now rewrite orb_true_r|].
    repeat case_match; discriminate E.
  - intros E. repeat case_match; discriminate E.
Qed.

Lemma is_digit_lower (c : ascii) :
  JsString.is_digit (JsString.lower_char c) = JsString.is_digit c.
Proof.
  destruct c as [[] [] [] [] [] [] [] []]; vm_compute; reflexivity.
Qed.

Lemma digits_run_lower (n : nat) (s : string) :
  TrustSecurityAnalyzer.digits_run n (JsString.toLowerCase s)
  = TrustSecurityAnalyzer.digits_run n s.
Proof.
  revert s. induction n as [|n IH]; intros s; [reflexivity|].
  destruct s as [|c s]; [reflexivity|].
  cbn [JsString.toLowerCase JsString.map_chars
       TrustSecurityAnalyzer.digits_run].
  fold (JsString.toLowerCase s). now rewrite is_digit_lower, IH.
Qed.

(** The ZIP code pattern, which the analyzer applies to the markup as it
    came, finds the same in its lower-case form. *)
Lemma match_zip_lower (s : string) :
  TrustSecurityAnalyzer.match_zip (JsString.toLowerCase s)
  = TrustSecurityAnalyzer.match_zip s.
Proof.
  induction s as [|c s IH]; [reflexivity|].
  change (JsString.toLowerCase (String c s))
    with (String (JsString.lower_char c) (JsString.toLowerCase s)).
  change (TrustSecurityAnalyzer.match_zip
            (String (JsString.lower_char c) (JsString.toLowerCase s)))
    with (TrustSecurityAnalyzer.digits_run 5
            (JsString.toLowerCase (String c s))
          || TrustSecurityAnalyzer.match_zip (JsString.toLowerCase s))%bool.
  change (TrustSecurityAnalyzer.match_zip (String c s))
    with (TrustSecurityAnalyzer.digits_run 5 (String c s)
          || TrustSecurityAnalyzer.match_zip s)%bool.
  now rewrite digits_run_lower, IH.
Qed.

(** X12: the Trust Indicators category does not depend on the letter case
    of the markup: two pages whose markup is the same in lower case get the
    same nine checks, the address check with its ZIP code pattern
    included. *)
Theorem trust_indicators_ignore_case (this1 this2 : TrustSecurityAnalyzer.t) :
  JsString.toLowerCase (TrustSecurityAnalyzer.html this1)
  = JsString.toLowerCase (TrustSecurityAnalyzer.html this2) ->
  TrustSecurityAnalyzer.analyzeTrustIndicators this1
  = TrustSecurityAnalyzer.analyzeTrustIndicators this2.
Proof.
  intros E.
  assert (Z : TrustSecurityAnalyzer.match_zip (TrustSecurityAnalyzer.html this1)
              = TrustSecurityAnalyzer.match_zip
                  (TrustSecurityAnalyzer.html this2)).
  { rewrite <- (match_zip_lower (TrustSecurityAnalyzer.html this1)), E.
    apply match_zip_lower. }
  unfold TrustSecurityAnalyzer.analyzeTrustIndicators.
  rewrite E, Z. reflexivity.
Qed.

Lemma trust_indicators_ignore_case_witness :
  TrustSecurityAnalyzer.html Samples.shop_security
  <> TrustSecurityAnalyzer.html Samples.shop_security_capitals
  /\ TrustSecurityAnalyzer.analyzeTrustIndicators Samples.shop_security
     = TrustSecurityAnalyzer.analyzeTrustIndicators
         Samples.shop_security_capitals.
Proof.
  split; [vm_compute; discriminate|].
  apply (trust_indicators_ignore_case Samples.shop_security
           Samples.shop_security_capitals).
  vm_compute. reflexivity.
Defined.

(** ** The heading order *)

Lemma headingOrder_from_spec (prev : Z) (l : list Z) :
  PageSpeedAnalyzer.headingOrder_from prev l = true
  <-> forall i a b, (prev :: l) !! i = Some a -> l !! i = Some b -> b <= a + 1.
Proof.
  revert prev. induction l as [|h l IH]; intros prev.
  - split; [|reflexivity]. intros _ i a b _ H. destruct i; discriminate H.
  - cbn [PageSpeedAnalyzer.headingOrder_from].
    destruct (Z.gtb_spec h (prev + 1)) as [Hgt|Hle].
    + split; [discriminate|]. intros H.
      specialize (H 0%nat prev h eq_refl eq_refl). lia.
    + rewrite IH. split.
      * intros H [|i] a b Ha Hb.
        -- cbn in Ha, Hb. simplify_eq. exact Hle.
        -- exact (H i a b Ha Hb).
      * intros H i a b Ha Hb. exact (H (S i) a b Ha Hb).
Qed.

(** X13: the loop over the heading levels of the Accessibility analyzer
    accepts a page exactly when no heading is more than one level deeper
    than the heading before it; going up by any number of levels is
    accepted, and so is a page without headings. *)
Theorem heading_order_valid_iff_no_skip (headings : list Z) :
  PageSpeedAnalyzer.headingOrderValid_of headings = true
  <-> forall i a b,
        headings !! i = Some a -> headings !! S i = Some b -> b <= a + 1.
Proof.
  destruct headings as [|h0 rest].
  - split; [|reflexivity]. intros _ i a b H. destruct i; discriminate H.
  - cbn [PageSpeedAnalyzer.headingOrderValid_of].
    rewrite headingOrder_from_spec. reflexivity.
Qed.

(** ** The certificate inspection *)

Lemma ceil_div_gt (x d k : Z) :
  0 < d -> (Ssl.ceil_div x d >? k) = (x >? k * d).
Proof.
  intros Hd. unfold Ssl.ceil_div.
  destruct (Z.gtb_spec x (k * d)) as [H|H];
    destruct (Z.gtb_spec (- (- x / d)) k) as [H'|H']; try reflexivity;
    exfalso.
  - assert (- k <= - x / d) by lia.
    pose proof (Z.mul_div_le (- x) d Hd).
    nia.
  - assert (- x / d < - k) by lia.
    pose proof (Z.mul_succ_div_gt (- x) d Hd).
    nia.
Qed.

Section Certificate.
Variable Date_parse : string -> option Z.

(** X14: whatever the TLS request brings, the SSL/TLS category has two
    checks whose scores lie between 0 and their maxScores of 10 and 5, and a
    category score between 0 and its maxScore of 15. *)
Theorem ssl_checks_in_range
        (this : TrustSecurityAnalyzer.t) (now : Z) (o : Ssl.TlsOutcome) :
  let ssl := Ssl.analyzeSSL Date_parse this now o in
  Forall in_range (values (checks ssl))
  /\ List.map maxScore (values (checks ssl)) = [10; 5]
  /\ cat_maxScore ssl = 15
  /\ 0 <= cat_score ssl <= 15.
Proof.
  cbv zeta. unfold Ssl.analyzeSSL.
  destruct (String.eqb _ "https:").
  - set (i := Ssl.getSSLInfo Date_parse now o).
    cbn [checks category values List.map snd cat_maxScore cat_score].
    unfold reduce_sum. cbn [List.fold_left score maxScore in_range].
    destruct (Ssl.valid i), (Ssl.daysUntilExpiry i >? 30),
      (Ssl.daysUntilExpiry i >? 7); cbn [fst snd];
      (split; [repeat constructor; unfold in_range; cbn; lia|]);
      (split; [reflexivity|]); split; (reflexivity || lia).
  - split; [repeat constructor; unfold in_range; cbn; lia|].
    split; [reflexivity|]. split; [reflexivity|]. cbn. lia.
Qed.

(** X15: the SSL/TLS category earns nothing, with both checks in status
    error, when the URL is not an https one, when the connection fails or
    times out, and when the peer presents no certificate or one without an
    expiry date. *)
Theorem ssl_no_points_without_certificate
        (this : TrustSecurityAnalyzer.t) (now : Z) (o : Ssl.TlsOutcome) :
  protocol (TrustSecurityAnalyzer.parsedUrl this) <> "https:"
  \/ o = Ssl.ConnectionError \/ o = Ssl.TimedOut
  \/ (exists a, o = Ssl.Responded None a)
  \/ (exists c a, o = Ssl.Responded (Some c) a
                  /\ truthy (Ssl.valid_to c) = false) ->
  cat_score (Ssl.analyzeSSL Date_parse this now o) = 0
  /\ Forall (fun c => status c = error)
            (values (checks (Ssl.analyzeSSL Date_parse this now o))).
Proof.
  intros H. unfold Ssl.analyzeSSL.
  destruct (String.eqb_spec
              (protocol (TrustSecurityAnalyzer.parsedUrl this)) "https:")
    as [E|E]; [|split; [reflexivity|repeat constructor]].
  assert (Hi : Ssl.getSSLInfo Date_parse now o = Ssl.no_certificate).
  { destruct H as [H|[->|[->|[[a ->]|(c & a & -> & Hc)]]]];
      try reflexivity; [contradiction|].
    unfold Ssl.getSSLInfo. now rewrite Hc. }
  rewrite Hi. split; [reflexivity|repeat constructor].
Qed.

(** X16: for an https URL whose peer presents a certificate with an expiry
    date, the Valid SSL check earns its 10 points exactly when the socket
    is authorized, and the SSL Expiry check depends on the time left
    only: 5 points when more than 30 days (of 86 400 000 ms) remain, 3 when
    more than 7 days remain, 0 otherwise, and 0 when the date does not
    parse. *)
Theorem ssl_expiry_by_remaining_time
        (this : TrustSecurityAnalyzer.t) (now : Z)
        (cert : Ssl.Certificate) (authorized : bool) (validTo : string) :
  protocol (TrustSecurityAnalyzer.parsedUrl this) = "https:" ->
  Ssl.valid_to cert = Some validTo ->
  validTo <> "" ->
  let ssl := Ssl.analyzeSSL Date_parse this now
               (Ssl.Responded (Some cert) authorized) in
  check_score "validSsl" ssl = Some (if authorized then 10 else 0)
  /\ check_score "sslExpiry" ssl
     = Some match Date_parse validTo with
            | Some expiry =>
                if expiry - now >? 30 * Ssl.msPerDay then 5
                else if expiry - now >? 7 * Ssl.msPerDay then 3
                else 0
            | None => 0
            end.
Proof.
  intros Hp Hv Hn. cbv zeta. unfold Ssl.analyzeSSL. rewrite Hp.
  cbn [String.eqb Ascii.eqb Bool.eqb].
  unfold Ssl.getSSLInfo. rewrite Hv.
  destruct validTo as [|c s]; [contradiction|].
  cbn [truthy JsString.truthy default from_option id].
  unfold check_score.
  cbn [checks category get_check String.eqb Ascii.eqb Bool.eqb option_map
       score Ssl.valid].
  split; [reflexivity|].
  unfold Ssl.daysUntilExpiry. cbn [Ssl.daysRemaining].
  destruct (Date_parse (String c s)) as [e|]; cbn [option_map fst];
    [|reflexivity].
  rewrite !ceil_div_gt by (vm_compute; reflexivity).
  repeat case_match; reflexivity.
Qed.
End Certificate.

Lemma ssl_no_points_without_certificate_witness :
  cat_score (Ssl.analyzeSSL Samples.known_dates Samples.shop_security
               Samples.november_3rd Ssl.TimedOut) = 0.
Proof.
  apply (ssl_no_points_without_certificate Samples.known_dates
           Samples.shop_security Samples.november_3rd Ssl.TimedOut).
  right. right. left. reflexivity.
Defined.

Lemma ssl_expiry_by_remaining_time_witness :
  check_score "validSsl"
    (Ssl.analyzeSSL Samples.known_dates Samples.shop_security
       Samples.november_3rd
       (Ssl.Responded (Some Samples.leaf_certificate) true)) = Some 10
  /\ check_score "sslExpiry"
       (Ssl.analyzeSSL Samples.known_dates Samples.shop_security
          Samples.november_3rd
          (Ssl.Responded (Some Samples.leaf_certificate) true)) = Some 5.
Proof.
  apply (ssl_expiry_by_remaining_time Samples.known_dates
           Samples.shop_security Samples.november_3rd
           Samples.leaf_certificate true "Jan  1 00:00:00 2027 GMT").
  - reflexivity.
  - reflexivity.
  - discriminate.
Defined.

(** ** The client *)

Lemma trimStart_head (s : string) :
  match JsString.trimStart s with
  | String c _ => JsString.is_space c = false
  | EmptyString => True
  end.
Proof.
  induction s as [|c s IH]; [exact I|].
  cbn [JsString.trimStart]. destruct (JsString.is_space c) eqn:E; [exact IH|].
  exact E.
Qed.

Lemma trimEnd_idem (s : string) :
  JsString.trimEnd (JsString.trimEnd s) = JsString.trimEnd s.
Proof.
  induction s as [|c s IH]; [reflexivity|].
  cbn [JsString.trimEnd].
  destruct (JsString.trimEnd s) as [|d t] eqn:E.
  - destruct (JsString.is_space c) eqn:Ec; [reflexivity|].
    cbn [JsString.trimEnd]. now rewrite Ec.
  - change (JsString.trimEnd (String c (String d t)))
      with (match JsString.trimEnd (String d t) with
            | EmptyString =>
                if JsString.is_space c then EmptyString
                else String c EmptyString
            | t' => String c t'
            end).
    rewrite IH. reflexivity.
Qed.

Lemma trimEnd_head (c : ascii) (s : string) :
  JsString.is_space c = false ->
  exists t, JsString.trimEnd (String c s) = String c t.
Proof.
  intros Hc. cbn [JsString.trimEnd].
  destruct (JsString.trimEnd s); rewrite ?Hc; eexists; reflexivity.
Qed.

Lemma trim_idem (s : string) : JsString.trim (JsString.trim s) = JsString.trim s.
Proof.
  unfold JsString.trim.
  pose proof (trimStart_head s) as H.
  destruct (JsString.trimStart s) as [|c t]; [reflexivity|].
  destruct (trimEnd_head c t H) as [t' E].
  rewrite E. cbn [JsString.trimStart]. rewrite H, <- E.
  apply trimEnd_idem.
Qed.

Lemma trimEnd_app (p x : string) :
  JsString.trimEnd x = x -> x <> EmptyString ->
  JsString.trimEnd (p ++ x) = p ++ x.
Proof.
  intros Hx Hn. induction p as [|c p IH]; [exact Hx|].
  change (JsString.trimEnd (String c p ++ x))
    with (match JsString.trimEnd (p ++ x) with
          | EmptyString =>
              if JsString.is_space c then EmptyString else String c EmptyString
          | t => String c t
          end).
  rewrite IH.
  change (String c p ++ x) with (String c (p ++ x)).
  destruct (p ++ x) eqn:E; [|reflexivity].
  destruct p; [contradiction|discriminate E].
Qed.

Lemma trimEnd_trim (s : string) :
  JsString.trimEnd (JsString.trim s) = JsString.trim s.
Proof. unfold JsString.trim. apply trimEnd_idem. Qed.

Lemma trim_empty_iff (s : string) :
  JsString.trim s = EmptyString
  <-> Forall (fun c => JsString.is_space c = true) (list_ascii_of_string s).
Proof.
  unfold JsString.trim. induction s as [|c s IH].
  - split; [constructor|reflexivity].
  - cbn [JsString.trimStart list_ascii_of_string].
    destruct (JsString.is_space c) eqn:E.
    + rewrite IH. split; [now constructor|now inversion 1].
    + split.
      * destruct (trimEnd_head c s E) as [t ->]. discriminate.
      * inversion 1; congruence.
Qed.

Lemma startsWith_app (p s : string) : JsString.startsWith (p ++ s) p = true.
Proof.
  induction p as [|c p IH]; [now destruct s|].
  change (String c p ++ s) with (String c (p ++ s)).
  cbn [JsString.startsWith]. now rewrite Ascii.eqb_refl, IH.
Qed.

(** X17: the URL that [analyzeWebsite] posts always starts with http:// or
    https://, has no white space at either end, and is left as it is when
    it is entered again: the client never prepends a second scheme. *)
Theorem target_url_is_absolute (url target : string) :
  Client.targetUrl url = Some target ->
  (JsString.startsWith target "http://" = true
   \/ JsString.startsWith target "https://" = true)
  /\ JsString.trim target = target
  /\ Client.targetUrl target = Some target.
Proof.
  unfold Client.targetUrl.
  destruct (JsString.trim url) as [|c t] eqn:E; [discriminate|].
  cbn [JsString.truthy negb]. rewrite <- E.
  assert (Hne : JsString.trim url <> EmptyString) by (rewrite E; discriminate).
  assert (Hstable :
            forall s, s <> EmptyString -> JsString.trim s = s ->
                      (JsString.startsWith s "http://" = true
                       \/ JsString.startsWith s "https://" = true) ->
                      (if negb (JsString.truthy (JsString.trim s)) then None
                       else Some
                              (if (negb (JsString.startsWith (JsString.trim s)
                                           "http://")
                                   && negb (JsString.startsWith
                                              (JsString.trim s) "https://"))%bool
                               then "https://" ++ JsString.trim s
                               else JsString.trim s)) = Some s).
  { intros s Hs -> Hp. destruct s; [contradiction|]. cbn [JsString.truthy negb].
    destruct Hp as [-> | ->]; [reflexivity|].
    now rewrite andb_false_r. }
  destruct (JsString.startsWith (JsString.trim url) "http://") eqn:H1;
    cbn [negb andb].
  - intros [= <-]. split; [now left|]. split; [apply trim_idem|].
    apply Hstable; [exact Hne|apply trim_idem|now left].
  - destruct (JsString.startsWith (JsString.trim url) "https://") eqn:H2;
      cbn [negb].
    + intros [= <-]. split; [now right|]. split; [apply trim_idem|].
      apply Hstable; [exact Hne|apply trim_idem|now right].
    + intros [= <-].
      assert (Ht : JsString.trim ("https://" ++ JsString.trim url)
                   = "https://" ++ JsString.trim url).
      { unfold JsString.trim at 1.
        change (JsString.trimStart ("https://" ++ JsString.trim url))
          with ("https://" ++ JsString.trim url).
        apply trimEnd_app; [apply trimEnd_trim|exact Hne]. }
      split; [right; apply startsWith_app|]. split; [exact Ht|].
      apply Hstable; [discriminate|exact Ht|right; apply startsWith_app].
Qed.

Lemma target_url_is_absolute_witness :
  Client.targetUrl "  example.com " = Some "https://example.com"
  /\ Client.targetUrl "https://example.com" = Some "https://example.com".
Proof.
  assert (H : Client.targetUrl "  example.com " = Some "https://example.com")
    by (vm_compute; reflexivity).
  split; [exact H|].
  exact (proj2 (proj2 (target_url_is_absolute "  example.com "
                         "https://example.com" H))).
Defined.

(** X18: the client posts nothing, and asks for a URL instead, exactly
    when the input consists of white space only (the empty input
    included). *)
Theorem blank_input_is_not_posted (url : string) :
  Client.targetUrl url = None
  <-> Forall (fun c => JsString.is_space c = true) (list_ascii_of_string url).
Proof.
  rewrite <- trim_empty_iff. unfold Client.targetUrl.
  destruct (JsString.trim url); cbn [JsString.truthy negb]; split;
    intros; congruence.
Qed.

Lemma Qle_bool_percentage (t score maxScore : Z) :
  0 < maxScore ->
  Qle_bool (t # 1) (js_div score maxScore * 100)
  = (t * maxScore <=? 100 * score).
Proof.
  intros Hm. destruct maxScore as [|p|p]; try lia.
  unfold Qle_bool, js_div, Qdiv, Qinv, Qmult, inject_Z. cbn [Qnum Qden].
  rewrite !Pos.mul_1_l, !Pos.mul_1_r, Z.mul_1_r.
  destruct (Z.leb_spec (t * Z.pos p) (score * 100)),
    (Z.leb_spec (t * Z.pos p) (100 * score)); lia.
Qed.

Lemma cardColor_percent (score maxScore : Z) :
  0 < maxScore ->
  Client.cardColor score maxScore
  = if 70 * maxScore <=? 100 * score then good
    else if 40 * maxScore <=? 100 * score then warning else error.
Proof.
  intros Hp. unfold Client.cardColor.
  destruct (Z.eqb_spec maxScore 0); [lia|]. cbv zeta.
  change 70%Q with (70 # 1). change 40%Q with (40 # 1).
  now rewrite !Qle_bool_percentage by assumption.
Qed.

Lemma cardColor_100 (score : Z) :
  Client.cardColor score 100 = Client.circleColor score.
Proof.
  rewrite cardColor_percent by lia. unfold Client.circleColor.
  destruct (Z.leb_spec (70 * 100) (100 * score)),
    (Z.geb_spec score 70); try lia;
    destruct (Z.leb_spec (40 * 100) (100 * score)),
      (Z.geb_spec score 40); try lia; reflexivity.
Qed.



(** ** The route, continued *)

Lemma fst_bind {A B} (m : Route.Handler A) (f : A -> Route.Handler B) :
  fst (Route.bind m f)
  = match snd m with
    | inl _ => fst m
    | inr a => (fst m ++ fst (f a))%list
    end.
Proof. destruct m as [tr [r|a]]; reflexivity. Qed.

Lemma fst_run (m : Route.Handler Route.Response) :
  fst (Route.run m) = fst m.
Proof. destruct m as [tr [r|r]]; reflexivity. Qed.

Lemma fst_axios_get (w : Route.World) (rq : Route.Request) (v : Z -> bool) :
  fst (Route.axios_get w rq v) = [Route.Fetch rq].
Proof. reflexivity. Qed.

Lemma fst_checkFileExists (w : Route.World) (baseUrl path : string) :
  fst (Route.checkFileExists w baseUrl path)
  = [Route.Fetch (Route.mkRequest (baseUrl ++ path) 5000 Route.botUserAgent)].
Proof. reflexivity. Qed.

(** Along the handler, for its log and its result at once. *)
Ltac step_trace :=
  repeat first
    [ rewrite fst_run
    | rewrite fst_bind
    | rewrite fst_axios_get
    | rewrite fst_checkFileExists
    | rewrite snd_run
    | rewrite snd_bind
    | rewrite snd_axios_get
    | rewrite snd_checkFileExists
    | progress unfold Route.internal_error
    | progress cbn [fst snd Route.emit Route.ret Route.respond app] ].

(** Once [new URL] has accepted the URL, no constructor and no analyzer
    fails. *)
Lemma quality_new_total (cheerio_load : string -> Dom)
      (new_URL : string -> option URL) (url html : string)
      (headers : gmap string string) (ad : AdditionalData) (u : URL) :
  new_URL url = Some u ->
  exists q,
    WebsiteQualityAnalyzer.new cheerio_load new_URL url html headers ad
    = Some q.
Proof.
  intros H. unfold WebsiteQualityAnalyzer.new. rewrite H. eexists. reflexivity.
Qed.

Lemma security_new_total (new_URL : string -> option URL) (url html : string)
      (headers : gmap string string) (u : URL) :
  new_URL url = Some u ->
  exists s, TrustSecurityAnalyzer.new new_URL url headers html = Some s.
Proof.
  intros H. unfold TrustSecurityAnalyzer.new. rewrite H. eexists. reflexivity.
Qed.

Lemma pagespeed_analyze_total (cheerio_load : string -> Dom)
      (new_URL : string -> option URL) (toFixed : Q -> nat -> string)
      (url html : string) (headers : gmap string string) (loadTime : Z)
      (u : URL) :
  new_URL url = Some u ->
  exists rep,
    PageSpeedAnalyzer.analyze toFixed new_URL
      (PageSpeedAnalyzer.new cheerio_load url html headers loadTime)
    = Some rep.
Proof.
  intros H.
  unfold PageSpeedAnalyzer.analyze, PageSpeedAnalyzer.analyzeBestPractices.
  change (PageSpeedAnalyzer.url
            (PageSpeedAnalyzer.new cheerio_load url html headers loadTime))
    with url.
  rewrite H. eexists. reflexivity.
Qed.

Ltac analyzers_run Hu :=
  repeat
    (step_trace;
     match goal with
     | |- context [WebsiteQualityAnalyzer.new ?a ?b ?c ?d ?e ?f] =>
         let q := fresh "quality" in
         let Hq := fresh "Hquality" in
         destruct (quality_new_total a b c d e f _ Hu) as [q Hq]; rewrite Hq
     | |- context [TrustSecurityAnalyzer.new ?a ?b ?c ?d] =>
         let q := fresh "security" in
         let Hq := fresh "Hsecurity" in
         destruct (security_new_total a b d c _ Hu) as [q Hq]; rewrite Hq
     | |- context [PageSpeedAnalyzer.analyze ?t ?n
                     (PageSpeedAnalyzer.new ?a ?b ?c ?d ?e)] =>
         let q := fresh "speed" in
         let Hq := fresh "Hspeed" in
         destruct (pagespeed_analyze_total a n t b c d e _ Hu) as [q Hq];
         rewrite Hq
     end);
  step_trace.

(** The Crawlability check of a file earns its points exactly when the
    content handed to the constructor is truthy. *)
Lemma crawlability_counts_truthy_files
        (cheerio_load : string -> Dom) (new_URL : string -> option URL)
        (url html : string) (headers : gmap string string)
        (additionalData : AdditionalData) (this : WebsiteQualityAnalyzer.t) :
  WebsiteQualityAnalyzer.new cheerio_load new_URL url html headers
    additionalData = Some this ->
  let crawlability := WebsiteQualityAnalyzer.analyzeCrawlability this in
  check_score "robotsTxt" crawlability
  = Some (if JsVal.truthy (ad_robotsTxt additionalData) then 4 else 0)
  /\ check_score "sitemap" crawlability
     = Some (if JsVal.truthy (ad_sitemap additionalData) then 4 else 0)
  /\ check_score "llmsTxt" crawlability
     = Some (if JsVal.truthy (ad_llmsTxt additionalData) then 3 else 0).
Proof.
  unfold WebsiteQualityAnalyzer.new.
  destruct (new_URL url) as [u|]; [|discriminate].
  intros [= <-]. cbv zeta.
  unfold check_score, WebsiteQualityAnalyzer.analyzeCrawlability.
  cbn [checks category get_check String.eqb Ascii.eqb Bool.eqb option_map
       score WebsiteQualityAnalyzer.robotsTxt WebsiteQualityAnalyzer.sitemap
       WebsiteQualityAnalyzer.llmsTxt].
  unfold WebsiteQualityAnalyzer.has_file, JsVal.or_null.
  destruct additionalData as [[| |[]|n|s|r] [| |[]|n'|s'|r'] [| |[]|n''|s''|r'']];
    cbn [ad_robotsTxt ad_sitemap ad_llmsTxt JsVal.truthy];
    repeat match goal with
           | |- context [negb (?n =? 0)] => destruct (n =? 0); cbn [negb]
           | |- context [JsString.truthy ?s] =>
               destruct (JsString.truthy s)
           end;
    repeat split; reflexivity.
Qed.

Lemma truthy_file_content (w : Route.World) (u : URL) (path : string) :
  JsVal.truthy (Route.file_content w (protocol u ++ "//" ++ host u) path)
  = served w (file_request u path).
Proof.
  unfold Route.file_content, served, file_request.
  destruct (Route.network w _) as [st d h|msg]; [|reflexivity].
  destruct (st =? 200); reflexivity.
Qed.

Section RouteOutcomes.
Variable cheerio_load : string -> Dom.
Variable new_URL : string -> option URL.
Variable toFixed : Q -> nat -> string.

(** X20: when the request for the page fails, or is answered with a
    status of 500 or more, the handler answers 400 with the error 'Could not
    fetch the website' and the message of the failure as details; it has
    logged the URL, sent that one request and logged the failure, and
    nothing else: no file was requested and no analyzer was run. *)
Theorem fetch_failure_answers_400
        (w : Route.World) (url : JsVal) (u : URL) (message : string) :
  JsVal.truthy url = true ->
  new_URL (JsVal.to_string url) = Some u ->
  protocol u = "http:" \/ protocol u = "https:" ->
  Route.network w (page_request (JsVal.to_string url)) = Route.Failure message
  \/ (exists st d h,
        Route.network w (page_request (JsVal.to_string url))
        = Route.Reply st d h
        /\ 500 <= st
        /\ message = "Request failed with status code " ++ show_Z st) ->
  Route.run (Route.post cheerio_load new_URL toFixed w url)
  = ([Route.ConsoleLog ("Analyzing: " ++ JsVal.to_string url);
      Route.Fetch (page_request (JsVal.to_string url));
      Route.ConsoleError ("Fetch error: " ++ message)],
     {| Route.status_code := 400;
        Route.body := Route.ErrorBody "Could not fetch the website"
                                      (Some message) |}).
Proof.
  intros Ht Hu Hp Hnet.
  assert (Hp' : existsb (String.eqb (protocol u)) ["http:"; "https:"] = true).
  { destruct Hp as [-> | ->]; reflexivity. }
  assert (Hout : match Route.network w (page_request (JsVal.to_string url)) with
                 | Route.Failure msg => inl msg
                 | Route.Reply st d h =>
                     if st <? 500 then inr (d, h)
                     else inl ("Request failed with status code " ++ show_Z st)
                 end = inl message :> string + (JsVal * gmap string string)).
  { destruct Hnet as [-> | (st & d & h & -> & Hst & ->)]; [reflexivity|].
    destruct (Z.ltb_spec st 500); [lia|reflexivity]. }
  unfold page_request in *.
  rewrite (surjective_pairing (Route.run _)).
  unfold Route.post. rewrite Ht, Hu. cbn [negb]. rewrite Hp'. cbn [negb].
  f_equal.
  - step_trace. rewrite Hout. reflexivity.
  - step_trace. rewrite Hout. reflexivity.
Qed.


(** X22: the handler answers every request with one of three shapes:
    status 200 with an analysis result; status 400 with an error body; or
    status 500 with the error 'Failed to analyze the website' and the
    message of the exception.  The last happens only when the request has
    no parsed body, or when the page request was answered with a status
    below 500 and a body that is not a string or a page on which a label is
    looked up for an [id] with a double quote or a backslash. *)
Theorem response_is_result_or_error (w : Route.World) (body : option JsVal) :
  let r := snd (Route.run (Route.handle cheerio_load new_URL toFixed w body)) in
  (Route.status_code r = 200 /\ exists res, Route.body r = Route.ResultBody res)
  \/ (Route.status_code r = 400
      /\ exists e d, Route.body r = Route.ErrorBody e d)
  \/ (Route.status_code r = 500
      /\ Route.body r
         = Route.ErrorBody "Failed to analyze the website"
                           (Some (Route.type_error w))
      /\ (body = None
          \/ exists url st d h,
               body = Some url
               /\ Route.network w (page_request (JsVal.to_string url))
                  = Route.Reply st d h
               /\ st < 500
               /\ forall html,
                    d = JStr html -> labels_plain (cheerio_load html) = false)).
Proof.
  cbv zeta. destruct body as [url|]; unfold Route.handle;
    [|right; right; step_handler; split; [reflexivity|];
      split; [reflexivity|left; reflexivity]].
  unfold Route.post, page_request.
  destruct (JsVal.truthy url); cbn [negb];
    [|right; left; split; [reflexivity|do 2 eexists; reflexivity]].
  destruct (new_URL (JsVal.to_string url)) as [u|] eqn:Hu;
    [|right; left; split; [reflexivity|do 2 eexists; reflexivity]].
  destruct (existsb _ _); cbn [negb];
    [|right; left; split; [reflexivity|do 2 eexists; reflexivity]].
  step_handler.
  destruct (Route.network w _) as [st d h|msg] eqn:Hnet;
    [|step_handler; right; left; split; [reflexivity|do 2 eexists; reflexivity]].
  destruct (Z.ltb_spec st 500) as [Hst|Hst];
    [|step_handler; right; left; split; [reflexivity|do 2 eexists; reflexivity]].
  destruct d as [| |b|n|html|repr].
  5: { analyzers_run Hu. left. split; [reflexivity|eexists; reflexivity]. }
  all: step_handler; right; right; split; [reflexivity|];
    split; [reflexivity|]; right;
    exists url, st; eexists; exists h; split; [reflexivity|];
    split; [exact Hnet|]; split; [exact Hst|]; discriminate.
Qed.

(** X23: in an analysis result the Crawlability checks of the Quality
    section reflect the three file requests: robots.txt and sitemap.xml earn
    their 4 points, and llms.txt its 3, exactly when the request for the
    file at the origin of the URL was answered with status 200 and a truthy
    body; any other status, a failure or an empty body counts as a missing
    file. *)
Theorem crawl_files_counted_when_served
        (w : Route.World) (url : JsVal) (r : Route.AnalysisResult) :
  Route.body (snd (Route.run (Route.post cheerio_load new_URL toFixed w url)))
  = Route.ResultBody r ->
  exists u crawlability,
    new_URL (JsVal.to_string url) = Some u
    /\ In ("crawlability", crawlability)
          (Route.sec_categories (Route.websiteQuality (Route.sections r)))
    /\ check_score "robotsTxt" crawlability
       = Some (if served w (file_request u "/robots.txt") then 4 else 0)
    /\ check_score "sitemap" crawlability
       = Some (if served w (file_request u "/sitemap.xml") then 4 else 0)
    /\ check_score "llmsTxt" crawlability
       = Some (if served w (file_request u "/llms.txt") then 3 else 0).
Proof.
  unfold Route.post.
  repeat (step_handler; try split_cond).
  all: cbn [Route.body]; try discriminate.
  intros H. apply ResultBody_inj in H. subst r.
  cbn [Route.sections Route.websiteQuality Route.sec_categories].
  match goal with
  | Hu : new_URL _ = Some ?u,
    Hq : WebsiteQualityAnalyzer.new _ _ _ _ _ _ = Some ?q |- _ =>
      pose proof (crawlability_counts_truthy_files _ _ _ _ _ _ _ Hq) as Hc;
      exists u, (WebsiteQualityAnalyzer.analyzeCrawlability q)
  end.
  cbv zeta in Hc. cbn [ad_robotsTxt ad_sitemap ad_llmsTxt] in Hc.
  rewrite !truthy_file_content in Hc.
  split; [reflexivity|]. split; [|exact Hc].
  unfold WebsiteQualityAnalyzer.analyze. cbn [categories].
  do 5 right. left. reflexivity.
Qed.

(** X24: the three sections of an analysis result have maxScore 100, so the
    colour the client gives a section card from its score and maxScore is
    the colour a score circle gives the same score. *)
Theorem report_cards_coloured_as_circles
        (w : Route.World) (url : JsVal) (r : Route.AnalysisResult) :
  Route.body (snd (Route.run (Route.post cheerio_load new_URL toFixed w url)))
  = Route.ResultBody r ->
  let quality := Route.websiteQuality (Route.sections r) in
  let security := Route.trustSecurity (Route.sections r) in
  let speed := Route.ps_section (Route.pageSpeed (Route.sections r)) in
  Forall (fun s => Route.sec_maxScore s = 100
                   /\ Client.cardColor (Route.sec_score s)
                                       (Route.sec_maxScore s)
                      = Client.circleColor (Route.sec_score s))
         [quality; security; speed].
Proof.
  unfold Route.post.
  repeat (step_handler; try split_cond).
  all: cbn [Route.body]; try discriminate.
  intros H. apply ResultBody_inj in H. subst r. cbv zeta.
  cbn [Route.sections Route.websiteQuality Route.trustSecurity
       Route.pageSpeed Route.ps_section].
  repeat apply List.Forall_cons; try apply List.Forall_nil;
    cbn [Route.sec_maxScore Route.sec_score];
    (split; [reflexivity|apply cardColor_100]).
Qed.
End RouteOutcomes.

Lemma fetch_failure_answers_400_witness :
  Route.run (Route.post Fixtures.load Fixtures.simple_URL
               Fixtures.toFixed_exact Samples.offline
               Fixtures.example_request)
  = ([Route.ConsoleLog "Analyzing: http://example.com";
      Route.Fetch (page_request "http://example.com");
      Route.ConsoleError "Fetch error: getaddrinfo ENOTFOUND example.com"],
     {| Route.status_code := 400;
        Route.body :=
          Route.ErrorBody "Could not fetch the website"
            (Some "getaddrinfo ENOTFOUND example.com") |}).
Proof.
  apply (fetch_failure_answers_400 Fixtures.load Fixtures.simple_URL
           Fixtures.toFixed_exact Samples.offline Fixtures.example_request
           Fixtures.example_url "getaddrinfo ENOTFOUND example.com").
  - reflexivity.
  - vm_compute. reflexivity.
  - left. reflexivity.
  - left. reflexivity.
Defined.


Lemma crawl_files_counted_when_served_witness :
  exists r u crawlability,
    Route.body (Fixtures.example_response Fixtures.morning)
    = Route.ResultBody r
    /\ In ("crawlability", crawlability)
          (Route.sec_categories (Route.websiteQuality (Route.sections r)))
    /\ check_score "robotsTxt" crawlability
       = Some (if served Fixtures.morning (file_request u "/robots.txt")
               then 4 else 0).
Proof.
  destruct (Route.body (Fixtures.example_response Fixtures.morning))
    as [e d|r] eqn:E; [vm_compute in E; discriminate E|].
  destruct (crawl_files_counted_when_served Fixtures.load
              Fixtures.simple_URL Fixtures.toFixed_exact Fixtures.morning
              Fixtures.example_request r E)
    as (u & crawlability & _ & Hin & H & _).
  exists r, u, crawlability. split; [reflexivity|]. split; [exact Hin|exact H].
Defined.

Lemma report_cards_coloured_as_circles_witness :
  exists r,
    Route.body (Fixtures.example_response Fixtures.morning)
    = Route.ResultBody r
    /\ Client.cardColor
         (Route.sec_score (Route.websiteQuality (Route.sections r)))
         (Route.sec_maxScore (Route.websiteQuality (Route.sections r)))
       = Client.circleColor
           (Route.sec_score (Route.websiteQuality (Route.sections r))).
Proof.
  destruct (Route.body (Fixtures.example_response Fixtures.morning))
    as [e d|r] eqn:E; [vm_compute in E; discriminate E|].
  exists r. split; [reflexivity|].
  pose proof (report_cards_coloured_as_circles Fixtures.load
                Fixtures.simple_URL Fixtures.toFixed_exact Fixtures.morning
                Fixtures.example_request r E) as H.
  cbv zeta in H. apply List.Forall_inv in H. exact (proj2 H).
Defined.
